(** * EnviroPlus monitor: sampling, compensation, dispatch and display

    A shallow embedding of [EnviroPlus/main.py] and of [emi_test.py],
    the earlier script it grew from, together with the properties the
    specification states about them and further properties of the code:
    the shape and values of a reading, the local table and its rows, the
    main loop over many passes, the wait for a start minute, and the
    local store and cadence of [emi_test.py].

    Conventions of the embedding.
    - Python [float]s are read as exact rationals ([Q]): arithmetic is exact
      and [round] rounds the exact value half-to-even.  Python [int]s are [Z].
      A number held in a reading is a [num], either of the two.
    - A [dict] is an insertion-ordered association list with unique keys.
    - Code that talks to the outside (sensors, console, SQLite, HTTP, LCD)
      runs in a state-and-exception monad over a [World] that records what
      the collaborators were asked to do and says how they answer.
    - [str] of a number is a parameter of the development: no property
      below depends on how Python prints a float. *)

From Stdlib Require Import ZArith QArith Qround Qminmax Bool List String Ascii.
From Stdlib Require Import Lia Lqa.
Import ListNotations.

Local Open Scope string_scope.
Local Open Scope Z_scope.
Local Open Scope Q_scope.

(** ** Numbers *)

Inductive num : Type :=
| Int (z : Z)
| Float (q : Q).

(** [bool(x)] of a number: false exactly for [0] and [0.0]. *)
Definition truthy (v : num) : bool :=
  match v with
  | Int z => negb (z =? 0)%Z
  | Float q => negb (Qeq_bool q 0)
  end.

(** The rational value of a number. *)
Definition num_value (v : num) : Q :=
  match v with
  | Int z => inject_Z z
  | Float q => q
  end.

(** Rounding of an exact value to the nearest integer, ties to even. *)
Definition round_half_even (x : Q) : Z :=
  let f := Qfloor x in
  match Qcompare (x - inject_Z f) (1 # 2) with
  | Lt => f
  | Gt => (f + 1)%Z
  | Eq => if Z.even f then f else (f + 1)%Z
  end.

(** [int(x)] of a float: truncation towards zero. *)
Definition py_int (x : Q) : Z :=
  if Qle_bool 0 x then Qfloor x else Qceiling x.

Definition pow10 (n : Z) : Z := (10 ^ Z.abs n)%Z.

(** The builtin [round(x, ndigits)] on a float. *)
Definition round_float (x : Q) (ndigits : Z) : Q :=
  let s := pow10 ndigits in
  if (0 <=? ndigits)%Z
  then Qred (inject_Z (round_half_even (x * inject_Z s)) / inject_Z s)
  else Qred (inject_Z (round_half_even (x / inject_Z s) * s)).

(** The builtin [round(x, ndigits)] on an int: the int itself when
    [ndigits >= 0], else the nearest multiple of [10 ^ -ndigits]. *)
Definition round_int (z : Z) (ndigits : Z) : Z :=
  if (0 <=? ndigits)%Z then z
  else (round_half_even (inject_Z z / inject_Z (pow10 ndigits)) * pow10 ndigits)%Z.

Definition py_round (v : num) (ndigits : Z) : num :=
  match v with
  | Int z => Int (round_int z ndigits)
  | Float q => Float (round_float q ndigits)
  end.

(** ** Dictionaries *)

Definition dict : Type := list (string * num).

Fixpoint dict_get {V : Type} (d : list (string * V)) (k : string) : option V :=
  match d with
  | [] => None
  | (k', v) :: d' => if String.eqb k' k then Some v else dict_get d' k
  end.

(** [d[k] = v]: overwrite in place, or append a new key at the end. *)
Fixpoint dict_set {V : Type} (d : list (string * V)) (k : string) (v : V)
  : list (string * V) :=
  match d with
  | [] => [(k, v)]
  | (k', v') :: d' =>
      if String.eqb k' k then (k', v) :: d' else (k', v') :: dict_set d' k v
  end.

(** The dictionary without key [k] (the key was never written). *)
Fixpoint dict_remove {V : Type} (d : list (string * V)) (k : string)
  : list (string * V) :=
  match d with
  | [] => []
  | (k', v) :: d' =>
      if String.eqb k' k then dict_remove d' k else (k', v) :: dict_remove d' k
  end.

(** ** Settings (the EDITABLE block of main.py) *)

Record Config : Type := {
  ROUND_DATA_TO_DP : Z;
  MEASURE_PM25 : bool;
  MEASURE_PM10 : bool;
  MEASURE_TEMPERATURE : bool;
  MEASURE_PRESSURE : bool;
  MEASURE_HUMIDITY : bool;
  MEASURE_GASES : bool;
  MEASURE_CPU_TEMPERATURE : bool;
  COMPENSATE_TEMPERATURE : bool;
  TEMP_COMPENSATION_FACTOR : Q;
  SAVE_DATA_LOCALLY : bool;
  VERBOSE : bool;
  MEASUREMENT_FREQUENCY : Q
}.

(** The values main.py ships with. *)
Definition default_config : Config := {|
  ROUND_DATA_TO_DP := 2;
  MEASURE_PM25 := true;
  MEASURE_PM10 := true;
  MEASURE_TEMPERATURE := true;
  MEASURE_PRESSURE := true;
  MEASURE_HUMIDITY := true;
  MEASURE_GASES := true;
  MEASURE_CPU_TEMPERATURE := false;
  COMPENSATE_TEMPERATURE := true;
  TEMP_COMPENSATION_FACTOR := 2.25;
  SAVE_DATA_LOCALLY := true;
  VERBOSE := true;
  MEASUREMENT_FREQUENCY := 2
|}.

(** ** Exceptions and the monad of effectful code *)

Inductive exn : Type :=
| ReadTimeoutError
| ChecksumMismatchError
| KeyError (k : string)
| ZeroDivisionError
| ConnectionError
| Timeout
| RequestException
| OSError
| DatabaseError
| ValueError.

Inductive result (A : Type) : Type :=
| Ok (a : A)
| Raise (e : exn).

Arguments Ok {A} a.
Arguments Raise {A} e.

(** ** The world the program runs in *)

(** One PMS5003 frame, or the error its driver raises instead. *)
Inductive pm_outcome : Type :=
| PmData (pm25 pm10 : Z)
| PmFail (e : exn).

(** A value of the JSON body: main.py sends numbers, emi_test.py sends
    the strings it formatted. *)
Inductive json_value : Type :=
| JNum (v : num)
| JStr (s : string).

(** A submission to the aggregation service: the two headers that vary and
    the [sensordatavalues] list of the JSON body, as (value_type, value). *)
Record Request : Type := {
  x_pin : string;
  x_sensor : string;
  sensordatavalues : list (string * json_value)
}.

(** The ways [requests.post] fails: the classes of [requests.exceptions]
    the program names. *)
Inductive request_error : Type :=
| ConnectionFailed
| TimedOut
| OtherRequestError.

Definition exn_of_request_error (e : request_error) : exn :=
  match e with
  | ConnectionFailed => ConnectionError
  | TimedOut => Timeout
  | OtherRequestError => RequestException
  end.

(** What [requests.post] does with a submission: a response with its [ok]
    flag and [reason], or an exception. *)
Inductive post_outcome : Type :=
| Response (ok : bool) (reason : string)
| PostFails (e : request_error).

(** The image the LCD is asked to show. *)
Record Frame : Type := {
  bg_red : bool;
  texts : list (Z * Z * string);
  bar_percent : Q;
  bar_right : Z
}.

Definition blank_frame : Frame :=
  {| bg_red := false; texts := []; bar_percent := 0; bar_right := 0 |}.

(** Calls to builtins and collaborators, in the order they are made. *)
Inductive event : Type :=
| EvBme280
| EvPmsRead
| EvPmsReset
| EvProximity
| EvRound (x : num) (ndigits : Z)
| EvPrint (line : string)
| EvSql (command : string)
| EvPost (r : Request)
| EvDisplay (f : Frame)
| EvLog (message : string).

(** How the collaborators behave: fixed for a run. *)
Record Env : Type := {
  console_fault : option exn;
  db_fault : option exn;
  table_name : string;
  http_server : Request -> post_outcome;
  display_width : Z
}.

(** What one pass of the loop reads from clocks and sensors. *)
Record Sample : Type := {
  time_time : Q;
  datetime_now : string;
  bme280_temperature : Q;
  bme280_pressure : Q;
  bme280_humidity : Q;
  thermal_zone0 : Z;
  gas_oxidising : Q;
  gas_reducing : Q;
  gas_nh3 : Q;
  ltr559_proximity : Z
}.

(** Mutable state: the particulate sensor's coming answers, the image
    being drawn, the trace of calls, the module globals
    ([mainloop_errors], [current_scene_id]) and the locals of [mainloop]
    that live across passes. *)
Record World : Type := {
  pms_pending : list pm_outcome;
  image : Frame;
  trace : list event;
  mainloop_errors : bool;
  current_scene_id : Z;
  previous_time : Q;
  data : dict;
  measurement_time : string
}.

Definition set_pms_pending (x : list pm_outcome) (w : World) : World :=
  {| pms_pending := x; image := image w; trace := trace w;
     mainloop_errors := mainloop_errors w; current_scene_id := current_scene_id w;
     previous_time := previous_time w; data := data w;
     measurement_time := measurement_time w |}.

Definition set_image (x : Frame) (w : World) : World :=
  {| pms_pending := pms_pending w; image := x; trace := trace w;
     mainloop_errors := mainloop_errors w; current_scene_id := current_scene_id w;
     previous_time := previous_time w; data := data w;
     measurement_time := measurement_time w |}.

Definition set_trace (x : list event) (w : World) : World :=
  {| pms_pending := pms_pending w; image := image w; trace := x;
     mainloop_errors := mainloop_errors w; current_scene_id := current_scene_id w;
     previous_time := previous_time w; data := data w;
     measurement_time := measurement_time w |}.

Definition set_mainloop_errors (x : bool) (w : World) : World :=
  {| pms_pending := pms_pending w; image := image w; trace := trace w;
     mainloop_errors := x; current_scene_id := current_scene_id w;
     previous_time := previous_time w; data := data w;
     measurement_time := measurement_time w |}.

Definition set_current_scene_id (x : Z) (w : World) : World :=
  {| pms_pending := pms_pending w; image := image w; trace := trace w;
     mainloop_errors := mainloop_errors w; current_scene_id := x;
     previous_time := previous_time w; data := data w;
     measurement_time := measurement_time w |}.

Definition set_previous_time (x : Q) (w : World) : World :=
  {| pms_pending := pms_pending w; image := image w; trace := trace w;
     mainloop_errors := mainloop_errors w; current_scene_id := current_scene_id w;
     previous_time := x; data := data w;
     measurement_time := measurement_time w |}.

Definition set_data (x : dict) (w : World) : World :=
  {| pms_pending := pms_pending w; image := image w; trace := trace w;
     mainloop_errors := mainloop_errors w; current_scene_id := current_scene_id w;
     previous_time := previous_time w; data := x;
     measurement_time := measurement_time w |}.

Definition set_measurement_time (x : string) (w : World) : World :=
  {| pms_pending := pms_pending w; image := image w; trace := trace w;
     mainloop_errors := mainloop_errors w; current_scene_id := current_scene_id w;
     previous_time := previous_time w; data := data w;
     measurement_time := x |}.

(** State and exceptions: a computation returns a value or raises, and
    leaves the world as it was at that point. *)
Definition M (A : Type) : Type := World -> result A * World.

Definition ret {A} (a : A) : M A := fun w => (Ok a, w).

Definition bind {A B} (m : M A) (k : A -> M B) : M B :=
  fun w =>
    match m w with
    | (Ok a, w') => k a w'
    | (Raise e, w') => (Raise e, w')
    end.

Definition raise {A} (e : exn) : M A := fun w => (Raise e, w).

Definition gets {A} (f : World -> A) : M A := fun w => (Ok (f w), w).

Definition modify (f : World -> World) : M unit := fun w => (Ok tt, f w).

(** [try: m except <the exceptions h answers>: ...]: an exception for
    which [h] has no handler goes on propagating. *)
Definition try_except {A} (m : M A) (h : exn -> option (M A)) : M A :=
  fun w =>
    match m w with
    | (Ok a, w') => (Ok a, w')
    | (Raise e, w') =>
        match h e with
        | Some k => k w'
        | None => (Raise e, w')
        end
    end.

Notation "x <- m ;; k" := (bind m (fun x => k))
  (at level 61, m at next level, right associativity).
Notation "m ;; k" := (bind m (fun _ => k))
  (at level 61, right associativity).

(** Appending one call to the trace. *)
Definition emit (e : event) : M unit :=
  modify (fun w => set_trace (trace w ++ [e]) w).

(** The builtin [round], observed. *)
Definition round_ (x : num) (ndigits : Z) : M num :=
  emit (EvRound x ndigits) ;; ret (py_round x ndigits).

(** [logging.info], [logging.warning], [logging.critical], [logger.error]. *)
Definition logging (message : string) : M unit := emit (EvLog message).

(** [pms5003.read()]: the next pending answer; a sensor with nothing
    pending does not answer in time. *)
Definition pms5003_read : M (Z * Z) :=
  emit EvPmsRead ;;
  pending <- gets pms_pending ;;
  modify (set_pms_pending (tl pending)) ;;
  match pending with
  | PmData pm25 pm10 :: _ => ret (pm25, pm10)
  | PmFail e :: _ => raise e
  | [] => raise ReadTimeoutError
  end.

Definition pms5003_reset : M unit := emit EvPmsReset.

(** ** String helpers that the program takes from Python *)

(** [s[:-n]] for [n > 0]: the string without its last [n] characters. *)
Definition drop_last (n : nat) (s : string) : string :=
  String.substring 0 (String.length s - n) s.

Definition newline : string := String (ascii_of_nat 10) EmptyString.

(** [dict(i for i in data.items() if not i[0].startswith("P"))]. *)
Definition climate_items {V : Type} (d : list (string * V)) : list (string * V) :=
  filter (fun i => negb (String.prefix "P" (fst i))) d.

(** [dict(i for i in values.items() if i[0].startswith("P"))]. *)
Definition particulate_items {V : Type} (d : list (string * V))
  : list (string * V) :=
  filter (fun i => String.prefix "P" (fst i)) d.

(** [[{"value_type": key, "value": val} for key, val in d.items()]]. *)
Definition reshaped {V : Type} (to_json : V -> json_value) (d : list (string * V))
  : list (string * json_value) :=
  map (fun i => (fst i, to_json (snd i))) d.

(** [int(x)] of a number. *)
Definition int_of (v : num) : Z :=
  match v with
  | Int z => z
  | Float q => py_int q
  end.

(** ** EnviroPlus/main.py *)

Module Main.
Section Program.

Variable cfg : Config.
Variable env : Env.
(** [str(x)] of a number. *)
Variable str_num : num -> string.

(** [str(data.get(k))]. *)
Definition str_opt (o : option num) : string :=
  match o with
  | Some v => str_num v
  | None => "None"
  end.

(** [data[k]]. *)
Definition dict_item (d : dict) (k : string) : M num :=
  match dict_get d k with
  | Some v => ret v
  | None => raise (KeyError k)
  end.

(** [data.get(k, 0)]. *)
Definition dict_get_default (d : dict) (k : string) : num :=
  match dict_get d k with
  | Some v => v
  | None => Int 0
  end.

Definition calibrate_temperature (temperature : Q) : M num :=
  round_ (Float temperature) (ROUND_DATA_TO_DP cfg).

Definition calibrate_pressure (pressure : Q) : M num :=
  round_ (Float pressure) (ROUND_DATA_TO_DP cfg).

Definition calibrate_humidity (humidity : Q) : M num :=
  round_ (Float humidity) (ROUND_DATA_TO_DP cfg).

Definition calibrate_pm25 (pm25 : Z) : M num :=
  round_ (Int pm25) (ROUND_DATA_TO_DP cfg).

Definition calibrate_pm10 (pm10 : Z) : M num :=
  round_ (Int pm10) (ROUND_DATA_TO_DP cfg).

Definition get_cpu_temperature (s : Sample) : Q :=
  inject_Z (thermal_zone0 s) / 1000.

(** Float division raises on a zero divisor. *)
Definition float_div (x y : Q) : M Q :=
  if Qeq_bool y 0 then raise ZeroDivisionError else ret (x / y).

Definition compensate_temperature (raw_temp cpu_temp comp_factor : Q) : M Q :=
  bleed <- float_div (cpu_temp - raw_temp) comp_factor ;;
  let comp_temp := raw_temp - bleed in
  r <- round_ (Float comp_temp) (ROUND_DATA_TO_DP cfg) ;;
  ret (num_value r).

Definition bme280_get (reading : Q) : M Q := emit EvBme280 ;; ret reading.

(** [output[k] = v] when the measurement is enabled. *)
Definition store_if (enabled : bool) (output : dict) (k : string) (v : M num)
  : M dict :=
  if enabled then x <- v ;; ret (dict_set output k x) else ret output.

(** The block "Updating dict" of [get_sensor_data]. *)
Definition updating_dict (temperature pressure humidity cpu_temperature : Q)
  (pm25 pm10 : Z) (oxidising reducing nh3 : Q) : M dict :=
  let output : dict := [] in
  output <- store_if (MEASURE_TEMPERATURE cfg) output "temperature"
              (calibrate_temperature temperature) ;;
  output <- store_if (MEASURE_PRESSURE cfg) output "pressure"
              (calibrate_pressure pressure) ;;
  output <- store_if (MEASURE_HUMIDITY cfg) output "humidity"
              (calibrate_humidity humidity) ;;
  output <- store_if (MEASURE_PM25 cfg) output "P2" (calibrate_pm25 pm25) ;;
  output <- store_if (MEASURE_PM10 cfg) output "P1" (calibrate_pm10 pm10) ;;
  output <- store_if (MEASURE_CPU_TEMPERATURE cfg) output "cpu_temperature"
              (round_ (Float cpu_temperature) (ROUND_DATA_TO_DP cfg)) ;;
  output <- store_if (MEASURE_GASES cfg) output "oxidising"
              (round_ (Float (oxidising / 1000)) (ROUND_DATA_TO_DP cfg)) ;;
  output <- store_if (MEASURE_GASES cfg) output "reducing"
              (round_ (Float (reducing / 1000)) (ROUND_DATA_TO_DP cfg)) ;;
  output <- store_if (MEASURE_GASES cfg) output "nh3"
              (round_ (Float (nh3 / 1000)) (ROUND_DATA_TO_DP cfg)) ;;
  ret output.

(** [get_sensor_data]: the block "Collecting sensor data", then
    [updating_dict]. *)
Definition get_sensor_data (s : Sample) : M (dict * string) :=
  let current_time := datetime_now s in
  temperature <- bme280_get (bme280_temperature s) ;;
  pressure <- bme280_get (bme280_pressure s) ;;
  humidity <- bme280_get (bme280_humidity s) ;;
  let cpu_temperature := get_cpu_temperature s in
  temperature <-
    (if COMPENSATE_TEMPERATURE cfg
     then compensate_temperature temperature cpu_temperature
            (TEMP_COMPENSATION_FACTOR cfg)
     else ret temperature) ;;
  current_pm <- pms5003_read ;;
  let pm25 := fst current_pm in
  let pm10 := snd current_pm in
  let oxidising := gas_oxidising s in
  let reducing := gas_reducing s in
  let nh3 := gas_nh3 s in
  output <- updating_dict temperature pressure humidity cpu_temperature
              pm25 pm10 oxidising reducing nh3 ;;
  ret (output, current_time).

(** *** Local database *)

(** [cursor.execute(command); connection.commit()]. *)
Definition db_execute (command : string) : M unit :=
  match db_fault env with
  | Some e => raise e
  | None => emit (EvSql command)
  end.

(** The [INSERT] statement [send_to_local_db] builds. *)
Definition insert_command (data : dict) (measurement_time : string) : string :=
  let command :=
    "INSERT INTO " ++ table_name env ++ " VALUES ('" ++ measurement_time ++ "'," in
  let column (enabled : bool) (k : string) : string :=
    if enabled then str_opt (dict_get data k) ++ "," else "" in
  let command := command ++ column (MEASURE_TEMPERATURE cfg) "temperature" in
  let command := command ++ column (MEASURE_HUMIDITY cfg) "humidity" in
  let command := command ++ column (MEASURE_PRESSURE cfg) "pressure" in
  let command := command ++ column (MEASURE_CPU_TEMPERATURE cfg) "cpu_temperature" in
  let command := command ++ column (MEASURE_PM25 cfg) "P2" in
  let command := command ++ column (MEASURE_PM10 cfg) "P1" in
  let command :=
    if MEASURE_GASES cfg
    then command ++ str_opt (dict_get data "oxidising") ++ ","
                 ++ str_opt (dict_get data "reducing") ++ ","
                 ++ str_opt (dict_get data "nh3") ++ ","
    else command in
  drop_last 1 command ++ ")".

Definition send_to_local_db (data : dict) (measurement_time : string) : M unit :=
  db_execute (insert_command data measurement_time).

(** *** Luftdaten *)

(** [requests.post(...)]: the submission is issued, and the service
    answers or the call raises. *)
Definition requests_post (r : Request) : M (bool * string) :=
  emit (EvPost r) ;;
  match http_server env r with
  | Response ok reason => ret (ok, reason)
  | PostFails e => raise (exn_of_request_error e)
  end.

(** The three [except] clauses around each post: each logs a warning and
    leaves the response variable at [None]. *)
Definition post_handlers (e : exn) : option (M (option (bool * string))) :=
  match e with
  | ConnectionError =>
      Some (logging "Failed to send PM data to Luftdaten due to a connection error." ;;
            ret None)
  | Timeout =>
      Some (logging "Failed to send PM data to Luftdaten because request timed-out." ;;
            ret None)
  | RequestException =>
      Some (logging "Failed to send PM data to Luftdaten due to a request error." ;;
            ret None)
  | _ => None
  end.

Definition try_post (r : Request) : M (option (bool * string)) :=
  try_except (resp <- requests_post r ;; ret (Some resp)) post_handlers.

Definition send_to_luftdaten (data : dict) (serial_num : string) : M Z :=
  if negb (MEASURE_PM25 cfg && MEASURE_PM10 cfg) then
    logging "Failed to send data to Luftdaten due to configuration. Possible fix: Enable `MEASURE_PM25` and `MEASURE_PM10`." ;;
    ret (-1)%Z
  else
    p1 <- dict_item data "P1" ;;
    p2 <- dict_item data "P2" ;;
    let pm_data_dict : dict := [("P1", p1); ("P2", p2)] in
    let climate_data_dict := climate_items data in
    let pm_data_reshaped := reshaped JNum pm_data_dict in
    pm_api_response <-
      try_post {| x_pin := "1"; x_sensor := serial_num;
                  sensordatavalues := pm_data_reshaped |} ;;
    climate_api_response <-
      (match climate_data_dict with
       | [] => ret None
       | _ :: _ =>
           let climate_data_reshaped := reshaped JNum climate_data_dict in
           try_post {| x_pin := "11"; x_sensor := serial_num;
                       sensordatavalues := climate_data_reshaped |}
       end) ;;
    match pm_api_response, climate_api_response with
    | Some (pm_ok, pm_reason), Some (climate_ok, climate_reason) =>
        if pm_ok && climate_ok then ret 0%Z
        else
          logging ("Received bad response from Luftdaten. Details: PM data post received: "
                   ++ pm_reason ++ ", Climate data post received: " ++ climate_reason) ;;
          ret (-1)%Z
    | Some (pm_ok, pm_reason), None =>
        if pm_ok then ret 0%Z
        else
          logging ("Received bad response from Luftdaten. Details: PM data post received: "
                   ++ pm_reason) ;;
          ret (-1)%Z
    | None, _ => ret (-1)%Z
    end.

(** *** Verbose *)

(** [print(line)]. *)
Definition print (line : string) : M unit :=
  match console_fault env with
  | Some e => raise e
  | None => emit (EvPrint line)
  end.

(** [bool(x) * (label + str(x) + unit)] for [x = data.get(k)]. *)
Definition verbose_field (data : dict) (k label unit_ : string) : string :=
  match dict_get data k with
  | Some v => if truthy v then label ++ str_num v ++ unit_ else ""
  | None => ""
  end.

Definition verbose_line (data : dict) (measurement_time : string) : string :=
  let temperature := verbose_field data "temperature" " Tmp: " " deg C " in
  let humidity := verbose_field data "humidity" " Hum: " " % " in
  let pressure := verbose_field data "pressure" " Prs: " " hPa " in
  let cpu_temperature := verbose_field data "cpu_temperature" " CPU: " " deg C " in
  let pm25 := verbose_field data "P2" " PM2.5: " " ug/cm^3 " in
  let pm10 := verbose_field data "P1" " PM10: " " ug/cm^3 " in
  let oxidising := verbose_field data "oxidising" " Oxidising: " " kOhm " in
  let reducing := verbose_field data "reducing" " Reducing: " " kOhm " in
  let nh3 := verbose_field data "nh3" " NH3: " " kOhm " in
  newline ++ measurement_time ++ " | " ++ temperature ++ pressure ++ humidity
    ++ cpu_temperature ++ pm25 ++ pm10 ++ oxidising ++ reducing ++ nh3.

Definition verbose (data : dict) (measurement_time : string) : M unit :=
  print (verbose_line data measurement_time).

(** *** Display *)

Definition MONITOR_NAME : string := "My Monitor".

(** The background rectangle covers the whole image: what was drawn
    before is gone. *)
Definition display_status_bg : M unit :=
  errors <- gets mainloop_errors ;;
  modify (set_image {| bg_red := errors; texts := [];
                       bar_percent := 0; bar_right := 0 |}).

Definition draw_text (x y : Z) (text : string) : M unit :=
  modify (fun w =>
    set_image {| bg_red := bg_red (image w);
                 texts := texts (image w) ++ [(x, y, text)];
                 bar_percent := bar_percent (image w);
                 bar_right := bar_right (image w) |} w).

Definition display_main_scene (current_time : string) (data : dict) : M unit :=
  let whole (k : string) := str_num (Int (int_of (dict_get_default data k))) in
  draw_text 5 0 MONITOR_NAME ;;
  draw_text 5 15 ("Last: " ++ current_time) ;;
  scene <- gets current_scene_id ;;
  if (scene =? 0)%Z then
    draw_text 5 30 "PM2.5" ;;
    draw_text 5 45 (str_num (dict_get_default data "P2")) ;;
    draw_text 60 30 "PM10" ;;
    draw_text 60 45 (str_num (dict_get_default data "P1")) ;;
    draw_text 115 30 "Temp" ;;
    draw_text 115 45 (whole "temperature")
  else if (scene =? 1)%Z then
    draw_text 5 30 "Humidity" ;;
    draw_text 5 45 (whole "humidity") ;;
    draw_text 60 30 "Pressure" ;;
    draw_text 60 45 (whole "pressure")
  else if (scene =? 2)%Z then
    draw_text 5 30 "Oxi" ;;
    draw_text 5 45 (whole "oxidising") ;;
    draw_text 60 30 "Red" ;;
    draw_text 60 45 (whole "reducing") ;;
    draw_text 115 30 "NH3" ;;
    draw_text 115 45 (whole "nh3")
  else ret tt.

Definition display_progress_bar (percent : Q) : M unit :=
  modify (fun w =>
    set_image {| bg_red := bg_red (image w);
                 texts := texts (image w);
                 bar_percent := percent;
                 bar_right := py_int (inject_Z (display_width env) * percent) |} w).

(** [display.display(image)]. *)
Definition display_display : M unit :=
  img <- gets image ;; emit (EvDisplay img).

(** *** Main loop *)

Definition update_delay : Q := 60 / MEASUREMENT_FREQUENCY cfg.

Definition ltr559_get_proximity (s : Sample) : M Z :=
  emit EvProximity ;; ret (ltr559_proximity s).

(** The block "Data storage/transfer": the sinks, one after the other. *)
Definition data_storage_transfer (data : dict) (measurement_time : string)
  : M unit :=
  (if VERBOSE cfg then verbose data measurement_time else ret tt) ;;
  (if SAVE_DATA_LOCALLY cfg then
     send_to_local_db data measurement_time ;;
     logging "Success: Data saved to local storage."
   else ret tt).

(** What one pass does when the sample is due: "Update time", "Data
    acquisition", "Data storage/transfer". *)
Definition sample_due (s : Sample) (current_time : Q) : M unit :=
  modify (set_previous_time current_time) ;;
  acquired <- get_sensor_data s ;;
  modify (set_data (fst acquired)) ;;
  modify (set_measurement_time (snd acquired)) ;;
  new_data <- gets data ;;
  new_time <- gets measurement_time ;;
  data_storage_transfer new_data new_time.

(** The block "User input": the proximity sensor turns the scenes. *)
Definition user_input (s : Sample) : M unit :=
  proximity <- ltr559_get_proximity s ;;
  if (1500 <? proximity)%Z then
    modify (fun w => set_current_scene_id (current_scene_id w + 1) w) ;;
    scene <- gets current_scene_id ;;
    if (2 <? scene)%Z then modify (set_current_scene_id 0) else ret tt
  else ret tt.

(** The block "Display updates". *)
Definition display_updates (percent : Q) : M unit :=
  display_status_bg ;;
  shown_time <- gets measurement_time ;;
  shown_data <- gets data ;;
  display_main_scene (drop_last 7 shown_time) shown_data ;;
  display_progress_bar percent ;;
  display_display.

(** [time.sleep(secs)]: it changes nothing of the world, and a negative
    length raises [ValueError]. *)
Definition time_sleep (secs : Q) : M unit :=
  if Qle_bool 0 secs then ret tt else raise ValueError.

(** The body of the [try] of one pass of [while True], down to the
    closing [time.sleep], whose length is negative with a negative
    frequency.  [update_delay] is not zero in a loop that runs: [mainloop]
    raises before the first pass when the frequency is zero. *)
Definition mainloop_body (s : Sample) : M unit :=
  let current_time := time_time s in
  previous <- gets previous_time ;;
  let time_difference := current_time - previous in
  (if Qle_bool update_delay time_difference
   then sample_due s current_time
   else ret tt) ;;
  user_input s ;;
  display_updates (time_difference / update_delay) ;;
  time_sleep (update_delay * 0.05).

(** One pass: the body, and the [except Exception] that ends a failed
    pass by setting the error flag and logging. *)
Definition mainloop_pass (s : Sample) (w : World) : World :=
  match mainloop_body s w with
  | (Ok _, w') => w'
  | (Raise e, w') =>
      snd (logging "Mainloop exception occurred" (set_mainloop_errors true w'))
  end.

(** The passes made while the environment delivers [samples]. *)
Definition mainloop_passes (samples : list Sample) (w : World) : World :=
  fold_left (fun w s => mainloop_pass s w) samples w.

End Program.

(** The module as loaded: no error seen, first scene, nothing drawn. *)
Definition boot (pending : list pm_outcome) : World :=
  {| pms_pending := pending; image := blank_frame; trace := [];
     mainloop_errors := false; current_scene_id := 0;
     previous_time := 0; data := []; measurement_time := "" |}.

End Main.

(** ** emi_test.py: acquisition and remote push of the earlier script *)

Module EmiTest.
Section Program.

Variable env : Env.
(** [str(x)] of a number and ["{:.2f}".format(x)] of a float. *)
Variable str_num : num -> string.
Variable format_2f : Q -> string.

Definition comp_factor : Q := 2.25.

Definition get_cpu_temperature (s : Sample) : Q :=
  inject_Z (thermal_zone0 s) / 1000.

Definition bme280_get (reading : Q) : M Q := emit EvBme280 ;; ret reading.

(** The two assignments that follow a successful [pms5003.read()]. *)
Definition store_pm (values : list (string * string)) (pm_values : Z * Z)
  : list (string * string) :=
  let values := dict_set values "P2" (str_num (Int (fst pm_values))) in
  dict_set values "P1" (str_num (Int (snd pm_values))).

Definition read_values (s : Sample) : M (list (string * string) * string) :=
  let values : list (string * string) := [] in
  let cpu_temp := get_cpu_temperature s in
  raw_temp <- bme280_get (bme280_temperature s) ;;
  let comp_temp := raw_temp - ((cpu_temp - raw_temp) / comp_factor) in
  let current_time := datetime_now s in
  let values := dict_set values "temperature" (format_2f comp_temp) in
  pressure <- bme280_get (bme280_pressure s) ;;
  let values := dict_set values "pressure" (format_2f pressure) in
  humidity <- bme280_get (bme280_humidity s) ;;
  let values := dict_set values "humidity" (format_2f humidity) in
  values <-
    try_except
      (pm_values <- pms5003_read ;; ret (store_pm values pm_values))
      (fun e =>
         match e with
         | ReadTimeoutError | ChecksumMismatchError =>
             Some (logging "Failed to read PMS5003. Reseting and retrying." ;;
                   pms5003_reset ;;
                   pm_values <- pms5003_read ;;
                   ret (store_pm values pm_values))
         | _ => None
         end) ;;
  ret (values, current_time).

Definition requests_post (r : Request) : M (bool * string) :=
  emit (EvPost r) ;;
  match http_server env r with
  | Response ok reason => ret (ok, reason)
  | PostFails e => raise (exn_of_request_error e)
  end.

Definition post_handlers (group : string) (e : exn)
  : option (M (option (bool * string))) :=
  match e with
  | ConnectionError =>
      Some (logging ("Sensor.Community (Luftdaten) " ++ group ++ " Connection Error") ;;
            ret None)
  | Timeout =>
      Some (logging ("Sensor.Community (Luftdaten) " ++ group ++ " Timeout Error") ;;
            ret None)
  | RequestException =>
      Some (logging ("Sensor.Community (Luftdaten) " ++ group ++ " Request Error") ;;
            ret None)
  | _ => None
  end.

Definition try_post (group : string) (r : Request) : M (option (bool * string)) :=
  try_except (resp <- requests_post r ;; ret (Some resp)) (post_handlers group).

Definition send_to_luftdaten (values : list (string * string)) (id : string)
  : M bool :=
  let pm_values := particulate_items values in
  let temp_values := climate_items values in
  let pm_values_json := reshaped JStr pm_values in
  let temp_values_json := reshaped JStr temp_values in
  resp_pm <-
    try_post "PM" {| x_pin := "1"; x_sensor := id;
                     sensordatavalues := pm_values_json |} ;;
  resp_bmp <-
    try_post "Climate" {| x_pin := "11"; x_sensor := id;
                          sensordatavalues := temp_values_json |} ;;
  match resp_pm, resp_bmp with
  | Some (pm_ok, pm_reason), Some (bmp_ok, bmp_reason) =>
      if pm_ok && bmp_ok then ret true
      else
        logging ("Luftdaten Error. PM: " ++ pm_reason ++ ", Climate: " ++ bmp_reason) ;;
        ret false
  | _, _ => ret false
  end.

End Program.
End EmiTest.

(** ** EnviroPlus/main.py: creation of the local table *)

Module Storage.

(** The assignment to the global [table_name]. *)
Definition set_table_name (name : string) (env : Env) : Env :=
  {| console_fault := console_fault env; db_fault := db_fault env;
     table_name := name; http_server := http_server env;
     display_width := display_width env |}.

Section Program.

Variable cfg : Config.
Variable env : Env.
Variable str_num : num -> string.
(** The setting [ENABLE_OPEN_WEATHER_API]. *)
Variable ENABLE_OPEN_WEATHER_API : bool.

(** [s.replace(a, b)] for one-character [a] and [b]. *)
Fixpoint replace_char (a b : ascii) (s : string) : string :=
  match s with
  | EmptyString => EmptyString
  | String c s' => String (if Ascii.eqb c a then b else c) (replace_char a b s')
  end.

Definition sql_code_blocks : list (list string * bool) :=
  [(["Temperature DOUBLE(5)"], MEASURE_TEMPERATURE cfg);
   (["Humidity DOUBLE(5)"], MEASURE_HUMIDITY cfg);
   (["Pressure DOUBLE(5)"], MEASURE_PRESSURE cfg);
   (["CPUTemperature Double(5)"], MEASURE_CPU_TEMPERATURE cfg);
   (["PM25 DOUBLE(5)"], MEASURE_PM25 cfg);
   (["PM10 DOUBLE(5)"], MEASURE_PM10 cfg);
   (["OxidisingGases Double(10)"; "ReducingGases Double(10)"; "Ammonia Double (10)"],
    MEASURE_GASES cfg);
   (["APITemperature DOUBLE(5)"; "APIHumidity DOUBLE(5)"; "APIPressure DOUBLE(5)";
     "APIWindSpeed DOUBLE(5)"; "APIWindAngle DOUBLE(5)"],
    ENABLE_OPEN_WEATHER_API)].

(** The table name: ["data_" + current_time] with spaces, dashes, colons
    and dots turned into underscores. *)
Definition make_table_name (current_time : string) : string :=
  let table_name := "data_" ++ current_time in
  let table_name := replace_char " " "_" table_name in
  let table_name := replace_char "-" "_" table_name in
  let table_name := replace_char ":" "_" table_name in
  replace_char "." "_" table_name.

(** The loop [for i, (commands, mode) in enumerate(sql_code_blocks)], from
    index [i]; [last] is [len(sql_code_blocks) - 1]. *)
Fixpoint create_loop (blocks : list (list string * bool)) (i last : nat)
  (command : string) : string :=
  match blocks with
  | [] => command
  | (commands, mode) :: rest =>
      let command :=
        if mode then fold_left (fun acc c => acc ++ (c ++ ",")) commands command
        else command in
      let command :=
        if Nat.eqb i last then drop_last 1 command ++ ")" else command in
      create_loop rest (S i) last command
  end.

Definition create_command (current_time : string) : string :=
  let command :=
    "CREATE TABLE " ++ make_table_name current_time ++ " (time TEXT," in
  create_loop sql_code_blocks 0 (List.length sql_code_blocks - 1) command.

(** [init_local_db]: the table is created and its name is what the
    module keeps in [table_name]. *)
Definition init_local_db (current_time : string) : M string :=
  Main.db_execute env (create_command current_time) ;;
  ret (make_table_name current_time).

(** [mainloop]: the clock is read, the interval computed, the table
    created when rows are to be saved, and the passes made while the
    environment delivers [samples].  [start] is the clock read before the
    loop and [current_time] what [init_local_db] reads.  A zero frequency
    makes [60.0 / MEASUREMENT_FREQUENCY] raise before anything else is
    done; what [init_local_db] raises leaves [mainloop] as well.  The
    passes insert into the table just created: they run with its name in
    [table_name]. *)
Definition mainloop (start : Q) (current_time : string)
  (samples : list Sample) : M unit :=
  if Qeq_bool (MEASUREMENT_FREQUENCY cfg) 0 then raise ZeroDivisionError
  else
    modify (set_previous_time start) ;;
    modify (set_data []) ;;
    modify (set_measurement_time "-") ;;
    if SAVE_DATA_LOCALLY cfg then
      name <- init_local_db current_time ;;
      modify (Main.mainloop_passes cfg (set_table_name name env) str_num samples)
    else modify (Main.mainloop_passes cfg env str_num samples).

End Program.
End Storage.

(** ** EnviroPlus/main.py: the wait before the main loop *)

Module Startup.

(** The loop [while not INSTANT_ACQUISITION_START] of [main]: the clock is
    read until its minute is a multiple of [START_AT_MULTIPLE_OF].
    [minutes] are the minutes the clock shows at its successive reads and
    [polls] counts the reads made so far.  The result is the number of
    reads after which the loop is left, [None] while the reads run out
    before that, or the exception of a zero modulus. *)
Fixpoint start_gate (START_AT_MULTIPLE_OF : Z) (minutes : list Z) (polls : nat)
  : result (option nat) :=
  match minutes with
  | [] => Ok None
  | minute :: later =>
      if (START_AT_MULTIPLE_OF =? 0)%Z then Raise ZeroDivisionError
      else if (minute mod START_AT_MULTIPLE_OF =? 0)%Z then Ok (Some (S polls))
      else start_gate START_AT_MULTIPLE_OF later (S polls)
  end.

Definition wait_for_start (INSTANT_ACQUISITION_START : bool)
  (START_AT_MULTIPLE_OF : Z) (minutes : list Z) : result (option nat) :=
  if INSTANT_ACQUISITION_START then Ok (Some 0%nat)
  else start_gate START_AT_MULTIPLE_OF minutes 0.

End Startup.

(** ** emi_test.py: local store and main loop *)

Module EmiLoop.
Section Program.

Variable env : Env.
(** [str(x)] of a number, ["{:.2f}".format(x)] of a float, and [str] of
    the dictionary of values as [print] and [logging.info] show it. *)
Variable str_num : num -> string.
Variable format_2f : Q -> string.
Variable str_values : list (string * string) -> string.

(** [values[k]]. *)
Definition item (values : list (string * string)) (k : string) : M string :=
  match dict_get values k with
  | Some v => ret v
  | None => raise (KeyError k)
  end.

Definition add_data_to_db (time : string) (values : list (string * string))
  : M unit :=
  temp <- item values "temperature" ;;
  humidity <- item values "humidity" ;;
  pressure <- item values "pressure" ;;
  pm10 <- item values "pm10" ;;
  pm25 <- item values "pm25" ;;
  let command :=
    "INSERT INTO data VALUES ('" ++ time ++ "', " ++ temp ++ ", " ++ humidity
      ++ ", " ++ pressure ++ ", " ++ pm10 ++ ", " ++ pm25 ++ ")" in
  Main.db_execute env command ;;
  logging "Data logged...".

(** The body of the [try] of one pass of [mainloop(local)].  [s] holds
    what the sensors answer and what [time.time()] shows when the elapsed
    time is computed; [reset_time] is what it shows when [update_time] is
    set again.  The world's [previous_time] holds [update_time]. *)
Definition mainloop_body (local : bool) (id : string) (s : Sample)
  (reset_time : Q) : M unit :=
  acquired <- EmiTest.read_values str_num format_2f s ;;
  let values := fst acquired in
  let measurement_time := snd acquired in
  Main.print env (measurement_time ++ " " ++ str_values values) ;;
  Main.print env "" ;;
  update_time <- gets previous_time ;;
  let time_since_update := time_time s - update_time in
  if negb (Qle_bool time_since_update 30) then
    logging (str_values values) ;;
    modify (set_previous_time reset_time) ;;
    if local then add_data_to_db measurement_time values
    else
      sent <- EmiTest.send_to_luftdaten env values id ;;
      if sent then logging "Luftdaten Response: OK"
      else logging "Luftdaten Response: Failed"
  else ret tt.

(** One pass: the body, and the [except Exception] that logs and goes on. *)
Definition mainloop_pass (local : bool) (id : string) (s : Sample)
  (reset_time : Q) (w : World) : World :=
  match mainloop_body local id s reset_time w with
  | (Ok _, w') => w'
  | (Raise e, w') => snd (logging "Main Loop Exception" w')
  end.

(** The passes made while the environment delivers [samples], each with
    its second clock reading. *)
Definition mainloop_passes (local : bool) (id : string)
  (samples : list (Sample * Q)) (w : World) : World :=
  fold_left (fun w sr => mainloop_pass local id (fst sr) (snd sr) w) samples w.

End Program.
End EmiLoop.

(** ** Reading a trace *)

Definition posts (t : list event) : list Request :=
  flat_map (fun e => match e with EvPost r => [r] | _ => [] end) t.

Definition sql_commands (t : list event) : list string :=
  flat_map (fun e => match e with EvSql c => [c] | _ => [] end) t.

Definition printed (t : list event) : list string :=
  flat_map (fun e => match e with EvPrint l => [l] | _ => [] end) t.

Definition displayed (t : list event) : list Frame :=
  flat_map (fun e => match e with EvDisplay f => [f] | _ => [] end) t.

Definition rounded (t : list event) : list (num * Z) :=
  flat_map (fun e => match e with EvRound x n => [(x, n)] | _ => [] end) t.

Definition count (p : event -> bool) (t : list event) : nat :=
  List.length (filter p t).

Definition is_bme280 (e : event) : bool :=
  match e with EvBme280 => true | _ => false end.

Definition is_pms_read (e : event) : bool :=
  match e with EvPmsRead => true | _ => false end.

Definition is_pms_reset (e : event) : bool :=
  match e with EvPmsReset => true | _ => false end.

Definition is_proximity (e : event) : bool :=
  match e with EvProximity => true | _ => false end.

(** Whether the body of the [try] of a pass runs to its end. *)
Definition body_completes (cfg : Config) (env : Env) (str_num : num -> string)
  (s : Sample) (w : World) : bool :=
  match fst (Main.mainloop_body cfg env str_num s w) with
  | Ok _ => true
  | Raise _ => false
  end.

(** Whether a pass gets past its sampling block, to the block "User
    input": no sample is due, or the sample is taken and the sinks are
    served without an exception. *)
Definition sampling_completes (cfg : Config) (env : Env)
  (str_num : num -> string) (s : Sample) (w : World) : bool :=
  if Qle_bool (Main.update_delay cfg) (time_time s - previous_time w) then
    match fst (Main.sample_due cfg env str_num s (time_time s) w) with
    | Ok _ => true
    | Raise _ => false
    end
  else true.

(** Whether the [time.sleep] that closes a pass returns. *)
Definition sleep_returns (cfg : Config) : bool :=
  Qle_bool 0 (Main.update_delay cfg * 0.05).

Definition is_round (e : event) : bool :=
  match e with EvRound _ _ => true | _ => false end.

(** Events of an acquisition after its BME280 reads: calls to [round]
    and to the particulate sensor, and the retry's log line. *)
Definition is_acquiring (e : event) : bool :=
  match e with
  | EvRound _ _ | EvPmsRead | EvPmsReset | EvLog _ => true
  | _ => false
  end.

(** Every value of the dictionary is its own rounding at [dp] places. *)
Definition all_rounded (dp : Z) (d : dict) : Prop :=
  Forall (fun kv => py_round (snd kv) dp = snd kv) d.

(** ** What the specification says, word for word *)

(** The compensation formula: [round(T_raw - (T_cpu - T_raw) / F, precision)]. *)
Definition spec_compensate (t_raw t_cpu f : Q) (precision : Z) : Q :=
  round_float (t_raw - (t_cpu - t_raw) / f) precision.


(** The scene after a proximity reading, of [n_scenes = 3] scenes. *)
Definition spec_next_scene (scene proximity : Z) : Z :=
  if (proximity <=? 1500)%Z then scene else ((scene + 1) mod 3)%Z.

(** ** Concrete inputs for the worked cases *)

(** A sample at clock time [now]: 22 degrees at the sensor, 45 at the CPU. *)
Definition sample_at (now : Q) (proximity : Z) : Sample :=
  {| time_time := now; datetime_now := "2023-03-08 12:00:00.000000";
     bme280_temperature := 22; bme280_pressure := 1013.25;
     bme280_humidity := 40.5; thermal_zone0 := 45000;
     gas_oxidising := 12340; gas_reducing := 400000; gas_nh3 := 99999;
     ltr559_proximity := proximity |}.

(** Collaborators that all work, and a service that accepts everything. *)
Definition healthy : Env :=
  {| console_fault := None; db_fault := None; table_name := "data_t";
     http_server := fun _ => Response true "OK"; display_width := 160 |}.

(** The same with a console that cannot be written to. *)
Definition console_down : Env :=
  {| console_fault := Some OSError; db_fault := None; table_name := "data_t";
     http_server := fun _ => Response true "OK"; display_width := 160 |}.

(** The same with a database that refuses every statement. *)
Definition database_down : Env :=
  {| console_fault := None; db_fault := Some DatabaseError; table_name := "data_t";
     http_server := fun _ => Response true "OK"; display_width := 160 |}.

(** A service whose climate endpoint is unreachable: the particulate
    submission is accepted, the climate submission raises. *)
Definition climate_unreachable : Env :=
  {| console_fault := None; db_fault := None; table_name := "data_t";
     http_server := fun r =>
       if String.eqb (x_pin r) "1" then Response true "OK"
       else PostFails ConnectionFailed;
     display_width := 160 |}.

(** The shipped settings with both particulate measurements switched off. *)
Definition particulates_off : Config := {|
  ROUND_DATA_TO_DP := 2;
  MEASURE_PM25 := false;
  MEASURE_PM10 := false;
  MEASURE_TEMPERATURE := true;
  MEASURE_PRESSURE := true;
  MEASURE_HUMIDITY := true;
  MEASURE_GASES := true;
  MEASURE_CPU_TEMPERATURE := false;
  COMPENSATE_TEMPERATURE := true;
  TEMP_COMPENSATION_FACTOR := 2.25;
  SAVE_DATA_LOCALLY := true;
  VERBOSE := true;
  MEASUREMENT_FREQUENCY := 2
|}.

(** Readings: climate fields only, particulate fields only, both. *)
Definition climate_reading : dict :=
  [("temperature", Float (589 # 50)); ("pressure", Float (4053 # 4));
   ("humidity", Float (81 # 2))].

Definition particulate_reading : dict := [("P2", Int 3); ("P1", Int 5)].

Definition full_reading : dict :=
  [("temperature", Float (589 # 50)); ("pressure", Float (4053 # 4));
   ("humidity", Float (81 # 2)); ("P2", Int 3); ("P1", Int 5)].

(** The two submissions of [send_to_luftdaten] of main.py. *)
Definition pm_request (serial_num : string) (p1 p2 : num) : Request :=
  {| x_pin := "1"; x_sensor := serial_num;
     sensordatavalues := [("P1", JNum p1); ("P2", JNum p2)] |}.

Definition climate_request (serial_num : string) (data : dict) : Request :=
  {| x_pin := "11"; x_sensor := serial_num;
     sensordatavalues := reshaped JNum (climate_items data) |}.

(** Whether a post came back with a response whose [ok] flag is set, and
    whether it came back with no response at all (it raised). *)
Definition response_ok (o : post_outcome) : bool :=
  match o with
  | Response ok _ => ok
  | PostFails _ => false
  end.

Definition no_response (o : post_outcome) : bool :=
  match o with
  | Response _ _ => false
  | PostFails _ => true
  end.

(** A stand-in for Python's [str]: integers in decimal, floats by their
    integer part.  Only the worked cases use it. *)
Definition show_digit (d : Z) : string :=
  String (ascii_of_nat (48 + Z.to_nat d)) EmptyString.

Fixpoint show_nat (fuel : nat) (z : Z) : string :=
  match fuel with
  | O => show_digit (z mod 10)
  | S fuel' =>
      if (z <? 10)%Z then show_digit z
      else show_nat fuel' (z / 10) ++ show_digit (z mod 10)
  end.

Definition show_Z (z : Z) : string :=
  if (z <? 0)%Z then "-" ++ show_nat 20 (- z) else show_nat 20 z.

Definition show_num (v : num) : string :=
  match v with
  | Int z => show_Z z
  | Float q => show_Z (py_int q) ++ ".*"
  end.

(** ** Closed forms used to state what the code computes *)


(** One entry of a reading, present when its measurement is enabled. *)
Definition field_if (enabled : bool) (k : string) (v : num) : dict :=
  if enabled then [(k, v)] else [].

Definition reading_of (cfg : Config) (temperature pressure humidity cpu : Q)
  (pm25 pm10 : Z) (oxidising reducing nh3 : Q) : dict :=
  let dp := ROUND_DATA_TO_DP cfg in
  (field_if (MEASURE_TEMPERATURE cfg) "temperature" (Float (round_float temperature dp))
   ++ field_if (MEASURE_PRESSURE cfg) "pressure" (Float (round_float pressure dp))
   ++ field_if (MEASURE_HUMIDITY cfg) "humidity" (Float (round_float humidity dp))
   ++ field_if (MEASURE_PM25 cfg) "P2" (Int (round_int pm25 dp))
   ++ field_if (MEASURE_PM10 cfg) "P1" (Int (round_int pm10 dp))
   ++ field_if (MEASURE_CPU_TEMPERATURE cfg) "cpu_temperature" (Float (round_float cpu dp))
   ++ field_if (MEASURE_GASES cfg) "oxidising" (Float (round_float (oxidising / 1000) dp))
   ++ field_if (MEASURE_GASES cfg) "reducing" (Float (round_float (reducing / 1000) dp))
   ++ field_if (MEASURE_GASES cfg) "nh3" (Float (round_float (nh3 / 1000) dp)))%list.

(** The temperature [get_sensor_data] hands to the calibration. *)
Definition sensed_temperature (cfg : Config) (s : Sample) : Q :=
  if COMPENSATE_TEMPERATURE cfg
  then round_float (bme280_temperature s
                    - (Main.get_cpu_temperature s - bme280_temperature s)
                      / TEMP_COMPENSATION_FACTOR cfg) (ROUND_DATA_TO_DP cfg)
  else bme280_temperature s.

(** The measurements in the order [get_sensor_data] writes them, each
    with the setting that enables it. *)
Definition measurement_flags (cfg : Config) : list (string * bool) :=
  [("temperature", MEASURE_TEMPERATURE cfg); ("pressure", MEASURE_PRESSURE cfg);
   ("humidity", MEASURE_HUMIDITY cfg); ("P2", MEASURE_PM25 cfg);
   ("P1", MEASURE_PM10 cfg); ("cpu_temperature", MEASURE_CPU_TEMPERATURE cfg);
   ("oxidising", MEASURE_GASES cfg); ("reducing", MEASURE_GASES cfg);
   ("nh3", MEASURE_GASES cfg)].

Definition enabled_keys (cfg : Config) : list string :=
  map fst (filter snd (measurement_flags cfg)).

(** Characters that [init_local_db] does not let into a table name. *)
Definition unsafe_in_name (c : ascii) : bool :=
  Ascii.eqb c " " || Ascii.eqb c "-" || Ascii.eqb c ":" || Ascii.eqb c ".".

(** The columns of the local table: declaration in [CREATE TABLE], key of
    the reading written there by [INSERT], and the setting that enables it. *)
Definition schema (cfg : Config) : list (string * string * bool) :=
  [("Temperature DOUBLE(5)", "temperature", MEASURE_TEMPERATURE cfg);
   ("Humidity DOUBLE(5)", "humidity", MEASURE_HUMIDITY cfg);
   ("Pressure DOUBLE(5)", "pressure", MEASURE_PRESSURE cfg);
   ("CPUTemperature Double(5)", "cpu_temperature", MEASURE_CPU_TEMPERATURE cfg);
   ("PM25 DOUBLE(5)", "P2", MEASURE_PM25 cfg);
   ("PM10 DOUBLE(5)", "P1", MEASURE_PM10 cfg);
   ("OxidisingGases Double(10)", "oxidising", MEASURE_GASES cfg);
   ("ReducingGases Double(10)", "reducing", MEASURE_GASES cfg);
   ("Ammonia Double (10)", "nh3", MEASURE_GASES cfg)].

Definition enabled_schema (cfg : Config) : list (string * string * bool) :=
  filter (fun c => snd c) (schema cfg).

Definition weather_columns : list string :=
  ["APITemperature DOUBLE(5)"; "APIHumidity DOUBLE(5)"; "APIPressure DOUBLE(5)";
   "APIWindSpeed DOUBLE(5)"; "APIWindAngle DOUBLE(5)"].

(** The column declarations a list of blocks contributes. *)
Definition block_columns (blocks : list (list string * bool)) : list string :=
  flat_map (fun b : list string * bool => if snd b then fst b else []) blocks.

(** The three assignments of [read_values] of emi_test.py that come before
    the particulate read. *)
Definition climate_values (format_2f : Q -> string) (s : Sample)
  : list (string * string) :=
  [("temperature",
    format_2f (bme280_temperature s
               - (EmiTest.get_cpu_temperature s - bme280_temperature s)
                 / EmiTest.comp_factor));
   ("pressure", format_2f (bme280_pressure s));
   ("humidity", format_2f (bme280_humidity s))].

(** ** Rounding *)

Lemma round_half_even_comp (x y : Q) :
  x == y -> round_half_even x = round_half_even y.
Proof.
  intros E. unfold round_half_even.
  rewrite (Qfloor_comp _ _ E).
  assert (C : Qcompare (x - inject_Z (Qfloor y)) (1 # 2)
              = Qcompare (y - inject_Z (Qfloor y)) (1 # 2)).
  { apply Qcompare_comp; [rewrite E; reflexivity | reflexivity]. }
  rewrite C. reflexivity.
Qed.

Lemma round_half_even_Z (k : Z) : round_half_even (inject_Z k) = k.
Proof.
  unfold round_half_even. rewrite Qfloor_Z.
  assert (L : Qcompare (inject_Z k - inject_Z k) (1 # 2) = Lt).
  { apply (proj1 (Qlt_alt _ _)).
    setoid_replace (inject_Z k - inject_Z k) with 0 by ring. reflexivity. }
  rewrite L. reflexivity.
Qed.

Lemma pow10_pos (n : Z) : (0 < pow10 n)%Z.
Proof. unfold pow10. apply Z.pow_pos_nonneg; lia. Qed.

Lemma pow10_Q_nonzero (n : Z) : ~ inject_Z (pow10 n) == 0.
Proof.
  intros E. pose proof (pow10_pos n) as P.
  unfold Qeq in E. simpl in E. lia.
Qed.

Lemma round_float_idempotent (x : Q) (n : Z) :
  round_float (round_float x n) n = round_float x n.
Proof.
  unfold round_float. pose proof (pow10_Q_nonzero n) as NZ.
  destruct (0 <=? n)%Z.
  - apply Qred_complete.
    assert (E : Qred (inject_Z (round_half_even (x * inject_Z (pow10 n)))
                      / inject_Z (pow10 n)) * inject_Z (pow10 n)
                == inject_Z (round_half_even (x * inject_Z (pow10 n)))).
    { rewrite Qred_correct. field. exact NZ. }
    rewrite (round_half_even_comp _ _ E), round_half_even_Z. reflexivity.
  - apply Qred_complete.
    assert (E : Qred (inject_Z (round_half_even (x / inject_Z (pow10 n)) * pow10 n))
                / inject_Z (pow10 n)
                == inject_Z (round_half_even (x / inject_Z (pow10 n)))).
    { rewrite Qred_correct, inject_Z_mult. field. exact NZ. }
    rewrite (round_half_even_comp _ _ E), round_half_even_Z. reflexivity.
Qed.

Lemma round_int_idempotent (z n : Z) :
  round_int (round_int z n) n = round_int z n.
Proof.
  unfold round_int. pose proof (pow10_Q_nonzero n) as NZ.
  destruct (0 <=? n)%Z; [reflexivity|].
  assert (E : inject_Z (round_half_even (inject_Z z / inject_Z (pow10 n)) * pow10 n)
              / inject_Z (pow10 n)
              == inject_Z (round_half_even (inject_Z z / inject_Z (pow10 n)))).
  { rewrite inject_Z_mult. field. exact NZ. }
  rewrite (round_half_even_comp _ _ E), round_half_even_Z. reflexivity.
Qed.

(** Re-rounding a rounded number at the same precision changes nothing. *)
Lemma py_round_idempotent (v : num) (n : Z) :
  py_round (py_round v n) n = py_round v n.
Proof.
  destruct v as [z | q]; simpl.
  - now rewrite round_int_idempotent.
  - now rewrite round_float_idempotent.
Qed.

(** ** Temperature compensation *)

(** Unfolding the monad on a computation applied to a world. *)
Ltac run :=
  unfold logging, pms5003_reset, round_ in *;
  unfold emit in *;
  unfold bind, ret, raise, gets, modify, try_except in *; cbn in *.

Lemma float_div_nonzero (x y : Q) (w : World) :
  ~ y == 0 -> Main.float_div x y w = (Ok (x / y), w).
Proof.
  intros NZ. unfold Main.float_div.
  destruct (Qeq_bool y 0) eqn:E; [|reflexivity].
  apply Qeq_bool_iff in E. contradiction.
Qed.

Lemma float_div_zero (x y : Q) (w : World) :
  y == 0 -> Main.float_div x y w = (Raise ZeroDivisionError, w).
Proof.
  intros Z0. unfold Main.float_div.
  apply Qeq_bool_iff in Z0. now rewrite Z0.
Qed.

(** What [compensate_temperature] returns and leaves behind when the
    factor is not zero: one call to [round], on the compensated value. *)
Lemma compensate_temperature_run (cfg : Config) (raw cpu f : Q) (w : World) :
  ~ f == 0 ->
  Main.compensate_temperature cfg raw cpu f w
  = (Ok (round_float (raw - (cpu - raw) / f) (ROUND_DATA_TO_DP cfg)),
     set_trace (trace w ++ [EvRound (Float (raw - (cpu - raw) / f))
                                    (ROUND_DATA_TO_DP cfg)]) w).
Proof.
  intros NZ. unfold Main.compensate_temperature, bind.
  rewrite float_div_nonzero by exact NZ. reflexivity.
Qed.

(** A zero factor makes the division raise, before anything is rounded. *)
Lemma compensate_temperature_zero_factor (cfg : Config) (raw cpu f : Q)
  (w : World) :
  f == 0 ->
  Main.compensate_temperature cfg raw cpu f w = (Raise ZeroDivisionError, w).
Proof.
  intros Z0. unfold Main.compensate_temperature, bind.
  now rewrite float_div_zero by exact Z0.
Qed.

(** C3, as the code has it: for every raw temperature, CPU temperature and
    non-zero factor, [compensate_temperature] returns
    [round(T_raw - (T_cpu - T_raw) / F, ROUND_DATA_TO_DP)]; the shipped
    precision is 2 and the shipped factor 2.25, and with them
    T_raw = 22.0, T_cpu = 45.0 give 11.78. *)
Theorem compensate_temperature_formula
  (cfg : Config) (t_raw t_cpu f : Q) (w : World) (NZ : ~ f == 0) :
  fst (Main.compensate_temperature cfg t_raw t_cpu f w)
  = Ok (spec_compensate t_raw t_cpu f (ROUND_DATA_TO_DP cfg))
  /\ ROUND_DATA_TO_DP default_config = 2%Z
  /\ TEMP_COMPENSATION_FACTOR default_config == 2.25
  /\ exists r,
       fst (Main.compensate_temperature default_config 22 45
              (TEMP_COMPENSATION_FACTOR default_config) w) = Ok r
       /\ r == 11.78.
Proof.
  split; [|split; [reflexivity|split; [reflexivity|]]].
  - rewrite compensate_temperature_run by exact NZ. reflexivity.
  - exists (589 # 50). split; [|reflexivity].
    rewrite compensate_temperature_run by (intros E; discriminate E).
    reflexivity.
Qed.

Lemma compensate_temperature_formula_witness :
  fst (Main.compensate_temperature default_config 22 45 2.25 (Main.boot []))
  = Ok (spec_compensate 22 45 2.25 2).
Proof.
  apply (compensate_temperature_formula default_config 22 45 2.25 (Main.boot [])).
  intros E. discriminate E.
Defined.

(** C3, the literal of the claim: with T_raw = 22.0, T_cpu = 45.0,
    F = 2.25 and precision 2 the result is not 12.78. *)
Lemma compensate_22_45_is_not_12_78 :
  ~ exists r,
      fst (Main.compensate_temperature default_config 22 45 2.25 (Main.boot []))
      = Ok r /\ r == 12.78.
Proof.
  intros [r [E Q]]. vm_compute in E. inversion E; subst r. discriminate Q.
Qed.

(** ** Traces *)

Lemma count_app (p : event -> bool) (t u : list event) :
  count p (t ++ u) = (count p t + count p u)%nat.
Proof. unfold count. now rewrite filter_app, length_app. Qed.

(** Events of an acquisition are not events of a sink, of the display or
    of the proximity sensor. *)
Lemma acquiring_events (evs : list event) :
  forallb is_acquiring evs = true ->
  count is_bme280 evs = 0%nat /\ count is_proximity evs = 0%nat
  /\ posts evs = [] /\ sql_commands evs = [] /\ printed evs = []
  /\ displayed evs = [].
Proof.
  induction evs as [|e evs IH]; [now repeat split|].
  simpl. intros H. apply andb_true_iff in H as [He Hevs].
  destruct (IH Hevs) as (B & P & Po & S & Pr & D).
  unfold count in *.
  destruct e; try discriminate He; simpl; now repeat split.
Qed.

Lemma round_events_acquiring (evs : list event) :
  forallb is_round evs = true ->
  forallb is_acquiring evs = true /\ count is_pms_read evs = 0%nat
  /\ count is_pms_reset evs = 0%nat.
Proof.
  induction evs as [|e evs IH]; [now repeat split|].
  simpl. intros H. apply andb_true_iff in H as [He Hevs].
  destruct (IH Hevs) as (A & R & S). unfold count in *.
  destruct e; try discriminate He; simpl; now repeat split.
Qed.

(** ** Acquisition: [get_sensor_data] *)

Lemma all_rounded_get (dp : Z) (d : dict) (k : string) (v : num) :
  all_rounded dp d -> dict_get d k = Some v -> py_round v dp = v.
Proof.
  induction 1 as [|[k' v'] d H F IH]; simpl; [discriminate|].
  destruct (String.eqb k' k); [intros E; inversion E; subst; exact H | exact IH].
Qed.

Lemma store_if_round (cfg : Config) (b : bool) (out : dict) (k : string)
  (v : num) (w : World) :
  Main.store_if b out k (round_ v (ROUND_DATA_TO_DP cfg)) w
  = if b then (Ok (dict_set out k (py_round v (ROUND_DATA_TO_DP cfg))),
               set_trace (trace w ++ [EvRound v (ROUND_DATA_TO_DP cfg)]) w)
    else (Ok out, w).
Proof. destruct b; reflexivity. Qed.

(** The block "Updating dict" never raises; it calls [round] once for
    each key it writes, and writes rounded values. *)
Lemma updating_dict_run (cfg : Config) (t p h c : Q) (a b : Z) (ox re nh : Q)
  (w : World) :
  exists out evs,
    Main.updating_dict cfg t p h c a b ox re nh w
    = (Ok out, set_trace (trace w ++ evs) w)
    /\ all_rounded (ROUND_DATA_TO_DP cfg) out
    /\ List.length (rounded evs) = List.length out
    /\ forallb is_round evs = true.
Proof.
  destruct w as [pend img tr errs sc pt dt mt'].
  unfold Main.updating_dict, Main.calibrate_temperature, Main.calibrate_pressure,
    Main.calibrate_humidity, Main.calibrate_pm25, Main.calibrate_pm10, bind.
  rewrite !store_if_round.
  destruct (MEASURE_TEMPERATURE cfg), (MEASURE_PRESSURE cfg),
    (MEASURE_HUMIDITY cfg), (MEASURE_PM25 cfg), (MEASURE_PM10 cfg),
    (MEASURE_CPU_TEMPERATURE cfg), (MEASURE_GASES cfg);
    cbn; eexists; eexists;
    (split;
     [ unfold ret; cbn; rewrite <- ?app_assoc; cbn; try reflexivity;
       rewrite <- (app_nil_r tr) at 1; reflexivity |]);
    (split;
     [ unfold all_rounded; repeat (apply Forall_cons || apply Forall_nil);
       cbn [snd];
       first [ apply (py_round_idempotent (Float _))
             | apply (py_round_idempotent (Int _)) ]
     | repeat split ]).
Qed.

(** What one call of [get_sensor_data] does to the world, whatever it
    returns: three BME280 reads, then only calls to [round] and at most one
    read of the particulate sensor, never a reset; on success the values
    are rounded, and [round] was called once per key plus once more when
    the temperature is compensated. *)
Lemma get_sensor_data_effect (cfg : Config) (s : Sample) (w : World)
  (r : result (dict * string)) (w1 : World) :
  Main.get_sensor_data cfg s w = (r, w1) ->
  exists evs p,
    w1 = set_pms_pending p
           (set_trace (trace w ++ [EvBme280; EvBme280; EvBme280] ++ evs) w)
    /\ forallb is_acquiring evs = true
    /\ count is_pms_reset evs = 0%nat
    /\ (count is_pms_read evs <= 1)%nat
    /\ match r with
       | Ok (out, t) =>
           t = datetime_now s
           /\ all_rounded (ROUND_DATA_TO_DP cfg) out
           /\ List.length (rounded evs)
              = (List.length out + if COMPENSATE_TEMPERATURE cfg then 1 else 0)%nat
           /\ count is_pms_read evs = 1%nat
       | Raise e => True
       end.
Proof.
  destruct w as [pend img tr errs sc pt dt mt'].
  unfold Main.get_sensor_data, Main.compensate_temperature, Main.float_div,
    Main.bme280_get, pms5003_read, round_.
  remember (Main.updating_dict cfg) as U eqn:EU.
  destruct (COMPENSATE_TEMPERATURE cfg);
    [destruct (Qeq_bool (TEMP_COMPENSATION_FACTOR cfg) 0)|];
    (destruct pend as [|[a b|e] rest]; run;
     subst U;
     try match goal with
         | |- context [Main.updating_dict ?c ?t ?p ?h ?cc ?x ?y ?o ?rr ?n ?W] =>
             destruct (updating_dict_run c t p h cc x y o rr n W)
               as (out & evs & E & AR & LR & IR); rewrite E; cbn
         end);
    intros H; inversion H; subst; clear H.
  all: try (destruct (round_events_acquiring _ IR) as (IA & PR & PS)).
  all: eexists; eexists; (split; [cbn; rewrite <- ?app_assoc; cbn; reflexivity|]).
  all: unfold count in *; unfold rounded in *; cbn;
       rewrite ?forallb_app, ?filter_app, ?flat_map_app, ?length_app; cbn;
       rewrite ?IA, ?PR, ?PS, ?LR; cbn; repeat split; auto; try lia.
Qed.

Lemma rounded_app (t u : list event) :
  rounded (t ++ u) = (rounded t ++ rounded u)%list.
Proof. apply flat_map_app. Qed.

(** C9, as the code has it: every numeric field of a reading produced by
    [get_sensor_data] is rounded at the acquisition boundary, re-rounding a
    rounded value at the same precision is a no-op, and so every field
    satisfies [round(field, precision) = field]; [round] is called once
    per field, and once more (on the temperature) when the temperature is
    compensated. *)
Theorem reading_fields_rounded
  (cfg : Config) (s : Sample) (w w1 : World) (out : dict) (t : string)
  (H : Main.get_sensor_data cfg s w = (Ok (out, t), w1)) :
  (forall k v, dict_get out k = Some v -> py_round v (ROUND_DATA_TO_DP cfg) = v)
  /\ (forall v n, py_round (py_round v n) n = py_round v n)
  /\ List.length (rounded (trace w1))
     = (List.length (rounded (trace w)) + List.length out
        + if COMPENSATE_TEMPERATURE cfg then 1 else 0)%nat.
Proof.
  apply get_sensor_data_effect in H
    as (evs & p & -> & _ & _ & _ & _ & AR & LR & _).
  split; [|split].
  - intros k v G. exact (all_rounded_get _ _ _ _ AR G).
  - exact py_round_idempotent.
  - cbn [trace set_trace set_pms_pending]. rewrite rounded_app, length_app.
    change (rounded ([EvBme280; EvBme280; EvBme280] ++ evs)) with (rounded evs).
    rewrite LR. lia.
Qed.

Lemma reading_fields_rounded_witness :
  py_round (Float (589 # 50)) 2 = Float (589 # 50).
Proof.
  destruct (reading_fields_rounded default_config (sample_at 0 0)
              (Main.boot [PmData 3 5])
              (snd (Main.get_sensor_data default_config (sample_at 0 0)
                      (Main.boot [PmData 3 5])))
              [("temperature", Float (589 # 50)); ("pressure", Float (4053 # 4));
               ("humidity", Float (81 # 2)); ("P2", Int 3); ("P1", Int 5);
               ("oxidising", Float (617 # 50)); ("reducing", Float 400);
               ("nh3", Float 100)]
              "2023-03-08 12:00:00.000000") as [F _].
  - vm_compute. reflexivity.
  - apply (F "temperature"). reflexivity.
Defined.

(** C9, the count of the claim: in the shipped configuration one
    acquisition writes eight fields and calls [round] nine times, twice of
    them on the temperature (in [compensate_temperature], then again in
    [calibrate_temperature]). *)
Lemma temperature_rounded_twice :
  let run := Main.get_sensor_data default_config (sample_at 0 0)
               (Main.boot [PmData 3 5]) in
  match fst run with
  | Ok (out, _) =>
      List.length out = 8%nat
      /\ List.length (rounded (trace (snd run))) = 9%nat
      /\ List.length (rounded (trace (snd run))) <> List.length out
      /\ firstn 2 (rounded (trace (snd run)))
         = [(Float (2650000 # 225000), 2%Z); (Float (589 # 50), 2%Z)]
  | Raise _ => False
  end.
Proof. vm_compute. repeat split. discriminate. Qed.

(** ** Particulate reads: retry in emi_test.py, none in main.py *)

Ltac count_trace :=
  unfold count; cbn [trace set_trace set_pms_pending];
  rewrite ?filter_app, ?length_app; cbn; try lia.

(** emi_test.py, first read answered: no reset, one read. *)
Lemma read_values_first_try
  (str_num : num -> string) (format_2f : Q -> string) (s : Sample) (w : World)
  (a b : Z) (rest : list pm_outcome) :
  pms_pending w = PmData a b :: rest ->
  let run := EmiTest.read_values str_num format_2f s w in
  (exists values, fst run = Ok (values, datetime_now s)
                  /\ dict_get values "P2" = Some (str_num (Int a))
                  /\ dict_get values "P1" = Some (str_num (Int b)))
  /\ count is_pms_reset (trace (snd run)) = count is_pms_reset (trace w)
  /\ count is_pms_read (trace (snd run)) = S (count is_pms_read (trace w))
  /\ pms_pending (snd run) = rest.
Proof.
  destruct w as [pend img tr errs sc pt dt mt']. cbn [pms_pending].
  intros ->. unfold EmiTest.read_values, EmiTest.bme280_get, pms5003_read. run.
  split; [eexists; split; [reflexivity | split; reflexivity]|].
  repeat split; count_trace.
Qed.

(** X25: emi_test.py, first read failed with a timeout or checksum error:
    the sensor is reset once and read once more, and the outcome of that
    second read is the outcome of the acquisition. *)
Lemma read_values_retries
  (str_num : num -> string) (format_2f : Q -> string) (s : Sample) (w : World)
  (e : exn) (next : pm_outcome) (rest : list pm_outcome) :
  pms_pending w = PmFail e :: next :: rest ->
  e = ReadTimeoutError \/ e = ChecksumMismatchError ->
  let run := EmiTest.read_values str_num format_2f s w in
  count is_pms_reset (trace (snd run)) = S (count is_pms_reset (trace w))
  /\ count is_pms_read (trace (snd run)) = S (S (count is_pms_read (trace w)))
  /\ pms_pending (snd run) = rest
  /\ match next with
     | PmData a b => exists values, fst run = Ok (values, datetime_now s)
     | PmFail e2 => fst run = Raise e2
     end.
Proof.
  destruct w as [pend img tr errs sc pt dt mt']. cbn [pms_pending].
  intros -> [-> | ->];
    unfold EmiTest.read_values, EmiTest.bme280_get, pms5003_read, pms5003_reset,
      logging; run;
    destruct next as [a b | e2]; cbn;
    repeat split; try reflexivity; try (eexists; reflexivity); count_trace.
Qed.

(** X26: emi_test.py, an error of another kind is not retried: it leaves
    [read_values] after one read and no reset. *)
Lemma read_values_other_error
  (str_num : num -> string) (format_2f : Q -> string) (s : Sample) (w : World)
  (e : exn) (rest : list pm_outcome) :
  pms_pending w = PmFail e :: rest ->
  e <> ReadTimeoutError -> e <> ChecksumMismatchError ->
  let run := EmiTest.read_values str_num format_2f s w in
  fst run = Raise e
  /\ count is_pms_reset (trace (snd run)) = count is_pms_reset (trace w)
  /\ count is_pms_read (trace (snd run)) = S (count is_pms_read (trace w)).
Proof.
  destruct w as [pend img tr errs sc pt dt mt']. cbn [pms_pending].
  intros -> N1 N2.
  unfold EmiTest.read_values, EmiTest.bme280_get, pms5003_read. run.
  destruct e; try contradiction; cbn; repeat split; count_trace.
Qed.

(** main.py: whatever the particulate sensor raises leaves
    [get_sensor_data] at once, with no reset and no second read. *)
Lemma get_sensor_data_propagates
  (cfg : Config) (s : Sample) (w : World) (e : exn) (rest : list pm_outcome) :
  pms_pending w = PmFail e :: rest ->
  (COMPENSATE_TEMPERATURE cfg = true -> ~ TEMP_COMPENSATION_FACTOR cfg == 0) ->
  let run := Main.get_sensor_data cfg s w in
  fst run = Raise e
  /\ count is_pms_reset (trace (snd run)) = count is_pms_reset (trace w)
  /\ count is_pms_read (trace (snd run)) = S (count is_pms_read (trace w))
  /\ pms_pending (snd run) = rest.
Proof.
  destruct w as [pend img tr errs sc pt dt mt']. cbn [pms_pending].
  intros -> NZ.
  unfold Main.get_sensor_data, Main.compensate_temperature, Main.float_div,
    Main.bme280_get, pms5003_read, round_.
  destruct (COMPENSATE_TEMPERATURE cfg).
  - destruct (Qeq_bool (TEMP_COMPENSATION_FACTOR cfg) 0) eqn:Z0.
    + apply Qeq_bool_iff in Z0. now destruct (NZ eq_refl).
    + run. repeat split; count_trace.
  - run. repeat split; count_trace.
Qed.

(** C8 on main.py: a checksum error on the first read of an acquisition,
    with a good frame waiting behind it.  [get_sensor_data] raises the
    error after one read and no reset, and the good frame is still
    pending; on the same sensor [read_values] of emi_test.py resets once,
    reads again and returns the reading. *)
Theorem get_sensor_data_does_not_retry :
  let w := Main.boot [PmFail ChecksumMismatchError; PmData 3 5] in
  let main_run := Main.get_sensor_data default_config (sample_at 0 0) w in
  let emi_run :=
    EmiTest.read_values show_num (fun q => show_num (Float q)) (sample_at 0 0) w in
  fst main_run = Raise ChecksumMismatchError
  /\ count is_pms_reset (trace (snd main_run)) = 0%nat
  /\ count is_pms_read (trace (snd main_run)) = 1%nat
  /\ pms_pending (snd main_run) = [PmData 3 5]
  /\ (exists values,
        fst emi_run = Ok (values, datetime_now (sample_at 0 0))
        /\ dict_get values "P2" = Some "3" /\ dict_get values "P1" = Some "5")
  /\ count is_pms_reset (trace (snd emi_run)) = 1%nat
  /\ count is_pms_read (trace (snd emi_run)) = 2%nat.
Proof.
  vm_compute. repeat split. eexists. repeat split.
Qed.

(** ** Remote push: [send_to_luftdaten] *)

Lemma posts_app (t u : list event) : posts (t ++ u) = (posts t ++ posts u)%list.
Proof. apply flat_map_app. Qed.

Ltac posts_trace :=
  cbn [trace set_trace set_pms_pending fst snd];
  rewrite ?posts_app; cbn [posts flat_map app];
  rewrite ?app_nil_r, <- ?app_assoc; cbn [app].

(** Case analysis on what the service answers to the posts in the goal. *)
Ltac case_server env :=
  repeat (match goal with
          | |- context [http_server env ?r] =>
              destruct (http_server env r) as [[|] ? | []]; cbn
          end).

Ltac unfold_luftdaten :=
  unfold Main.send_to_luftdaten, Main.dict_item, Main.try_post,
    Main.requests_post, Main.post_handlers, logging, pm_request,
    climate_request.

(** With both particulate measurements enabled and present, the
    particulate submission is always issued, and the climate submission
    is issued after it exactly when there are climate fields. *)
Lemma send_to_luftdaten_posts
  (cfg : Config) (env : Env) (data : dict) (serial : string) (w : World)
  (p1 p2 : num) :
  MEASURE_PM25 cfg && MEASURE_PM10 cfg = true ->
  dict_get data "P1" = Some p1 -> dict_get data "P2" = Some p2 ->
  let run := Main.send_to_luftdaten cfg env data serial w in
  posts (trace (snd run))
  = (posts (trace w)
     ++ pm_request serial p1 p2
     :: match climate_items data with
        | [] => []
        | _ :: _ => [climate_request serial data]
        end)%list.
Proof.
  intros F H1 H2. destruct w as [pend img tr errs sc pt dt mt'].
  unfold_luftdaten. rewrite F, H1, H2. cbn [negb].
  destruct (climate_items data) as [|c cs] eqn:C; run; case_server env;
    posts_trace; reflexivity.
Qed.

(** The result in the same situation: success exactly when the
    particulate post got an [ok] response and the climate post was not
    issued, or got no response at all, or got an [ok] response. *)
Lemma send_to_luftdaten_outcome
  (cfg : Config) (env : Env) (data : dict) (serial : string) (w : World)
  (p1 p2 : num) :
  MEASURE_PM25 cfg && MEASURE_PM10 cfg = true ->
  dict_get data "P1" = Some p1 -> dict_get data "P2" = Some p2 ->
  fst (Main.send_to_luftdaten cfg env data serial w)
  = Ok (if response_ok (http_server env (pm_request serial p1 p2))
           && match climate_items data with
              | [] => true
              | _ :: _ =>
                  no_response (http_server env (climate_request serial data))
                  || response_ok (http_server env (climate_request serial data))
              end
        then 0%Z else (-1)%Z).
Proof.
  intros F H1 H2. destruct w as [pend img tr errs sc pt dt mt'].
  unfold_luftdaten. rewrite F, H1, H2. cbn [negb].
  destruct (climate_items data) as [|c cs] eqn:C; run; case_server env;
    reflexivity.
Qed.

(** The configuration gate: with a particulate measurement disabled
    nothing is submitted and the result is a failure. *)
Lemma send_to_luftdaten_gate
  (cfg : Config) (env : Env) (data : dict) (serial : string) (w : World) :
  MEASURE_PM25 cfg && MEASURE_PM10 cfg = false ->
  let run := Main.send_to_luftdaten cfg env data serial w in
  fst run = Ok (-1)%Z /\ posts (trace (snd run)) = posts (trace w).
Proof.
  intros F. destruct w as [pend img tr errs sc pt dt mt'].
  unfold_luftdaten. rewrite F. run. split; [reflexivity|].
  posts_trace. reflexivity.
Qed.

(** A reading without [P1] or without [P2] makes the lookup raise before
    anything is submitted. *)
Lemma send_to_luftdaten_missing_pm
  (cfg : Config) (env : Env) (data : dict) (serial : string) (w : World) :
  MEASURE_PM25 cfg && MEASURE_PM10 cfg = true ->
  dict_get data "P1" = None \/ dict_get data "P2" = None ->
  let run := Main.send_to_luftdaten cfg env data serial w in
  (exists k, fst run = Raise (KeyError k))
  /\ posts (trace (snd run)) = posts (trace w).
Proof.
  intros F H. destruct w as [pend img tr errs sc pt dt mt'].
  unfold_luftdaten. rewrite F. cbn [negb].
  destruct (dict_get data "P1") as [p1|] eqn:H1.
  - destruct H as [H | H]; [discriminate H|]. rewrite H. run.
    split; [eexists; reflexivity | reflexivity].
  - run. split; [eexists; reflexivity | reflexivity].
Qed.

(** C4, as the code has it: [send_to_luftdaten] of main.py splits a
    reading into the particulate group ([P1], [P2]; tag 1) and the climate
    group (every key not starting with P; tag 11).  The particulate group
    is mandatory: with a particulate measurement disabled the call fails
    with nothing submitted, and a reading without [P1] or [P2] raises
    [KeyError] with nothing submitted.  Otherwise the particulate
    submission is issued, followed by the climate submission exactly when
    the climate group is not empty: one submission for a reading of
    particulate fields only, two for a reading with both; an empty climate
    group is skipped and does not count as a failure. *)
Theorem send_to_luftdaten_grouping
  (cfg : Config) (env : Env) (data : dict) (serial : string) (w : World) :
  let run := Main.send_to_luftdaten cfg env data serial w in
  (MEASURE_PM25 cfg && MEASURE_PM10 cfg = false ->
   fst run = Ok (-1)%Z /\ posts (trace (snd run)) = posts (trace w))
  /\ (MEASURE_PM25 cfg && MEASURE_PM10 cfg = true ->
      dict_get data "P1" = None \/ dict_get data "P2" = None ->
      (exists k, fst run = Raise (KeyError k))
      /\ posts (trace (snd run)) = posts (trace w))
  /\ (MEASURE_PM25 cfg && MEASURE_PM10 cfg = true ->
      forall p1 p2,
        dict_get data "P1" = Some p1 -> dict_get data "P2" = Some p2 ->
        posts (trace (snd run))
        = (posts (trace w)
           ++ pm_request serial p1 p2
           :: match climate_items data with
              | [] => []
              | _ :: _ => [climate_request serial data]
              end)%list
        /\ x_pin (pm_request serial p1 p2) = "1"
        /\ x_pin (climate_request serial data) = "11"
        /\ (climate_items data = [] ->
            fst run
            = Ok (if response_ok (http_server env (pm_request serial p1 p2))
                  then 0%Z else (-1)%Z))).
Proof.
  intros run. split; [|split].
  - apply send_to_luftdaten_gate.
  - apply send_to_luftdaten_missing_pm.
  - intros F p1 p2 H1 H2. split; [|split; [reflexivity|split; [reflexivity|]]].
    + now apply send_to_luftdaten_posts.
    + intros C. unfold run.
      rewrite (send_to_luftdaten_outcome cfg env data serial w p1 p2 F H1 H2), C.
      now rewrite andb_true_r.
Qed.

Lemma send_to_luftdaten_grouping_witness :
  posts (trace (snd (Main.send_to_luftdaten default_config healthy full_reading
                       "raspi-0001" (Main.boot []))))
  = [pm_request "raspi-0001" (Int 5) (Int 3);
     climate_request "raspi-0001" full_reading]
  /\ posts (trace (snd (Main.send_to_luftdaten default_config healthy
                          particulate_reading "raspi-0001" (Main.boot []))))
     = [pm_request "raspi-0001" (Int 5) (Int 3)].
Proof.
  split.
  - destruct (send_to_luftdaten_grouping default_config healthy full_reading
                "raspi-0001" (Main.boot [])) as (_ & _ & G).
    destruct (G eq_refl (Int 5) (Int 3) eq_refl eq_refl) as (P & _).
    exact P.
  - destruct (send_to_luftdaten_grouping default_config healthy
                particulate_reading "raspi-0001" (Main.boot [])) as (_ & _ & G).
    destruct (G eq_refl (Int 5) (Int 3) eq_refl eq_refl) as (P & _).
    exact P.
Defined.

(** C4, the clause of the claim on empty groups: with the particulate
    measurements off, a reading of climate fields only has an empty
    particulate group and a climate group of three fields; the call
    submits nothing and reports failure, on a service that would have
    accepted the climate submission. *)
Lemma empty_particulate_group_is_a_failure :
  let run := Main.send_to_luftdaten particulates_off healthy climate_reading
               "raspi-0001" (Main.boot []) in
  particulate_items climate_reading = []
  /\ List.length (climate_items climate_reading) = 3%nat
  /\ response_ok (http_server healthy (climate_request "raspi-0001" climate_reading))
     = true
  /\ posts (trace (snd run)) = []
  /\ fst run = Ok (-1)%Z.
Proof. vm_compute. repeat split. Qed.

(** X27: emi_test.py: both submissions are always issued, whatever the
    groups hold, the particulate one first, and the result is [True]
    exactly when both got an [ok] response. *)
Lemma emi_send_to_luftdaten_rule
  (env : Env) (values : list (string * string)) (id : string) (w : World) :
  let run := EmiTest.send_to_luftdaten env values id w in
  let pm := {| x_pin := "1"; x_sensor := id;
               sensordatavalues := reshaped JStr (particulate_items values) |} in
  let climate := {| x_pin := "11"; x_sensor := id;
                    sensordatavalues := reshaped JStr (climate_items values) |} in
  posts (trace (snd run)) = (posts (trace w) ++ [pm; climate])%list
  /\ fst run = Ok (response_ok (http_server env pm)
                   && response_ok (http_server env climate)).
Proof.
  destruct w as [pend img tr errs sc pt dt mt'].
  unfold EmiTest.send_to_luftdaten, EmiTest.try_post, EmiTest.requests_post,
    EmiTest.post_handlers, logging.
  run. case_server env; (split; [posts_trace; reflexivity | reflexivity]).
Qed.

(** C5 on main.py: the particulate submission is accepted and the climate
    submission, which is issued, fails with a connection error.  The
    [except] clause leaves [climate_api_response] at [None], the branch
    commented "if no climate data was provided" is taken, and the call
    reports success. *)
Theorem failed_climate_post_reported_as_success :
  let run := Main.send_to_luftdaten default_config climate_unreachable
               full_reading "raspi-0001" (Main.boot []) in
  posts (trace (snd run))
  = [pm_request "raspi-0001" (Int 5) (Int 3);
     climate_request "raspi-0001" full_reading]
  /\ http_server climate_unreachable (pm_request "raspi-0001" (Int 5) (Int 3))
     = Response true "OK"
  /\ http_server climate_unreachable (climate_request "raspi-0001" full_reading)
     = PostFails ConnectionFailed
  /\ fst run = Ok 0%Z
  /\ fst (EmiTest.send_to_luftdaten climate_unreachable
            [("temperature", "11.78"); ("P2", "3"); ("P1", "5")]
            "raspi-0001" (Main.boot []))
     = Ok false.
Proof. vm_compute. repeat split. Qed.

(** ** One pass of the main loop *)

(** The block "User input" never raises: it reads the proximity sensor
    once and sets the scene. *)
Lemma user_input_run (s : Sample) (w : World) :
  Main.user_input s w
  = (Ok tt,
     set_current_scene_id
       (if (1500 <? ltr559_proximity s)%Z
        then if (2 <? current_scene_id w + 1)%Z then 0%Z
             else (current_scene_id w + 1)%Z
        else current_scene_id w)
       (set_trace (trace w ++ [EvProximity]) w)).
Proof.
  destruct w as [pend img tr errs sc pt dt mt'].
  unfold Main.user_input, Main.ltr559_get_proximity. run.
  destruct (1500 <? ltr559_proximity s)%Z; cbn; [|reflexivity].
  destruct (2 <? sc + 1)%Z; reflexivity.
Qed.

(** The block "Display updates" never raises: it shows one frame, whose
    background tells the error flag and whose bar is drawn for [p]. *)
Lemma display_updates_run (env : Env) (str_num : num -> string) (p : Q) (w : World) :
  exists txt,
    Main.display_updates env str_num p w
    = (Ok tt,
       let f := {| bg_red := mainloop_errors w; texts := txt; bar_percent := p;
                   bar_right := py_int (inject_Z (display_width env) * p) |} in
       set_trace (trace w ++ [EvDisplay f]) (set_image f w)).
Proof.
  destruct w as [pend img tr errs sc pt dt mt'].
  unfold Main.display_updates, Main.display_status_bg, Main.display_main_scene,
    Main.draw_text, Main.display_progress_bar, Main.display_display.
  run.
  destruct (sc =? 0)%Z; [|destruct (sc =? 1)%Z; [|destruct (sc =? 2)%Z]];
    cbn; eexists; reflexivity.
Qed.

(** The block "Data storage/transfer", case by case: the console first,
    then the store, and the first of them that raises ends the block. *)
Lemma data_storage_transfer_run
  (cfg : Config) (env : Env) (str_num : num -> string) (d : dict) (t : string)
  (w : World) :
  Main.data_storage_transfer cfg env str_num d t w
  = match (if VERBOSE cfg then console_fault env else None) with
    | Some e => (Raise e, w)
    | None =>
        let w1 := if VERBOSE cfg
                  then set_trace (trace w ++ [EvPrint (Main.verbose_line str_num d t)]) w
                  else w in
        if SAVE_DATA_LOCALLY cfg then
          match db_fault env with
          | Some e => (Raise e, w1)
          | None =>
              (Ok tt,
               set_trace (trace w1 ++ [EvSql (Main.insert_command cfg env str_num d t);
                                       EvLog "Success: Data saved to local storage."]) w1)
          end
        else (Ok tt, w1)
    end.
Proof.
  destruct w as [pend img tr errs sc pt dt mt'].
  unfold Main.data_storage_transfer, Main.verbose, Main.print,
    Main.send_to_local_db, Main.db_execute, logging.
  destruct (VERBOSE cfg), (console_fault env), (SAVE_DATA_LOCALLY cfg),
    (db_fault env); run; rewrite <- ?app_assoc; reflexivity.
Qed.

(** "User input", "Display updates" and the sleep: the end of every pass
    that got that far.  Only the sleep can raise, and it does so after
    the frame is shown. *)
Lemma refresh_run (env : Env) (str_num : num -> string) (s : Sample) (p d : Q)
  (w : World) :
  exists txt,
    (Main.user_input s ;; Main.display_updates env str_num p ;;
     Main.time_sleep d) w
    = ((if Qle_bool 0 d then Ok tt else Raise ValueError),
       let scene :=
         if (1500 <? ltr559_proximity s)%Z
         then if (2 <? current_scene_id w + 1)%Z then 0%Z
              else (current_scene_id w + 1)%Z
         else current_scene_id w in
       let f := {| bg_red := mainloop_errors w; texts := txt; bar_percent := p;
                   bar_right := py_int (inject_Z (display_width env) * p) |} in
       set_trace (trace w ++ [EvProximity; EvDisplay f])
         (set_image f (set_current_scene_id scene w))).
Proof.
  unfold bind. rewrite user_input_run.
  match goal with
  | |- context [Main.display_updates env str_num p ?W] =>
      destruct (display_updates_run env str_num p W) as [txt E]; rewrite E
  end.
  exists txt. destruct w as [pend img tr errs sc pt dt mt'].
  unfold Main.time_sleep.
  destruct (Qle_bool 0 d); cbn; rewrite <- app_assoc; reflexivity.
Qed.

(** The body of a pass, stage by stage. *)
Lemma mainloop_body_cases
  (cfg : Config) (env : Env) (str_num : num -> string) (s : Sample) (w : World) :
  let td := time_time s - previous_time w in
  let ud := Main.update_delay cfg in
  Main.mainloop_body cfg env str_num s w
  = if Qle_bool ud td then
      match Main.get_sensor_data cfg s (set_previous_time (time_time s) w) with
      | (Raise e, w1) => (Raise e, w1)
      | (Ok acq, w1) =>
          match Main.data_storage_transfer cfg env str_num (fst acq) (snd acq)
                  (set_measurement_time (snd acq) (set_data (fst acq) w1)) with
          | (Raise e, w3) => (Raise e, w3)
          | (Ok _, w3) =>
              (Main.user_input s ;; Main.display_updates env str_num (td / ud) ;;
               Main.time_sleep (ud * 0.05)) w3
          end
      end
    else (Main.user_input s ;; Main.display_updates env str_num (td / ud) ;;
          Main.time_sleep (ud * 0.05)) w.
Proof.
  intros td ud.
  unfold Main.mainloop_body, Main.sample_due.
  fold ud. cbv [bind gets modify ret]. fold td.
  destruct (Qle_bool ud td); [|reflexivity].
  destruct (Main.get_sensor_data cfg s (set_previous_time (time_time s) w))
    as [[acq | e] w1]; [|reflexivity].
  cbn [data measurement_time set_data set_measurement_time].
  destruct (Main.data_storage_transfer cfg env str_num (fst acq) (snd acq) _)
    as [[[] | e] w3]; reflexivity.
Qed.

(** The sampling block of a pass, stage by stage. *)
Lemma sampling_completes_cases
  (cfg : Config) (env : Env) (str_num : num -> string) (s : Sample) (w : World) :
  sampling_completes cfg env str_num s w
  = if Qle_bool (Main.update_delay cfg) (time_time s - previous_time w) then
      match Main.get_sensor_data cfg s (set_previous_time (time_time s) w) with
      | (Raise _, _) => false
      | (Ok acq, w1) =>
          match fst (Main.data_storage_transfer cfg env str_num (fst acq) (snd acq)
                       (set_measurement_time (snd acq) (set_data (fst acq) w1))) with
          | Raise _ => false
          | Ok _ => true
          end
      end
    else true.
Proof.
  unfold sampling_completes, Main.sample_due.
  cbv [bind gets modify ret].
  destruct (Qle_bool _ _); [|reflexivity].
  destruct (Main.get_sensor_data cfg s (set_previous_time (time_time s) w))
    as [[acq | e] w1]; [|reflexivity].
  cbn [data measurement_time set_data set_measurement_time fst snd].
  destruct (Main.data_storage_transfer cfg env str_num (fst acq) (snd acq) _)
    as [[[] | e] w3]; reflexivity.
Qed.

Lemma displayed_app (t u : list event) :
  displayed (t ++ u) = (displayed t ++ displayed u)%list.
Proof. apply flat_map_app. Qed.

Lemma printed_app (t u : list event) :
  printed (t ++ u) = (printed t ++ printed u)%list.
Proof. apply flat_map_app. Qed.

Lemma sql_commands_app (t u : list event) :
  sql_commands (t ++ u) = (sql_commands t ++ sql_commands u)%list.
Proof. apply flat_map_app. Qed.

(** Projections of an updated world, and traces split at their appends. *)
Ltac split_trace :=
  cbn [trace set_trace set_pms_pending set_image set_current_scene_id
       set_previous_time set_data set_measurement_time set_mainloop_errors
       fst snd previous_time current_scene_id mainloop_errors image data
       measurement_time pms_pending];
  rewrite ?count_app, ?displayed_app, ?printed_app, ?sql_commands_app, ?posts_app.

(** Counting and filtering the literal part of a trace. *)
Ltac eval_trace :=
  cbn [count filter List.length is_bme280 is_proximity is_pms_read is_pms_reset
       displayed printed sql_commands posts flat_map app Nat.add
       bar_percent bar_right bg_red texts].

(** What one pass leaves behind, whatever happens in it. *)
Lemma mainloop_pass_summary
  (cfg : Config) (env : Env) (str_num : num -> string) (s : Sample) (w : World) :
  let td := time_time s - previous_time w in
  let ud := Main.update_delay cfg in
  let fires := Qle_bool ud td in
  let sampled := sampling_completes cfg env str_num s w in
  let completes := body_completes cfg env str_num s w in
  let pass := Main.mainloop_pass cfg env str_num s w in
  previous_time pass = (if fires then time_time s else previous_time w)
  /\ count is_bme280 (trace pass)
     = (count is_bme280 (trace w) + if fires then 3 else 0)%nat
  /\ count is_proximity (trace pass)
     = (count is_proximity (trace w) + if sampled then 1 else 0)%nat
  /\ current_scene_id pass
     = (if sampled then
          if (1500 <? ltr559_proximity s)%Z
          then if (2 <? current_scene_id w + 1)%Z then 0%Z
               else (current_scene_id w + 1)%Z
          else current_scene_id w
        else current_scene_id w)
  /\ mainloop_errors pass = (if completes then mainloop_errors w else true)
  /\ (if sampled
      then exists f,
             displayed (trace pass) = (displayed (trace w) ++ [f])%list
             /\ bar_percent f = td / ud
             /\ bar_right f = py_int (inject_Z (display_width env) * (td / ud))
             /\ bg_red f = mainloop_errors w
      else displayed (trace pass) = displayed (trace w))
  /\ (fires = false -> sampled = true)
  /\ completes = sampled && sleep_returns cfg.
Proof.
  intros td ud fires sampled completes pass.
  unfold sampled, completes, body_completes, pass, Main.mainloop_pass,
    sleep_returns.
  rewrite mainloop_body_cases, sampling_completes_cases. fold td ud fires.
  destruct fires.
  - destruct (Main.get_sensor_data cfg s (set_previous_time (time_time s) w))
      as [r w1] eqn:G.
    apply get_sensor_data_effect in G as (evs & p & -> & ACQ & _).
    destruct (acquiring_events _ ACQ) as (B & P & _ & _ & _ & D).
    destruct r as [acq | e].
    + rewrite data_storage_transfer_run.
      destruct (VERBOSE cfg), (console_fault env), (SAVE_DATA_LOCALLY cfg),
        (db_fault env); cbn [fst snd];
        try match goal with
            | |- context [(Main.user_input s ;; Main.display_updates env str_num ?q ;;
                           Main.time_sleep ?d) ?W] =>
                destruct (refresh_run env str_num s q d W) as [txt E]; rewrite E;
                destruct (Qle_bool 0 d)
            end;
        cbv [logging emit modify fst snd]; split_trace; rewrite ?B, ?P, ?D;
        eval_trace;
        (repeat split; try lia; try discriminate;
         try (eexists; repeat split); rewrite ?app_nil_r; reflexivity).
    + cbv [logging emit modify fst snd]; split_trace; rewrite ?B, ?P, ?D;
        eval_trace.
      repeat split; try lia; try discriminate. now rewrite !app_nil_r.
  - destruct (refresh_run env str_num s (td / ud) (ud * 0.05) w) as [txt E].
    rewrite E. destruct (Qle_bool 0 (ud * 0.05));
      cbv [logging emit modify fst snd]; split_trace; eval_trace;
      (repeat split; try lia; try (eexists; repeat split);
       rewrite ?app_nil_r; reflexivity).
Qed.

(** A body that runs to its end got past the sampling block and slept. *)
Lemma body_completes_cases
  (cfg : Config) (env : Env) (str_num : num -> string) (s : Sample) (w : World) :
  body_completes cfg env str_num s w
  = sampling_completes cfg env str_num s w && sleep_returns cfg.
Proof. apply mainloop_pass_summary. Qed.

Lemma body_completes_sampling
  (cfg : Config) (env : Env) (str_num : num -> string) (s : Sample) (w : World) :
  body_completes cfg env str_num s w = true ->
  sampling_completes cfg env str_num s w = true.
Proof.
  rewrite body_completes_cases. intros C. now apply andb_true_iff in C.
Qed.

(** With a positive frequency the sleep has a positive length. *)
Lemma sleep_returns_pos (cfg : Config) :
  0 < MEASUREMENT_FREQUENCY cfg -> sleep_returns cfg = true.
Proof.
  intros F. unfold sleep_returns, Main.update_delay. apply Qle_bool_iff.
  apply Qmult_le_0_compat; [|discriminate].
  apply Qlt_le_weak, Qlt_shift_div_l; [exact F | lra].
Qed.

(** ** Cadence *)

Section Cadence.

Variable cfg : Config.
Variable env : Env.
Variable str_num : num -> string.

Local Abbreviation interval := (Main.update_delay cfg).
Local Abbreviation pass := (Main.mainloop_pass cfg env str_num).
Local Abbreviation passes := (Main.mainloop_passes cfg env str_num).

(** A pass on which the sample is due takes it and moves the reference
    time to the time of the pass. *)
Lemma pass_due (s : Sample) (w : World) :
  interval <= time_time s - previous_time w ->
  previous_time (pass s w) = time_time s
  /\ count is_bme280 (trace (pass s w)) = (count is_bme280 (trace w) + 3)%nat.
Proof.
  intros D. apply Qle_bool_iff in D.
  destruct (mainloop_pass_summary cfg env str_num s w) as (P & B & _).
  rewrite D in P, B. now split.
Qed.

(** A pass on which the sample is not due takes none and leaves the
    reference time alone. *)
Lemma pass_not_due (s : Sample) (w : World) :
  ~ interval <= time_time s - previous_time w ->
  previous_time (pass s w) = previous_time w
  /\ count is_bme280 (trace (pass s w)) = count is_bme280 (trace w).
Proof.
  intros D.
  destruct (mainloop_pass_summary cfg env str_num s w) as (P & B & _).
  destruct (Qle_bool interval (time_time s - previous_time w)) eqn:E.
  - apply Qle_bool_iff in E. contradiction.
  - split; [exact P | rewrite B; lia].
Qed.

Lemma passes_cons (s : Sample) (ss : list Sample) (w : World) :
  passes (s :: ss) w = passes ss (pass s w).
Proof. reflexivity. Qed.

(** Passes that all come less than an interval after the reference time
    take no sample. *)
Lemma passes_quiet (ss : list Sample) (w : World) :
  (forall s, In s ss -> time_time s - previous_time w < interval) ->
  previous_time (passes ss w) = previous_time w
  /\ count is_bme280 (trace (passes ss w)) = count is_bme280 (trace w).
Proof.
  revert w. induction ss as [|s ss IH]; intros w Q; [now split|].
  rewrite passes_cons.
  assert (N : ~ interval <= time_time s - previous_time w).
  { apply Qlt_not_le, Q. now left. }
  destruct (pass_not_due s w N) as [P B].
  destruct (IH (pass s w)) as [P' B'].
  - intros s' I. rewrite P. apply Q. now right.
  - split; congruence.
Qed.

(** Over any passes, each sample taken accounts for at least one interval
    of progress of the reference time. *)
Lemma passes_bounded (ss : list Sample) (w : World) :
  exists k : nat,
    count is_bme280 (trace (passes ss w)) = (count is_bme280 (trace w) + 3 * k)%nat
    /\ inject_Z (Z.of_nat k) * interval
       <= previous_time (passes ss w) - previous_time w.
Proof.
  revert w. induction ss as [|s ss IH]; intros w.
  - exists 0%nat. split; [cbn [Main.mainloop_passes fold_left]; lia|].
    cbn [Main.mainloop_passes fold_left]. change (inject_Z (Z.of_nat 0)) with 0. lra.
  - rewrite passes_cons. destruct (IH (pass s w)) as (k & C & T).
    destruct (Qlt_le_dec (time_time s - previous_time w) interval) as [Q | D].
    + destruct (pass_not_due s w (Qlt_not_le _ _ Q)) as [P B].
      exists k. rewrite C, B, <- P. split; [reflexivity | exact T].
    + destruct (pass_due s w D) as [P B].
      exists (S k). rewrite C, B. split; [lia|].
      rewrite Nat2Z.inj_succ. unfold Z.succ. rewrite inject_Z_plus.
      rewrite P in T. change (inject_Z 1) with 1. lra.
Qed.
End Cadence.

(** C2: with [interval = 60 / MEASUREMENT_FREQUENCY], a pass of the loop
    takes a sample (three BME280 reads open every acquisition) exactly
    when [now - previous_time >= interval]; when it does, the reference
    time becomes [now] itself, so after a stall of any length, ten
    intervals included, the passes that follow within one interval of the
    firing pass take no sample: there is no burst.  Over any sequence of
    passes, [k] samples taken mean that the reference time advanced by at
    least [k] intervals: never more than one sample per elapsed interval. *)
Theorem cadence_control
  (cfg : Config) (env : Env) (str_num : num -> string) (s : Sample) (w : World) :
  let interval := Main.update_delay cfg in
  let elapsed := time_time s - previous_time w in
  let w' := Main.mainloop_pass cfg env str_num s w in
  interval = 60 / MEASUREMENT_FREQUENCY cfg
  /\ (interval <= elapsed ->
      previous_time w' = time_time s
      /\ count is_bme280 (trace w') = (count is_bme280 (trace w) + 3)%nat)
  /\ (~ interval <= elapsed ->
      previous_time w' = previous_time w
      /\ count is_bme280 (trace w') = count is_bme280 (trace w))
  /\ (interval <= elapsed ->
      forall later,
        (forall s', In s' later -> time_time s' - time_time s < interval) ->
        let w'' := Main.mainloop_passes cfg env str_num later w' in
        previous_time w'' = time_time s
        /\ count is_bme280 (trace w'') = (count is_bme280 (trace w) + 3)%nat)
  /\ (forall samples,
        let w'' := Main.mainloop_passes cfg env str_num samples w in
        exists k : nat,
          count is_bme280 (trace w'') = (count is_bme280 (trace w) + 3 * k)%nat
          /\ inject_Z (Z.of_nat k) * interval
             <= previous_time w'' - previous_time w).
Proof.
  intros interval elapsed w'. split; [reflexivity|].
  split; [apply pass_due|]. split; [apply pass_not_due|]. split.
  - intros D later Q. destruct (pass_due cfg env str_num s w D) as [P B].
    destruct (passes_quiet cfg env str_num later w') as [P' B'].
    + intros s' I. unfold w'. rewrite P. now apply Q.
    + cbn zeta. rewrite P', B'. now split.
  - intros samples. apply passes_bounded.
Qed.

Lemma cadence_control_witness :
  let stalled := Main.mainloop_pass default_config healthy show_num
                   (sample_at 300 0) (Main.boot [PmData 3 5]) in
  let after := Main.mainloop_passes default_config healthy show_num
                 [sample_at 310 0; sample_at 329 0] stalled in
  previous_time after = 300
  /\ count is_bme280 (trace after) = 3%nat.
Proof.
  destruct (cadence_control default_config healthy show_num (sample_at 300 0)
              (Main.boot [PmData 3 5])) as (_ & _ & _ & Q & _).
  apply Q.
  - unfold Qle. vm_compute. discriminate.
  - intros s' [<- | [<- | []]]; vm_compute; reflexivity.
Defined.

(** ** Progress bar *)

Lemma update_delay_pos (cfg : Config) :
  0 < MEASUREMENT_FREQUENCY cfg -> 0 < Main.update_delay cfg.
Proof.
  intros F. unfold Main.update_delay.
  apply Qlt_shift_div_l; [exact F | lra].
Qed.




(** ** Scenes *)

(** On the scenes 0, 1, 2 the two tests of the block "User input" compute
    the next scene modulo 3. *)
Lemma scene_step_spec (scene proximity : Z) :
  (0 <= scene < 3)%Z ->
  (if (1500 <? proximity)%Z
   then if (2 <? scene + 1)%Z then 0%Z else (scene + 1)%Z
   else scene)
  = spec_next_scene scene proximity.
Proof.
  intros R. unfold spec_next_scene.
  destruct (Z.ltb_spec 1500 proximity), (Z.leb_spec proximity 1500); try lia.
  assert (C : scene = 0%Z \/ scene = 1%Z \/ scene = 2%Z) by lia.
  destruct C as [-> | [-> | ->]]; reflexivity.
Qed.

Lemma spec_next_scene_range (scene proximity : Z) :
  (0 <= scene < 3)%Z -> (0 <= spec_next_scene scene proximity < 3)%Z.
Proof.
  intros R. unfold spec_next_scene.
  destruct (proximity <=? 1500)%Z; [exact R|].
  apply Z.mod_pos_bound. lia.
Qed.

Lemma pass_scene_range
  (cfg : Config) (env : Env) (str_num : num -> string) (s : Sample) (w : World) :
  (0 <= current_scene_id w < 3)%Z ->
  (0 <= current_scene_id (Main.mainloop_pass cfg env str_num s w) < 3)%Z.
Proof.
  intros R.
  destruct (mainloop_pass_summary cfg env str_num s w)
    as (_ & _ & _ & S & _).
  rewrite S. destruct (sampling_completes cfg env str_num s w); [|exact R].
  rewrite scene_step_spec by exact R. now apply spec_next_scene_range.
Qed.

Lemma passes_scene_range
  (cfg : Config) (env : Env) (str_num : num -> string) (samples : list Sample)
  (w : World) :
  (0 <= current_scene_id w < 3)%Z ->
  (0 <= current_scene_id (Main.mainloop_passes cfg env str_num samples w) < 3)%Z.
Proof.
  revert w. induction samples as [|s ss IH]; intros w R; [exact R|].
  cbn [Main.mainloop_passes fold_left]. apply IH. now apply pass_scene_range.
Qed.

(** C7: the scene index is 0 when the module is loaded and stays within
    0, 1, 2 over any passes.  A pass reads the proximity sensor once when
    it gets past its sampling block (no sample is due, or the sample is
    taken and served without an exception) and not at all otherwise; a
    pass on which no sample is due always reads it.  On a pass that reads
    it a value at or below 1500 leaves the index as it was and a value
    above 1500 moves it one step, from 2 back to 0; a pass that raised
    before reading the sensor leaves the index as it was.  Over passes on
    which no sample is due every value above 1500 is one step: [n] of them
    move the index by [n] modulo 3. *)
Theorem scene_index_cycles
  (cfg : Config) (env : Env) (str_num : num -> string) (s : Sample) (w : World)
  (R : (0 <= current_scene_id w < 3)%Z) :
  let w' := Main.mainloop_pass cfg env str_num s w in
  let polled := sampling_completes cfg env str_num s w in
  (forall pending, current_scene_id (Main.boot pending) = 0%Z)
  /\ (forall pending samples,
        (0 <= current_scene_id
                (Main.mainloop_passes cfg env str_num samples (Main.boot pending))
         < 3)%Z)
  /\ (0 <= current_scene_id w' < 3)%Z
  /\ (count is_proximity (trace w') = S (count is_proximity (trace w)) ->
      ((ltr559_proximity s <= 1500)%Z -> current_scene_id w' = current_scene_id w)
      /\ ((ltr559_proximity s > 1500)%Z ->
          current_scene_id w' = ((current_scene_id w + 1) mod 3)%Z)
      /\ current_scene_id w' = spec_next_scene (current_scene_id w) (ltr559_proximity s))
  /\ (count is_proximity (trace w') = count is_proximity (trace w) ->
      current_scene_id w' = current_scene_id w)
  /\ (count is_proximity (trace w') = S (count is_proximity (trace w))
      \/ count is_proximity (trace w') = count is_proximity (trace w))
  /\ count is_proximity (trace w')
     = (count is_proximity (trace w) + if polled then 1 else 0)%nat
  /\ current_scene_id w'
     = (if polled
        then spec_next_scene (current_scene_id w) (ltr559_proximity s)
        else current_scene_id w)
  /\ (~ Main.update_delay cfg <= time_time s - previous_time w -> polled = true)
  /\ (forall samples,
        (forall s', In s' samples ->
                    time_time s' - previous_time w < Main.update_delay cfg
                    /\ (ltr559_proximity s' > 1500)%Z) ->
        current_scene_id (Main.mainloop_passes cfg env str_num samples w)
        = ((current_scene_id w + Z.of_nat (List.length samples)) mod 3)%Z).
Proof.
  intros w' polled. split; [reflexivity|]. split.
  { intros pending samples. apply passes_scene_range. cbn. lia. }
  split; [now apply pass_scene_range|].
  destruct (mainloop_pass_summary cfg env str_num s w)
    as (_ & _ & P & S & _ & _ & N & _).
  fold w' polled in P, S, N.
  assert (A : count is_proximity (trace w')
              = (count is_proximity (trace w) + if polled then 1 else 0)%nat
              /\ current_scene_id w'
                 = (if polled
                    then spec_next_scene (current_scene_id w) (ltr559_proximity s)
                    else current_scene_id w)).
  { split; [exact P|]. rewrite S. destruct polled; [|reflexivity].
    now apply scene_step_spec. }
  destruct A as [A1 A2].
  assert (Q : ~ Main.update_delay cfg <= time_time s - previous_time w ->
              polled = true).
  { intros D. apply N.
    destruct (Qle_bool _ _) eqn:E; [|reflexivity].
    apply Qle_bool_iff in E. contradiction. }
  repeat match goal with |- _ /\ _ => split end;
    try exact A1; try exact A2; try exact Q.
  - intros C. assert (polled = true) as Y by (destruct polled; [reflexivity | lia]).
    rewrite A2, Y. unfold spec_next_scene.
    split; [|split; [|reflexivity]].
    + intros L. destruct (Z.leb_spec (ltr559_proximity s) 1500); [reflexivity|lia].
    + intros G. destruct (Z.leb_spec (ltr559_proximity s) 1500); [lia|reflexivity].
  - intros C. assert (polled = false) as Y by (destruct polled; [lia | reflexivity]).
    now rewrite A2, Y.
  - rewrite A1. destruct polled; [left | right]; lia.
  - clear - R. intros samples. revert w R.
    induction samples as [|s' ss IH]; intros w R H.
    + cbn [Main.mainloop_passes fold_left List.length Z.of_nat].
      rewrite Z.add_0_r, Z.mod_small; [reflexivity | exact R].
    + cbn [Main.mainloop_passes fold_left].
      destruct (H s' (or_introl eq_refl)) as [I G].
      destruct (mainloop_pass_summary cfg env str_num s' w)
        as (T & _ & _ & S & _ & _ & N & _).
      assert (F : Qle_bool (Main.update_delay cfg) (time_time s' - previous_time w)
                  = false).
      { destruct (Qle_bool _ _) eqn:E; [|reflexivity].
        apply Qle_bool_iff in E. exfalso. exact (Qlt_not_le _ _ I E). }
      rewrite (N F) in S. rewrite F in T.
      rewrite scene_step_spec in S by exact R.
      change (fold_left (fun w0 s0 => Main.mainloop_pass cfg env str_num s0 w0) ss
                (Main.mainloop_pass cfg env str_num s' w))
        with (Main.mainloop_passes cfg env str_num ss
                (Main.mainloop_pass cfg env str_num s' w)).
      rewrite IH.
      * rewrite S. unfold spec_next_scene.
        destruct (Z.leb_spec (ltr559_proximity s') 1500); [lia|].
        cbn [List.length]. rewrite Nat2Z.inj_succ, Zplus_mod_idemp_l.
        f_equal. lia.
      * rewrite S. now apply spec_next_scene_range.
      * intros s0 I0. rewrite T. apply H. now right.
Qed.

Lemma scene_index_cycles_witness :
  current_scene_id
    (Main.mainloop_pass default_config healthy show_num (sample_at 1 1501)
       (set_current_scene_id 2 (Main.boot [])))
  = 0%Z.
Proof.
  destruct (scene_index_cycles default_config healthy show_num (sample_at 1 1501)
              (set_current_scene_id 2 (Main.boot [])))
    as (_ & _ & _ & A & _).
  - cbn. lia.
  - destruct A as (_ & _ & E); [vm_compute; reflexivity|].
    rewrite E. reflexivity.
Defined.

(** ** Sinks *)

(** C1, as the code has it: on a pass that takes a sample, with the
    console and the local store both configured, the sinks are run one
    after the other inside the single [try] of the pass, and the remote
    push is not among them.  A sink that raises ends the pass: the error
    flag is set, a later sink is not attempted, the proximity sensor is
    not read, the scene stays and nothing is displayed.  So a failing
    console leaves no line and no row; a failing store, after a console
    that worked, leaves the console line and no row; when both work, the
    line and the row are written and the pass goes on to the proximity
    sensor and the display, and the error flag is left as it was unless
    the closing sleep raises, which it does not with a positive
    frequency. *)
Theorem sinks_run_in_sequence
  (cfg : Config) (env : Env) (str_num : num -> string) (s : Sample) (w : World)
  (out : dict) (t : string)
  (V : VERBOSE cfg = true) (L : SAVE_DATA_LOCALLY cfg = true)
  (D : Main.update_delay cfg <= time_time s - previous_time w)
  (A : fst (Main.get_sensor_data cfg s (set_previous_time (time_time s) w))
       = Ok (out, t)) :
  let w' := Main.mainloop_pass cfg env str_num s w in
  let line := Main.verbose_line str_num out t in
  let row := Main.insert_command cfg env str_num out t in
  posts (trace w') = posts (trace w)
  /\ match console_fault env, db_fault env with
     | Some _, _ =>
         printed (trace w') = printed (trace w)
         /\ sql_commands (trace w') = sql_commands (trace w)
         /\ displayed (trace w') = displayed (trace w)
         /\ mainloop_errors w' = true
         /\ count is_proximity (trace w') = count is_proximity (trace w)
         /\ current_scene_id w' = current_scene_id w
     | None, Some _ =>
         printed (trace w') = (printed (trace w) ++ [line])%list
         /\ sql_commands (trace w') = sql_commands (trace w)
         /\ displayed (trace w') = displayed (trace w)
         /\ mainloop_errors w' = true
         /\ count is_proximity (trace w') = count is_proximity (trace w)
         /\ current_scene_id w' = current_scene_id w
     | None, None =>
         printed (trace w') = (printed (trace w) ++ [line])%list
         /\ sql_commands (trace w') = (sql_commands (trace w) ++ [row])%list
         /\ List.length (displayed (trace w'))
            = S (List.length (displayed (trace w)))
         /\ mainloop_errors w' = mainloop_errors w || negb (sleep_returns cfg)
         /\ (0 < MEASUREMENT_FREQUENCY cfg ->
             mainloop_errors w' = mainloop_errors w)
         /\ count is_proximity (trace w') = S (count is_proximity (trace w))
     end.
Proof.
  intros w' line row. unfold w', Main.mainloop_pass.
  rewrite mainloop_body_cases.
  pose proof (sleep_returns_pos cfg) as SP. unfold sleep_returns in *.
  apply Qle_bool_iff in D. rewrite D.
  destruct (Main.get_sensor_data cfg s (set_previous_time (time_time s) w))
    as [r w1] eqn:G.
  cbn [fst] in A. subst r.
  apply get_sensor_data_effect in G as (evs & p & -> & ACQ & _).
  destruct (acquiring_events _ ACQ) as (_ & Px & Po & Sq & Pr & Di).
  rewrite data_storage_transfer_run, V, L. cbn [fst snd].
  destruct (console_fault env), (db_fault env);
    try match goal with
        | |- context [(Main.user_input s ;; Main.display_updates env str_num ?q ;;
                       Main.time_sleep ?d) ?W] =>
            destruct (refresh_run env str_num s q d W) as [txt E]; rewrite E;
            destruct (Qle_bool 0 d)
        end;
    cbv [logging emit modify fst snd]; split_trace;
    rewrite ?Po, ?Sq, ?Pr, ?Di, ?Px;
    eval_trace; rewrite ?app_nil_r, ?length_app, ?orb_false_r, ?orb_true_r;
    cbn [List.length negb];
    repeat split; try reflexivity; try lia;
    try (intros F; specialize (SP F); discriminate SP).
Qed.

Lemma sinks_run_in_sequence_witness :
  let w' := Main.mainloop_pass default_config database_down show_num
              (sample_at 30 0) (Main.boot [PmData 3 5]) in
  List.length (printed (trace w')) = 1%nat
  /\ sql_commands (trace w') = []
  /\ mainloop_errors w' = true.
Proof.
  destruct (sinks_run_in_sequence default_config database_down show_num
              (sample_at 30 0) (Main.boot [PmData 3 5])
              [("temperature", Float (589 # 50)); ("pressure", Float (4053 # 4));
               ("humidity", Float (81 # 2)); ("P2", Int 3); ("P1", Int 5);
               ("oxidising", Float (617 # 50)); ("reducing", Float 400);
               ("nh3", Float 100)]
              "2023-03-08 12:00:00.000000" eq_refl eq_refl)
    as (_ & P & S & _ & E & _).
  - unfold Qle. vm_compute. discriminate.
  - vm_compute. reflexivity.
  - cbn zeta. rewrite P, S, E. repeat split.
Defined.

(** C1, the claim as stated: one sink that always fails (the console) and
    one that always succeeds (the store).  The store alone would have
    written the row; with the console down the pass writes no row, prints
    nothing, never reaches the proximity sensor or the display, and sets
    the error flag. *)
Lemma console_failure_blocks_the_store :
  let down := Main.mainloop_pass default_config console_down show_num
                (sample_at 30 0) (Main.boot [PmData 3 5]) in
  let up := Main.mainloop_pass default_config healthy show_num
              (sample_at 30 0) (Main.boot [PmData 3 5]) in
  db_fault console_down = None
  /\ List.length (sql_commands (trace up)) = 1%nat
  /\ sql_commands (trace down) = []
  /\ printed (trace down) = []
  /\ displayed (trace down) = []
  /\ count is_proximity (trace down) = 0%nat
  /\ mainloop_errors down = true.
Proof. vm_compute. repeat split. Qed.

(** ** Verbose output *)

Lemma dict_get_remove_same {V : Type} (d : list (string * V)) (k : string) :
  dict_get (dict_remove d k) k = None.
Proof.
  induction d as [|[k' v'] d IH]; [reflexivity|].
  simpl. destruct (String.eqb k' k) eqn:E; [exact IH|].
  simpl. now rewrite E.
Qed.

Lemma dict_get_remove_other {V : Type} (d : list (string * V)) (k k' : string) :
  k <> k' -> dict_get (dict_remove d k) k' = dict_get d k'.
Proof.
  intros N. induction d as [|[k0 v0] d IH]; [reflexivity|].
  simpl. destruct (String.eqb_spec k0 k) as [-> | N0].
  - destruct (String.eqb_spec k k') as [E | _]; [contradiction | exact IH].
  - simpl. destruct (String.eqb k0 k'); [reflexivity | exact IH].
Qed.

(** A number equal to zero is falsy. *)
Lemma zero_is_falsy (v : num) : num_value v == 0 -> truthy v = false.
Proof.
  destruct v as [z | q]; simpl; intros E.
  - unfold Qeq in E. simpl in E.
    replace z with 0%Z by lia. reflexivity.
  - apply Qeq_bool_iff in E. now rewrite E.
Qed.

(** The segment of any measurement is the same with a falsy value under
    [k] as with no value under [k]. *)
Lemma verbose_field_remove
  (str_num : num -> string) (d : dict) (k : string) (v : num)
  (k' label unit_ : string) :
  dict_get d k = Some v -> truthy v = false ->
  Main.verbose_field str_num (dict_remove d k) k' label unit_
  = Main.verbose_field str_num d k' label unit_.
Proof.
  intros G F. unfold Main.verbose_field.
  destruct (String.eqb_spec k k') as [<- | N].
  - now rewrite dict_get_remove_same, G, F.
  - now rewrite dict_get_remove_other by exact N.
Qed.

(** C10: a reading that holds a measurement equal to 0 or 0.0 is printed
    by [verbose] exactly as the reading without that measurement: the same
    line, and the same behaviour of the sink. *)
Theorem verbose_zero_is_absent
  (env : Env) (str_num : num -> string) (d : dict) (t : string) (k : string)
  (v : num) (w : World)
  (G : dict_get d k = Some v) (Z0 : num_value v == 0) :
  Main.verbose_line str_num d t = Main.verbose_line str_num (dict_remove d k) t
  /\ Main.verbose env str_num d t w = Main.verbose env str_num (dict_remove d k) t w.
Proof.
  pose proof (zero_is_falsy v Z0) as F.
  assert (E : Main.verbose_line str_num (dict_remove d k) t
              = Main.verbose_line str_num d t).
  { unfold Main.verbose_line.
    now rewrite !(verbose_field_remove str_num d k v _ _ _ G F). }
  split; [now rewrite E|]. unfold Main.verbose. now rewrite E.
Qed.

Lemma verbose_zero_is_absent_witness :
  Main.verbose_line show_num [("temperature", Float 0.0); ("P2", Int 3)]
    "2023-03-08 12:00:00.000000"
  = Main.verbose_line show_num [("P2", Int 3)] "2023-03-08 12:00:00.000000".
Proof.
  apply (verbose_zero_is_absent healthy show_num
           [("temperature", Float 0.0); ("P2", Int 3)]
           "2023-03-08 12:00:00.000000" "temperature" (Float 0.0)
           (Main.boot [])).
  - reflexivity.
  - reflexivity.
Defined.

(** * Further properties of the code *)

(** ** Rounding error and order *)

(** Comparisons of rationals turned into their order facts. *)
Ltac compare_facts :=
  repeat match goal with
         | H : Qcompare _ _ = Eq |- _ => apply Qeq_alt in H
         | H : Qcompare _ _ = Lt |- _ => apply Qlt_alt in H
         | H : Qcompare _ _ = Gt |- _ => apply Qgt_alt in H
         end.


(** Rounding to the nearest integer keeps the order. *)
Lemma round_half_even_mono (x y : Q) :
  x <= y -> (round_half_even x <= round_half_even y)%Z.
Proof.
  intros L. pose proof (Qfloor_resp_le x y L) as F.
  destruct (Z.eq_dec (Qfloor x) (Qfloor y)) as [E | N].
  - unfold round_half_even. rewrite E.
    destruct (Qcompare (x - inject_Z (Qfloor y)) (1 # 2)) eqn:Cx;
      destruct (Qcompare (y - inject_Z (Qfloor y)) (1 # 2)) eqn:Cy;
      try (destruct (Z.even (Qfloor y))); try lia;
      compare_facts; exfalso; lra.
  - assert (S : (Qfloor x + 1 <= Qfloor y)%Z) by lia.
    assert (A : (round_half_even x <= Qfloor x + 1)%Z).
    { unfold round_half_even.
      destruct (Qcompare _ _); try destruct (Z.even _); lia. }
    assert (B : (Qfloor y <= round_half_even y)%Z).
    { unfold round_half_even.
      destruct (Qcompare _ _); try destruct (Z.even _); lia. }
    lia.
Qed.

Lemma pow10_Q_pos (n : Z) : 0 < inject_Z (pow10 n).
Proof.
  pose proof (pow10_pos n) as P. unfold Qlt. simpl. lia.
Qed.

(** The value of [round(x, n)], up to the reduction of the fraction. *)
Lemma round_float_value (x : Q) (n : Z) :
  round_float x n
  == if (0 <=? n)%Z
     then inject_Z (round_half_even (x * inject_Z (pow10 n))) / inject_Z (pow10 n)
     else inject_Z (round_half_even (x / inject_Z (pow10 n))) * inject_Z (pow10 n).
Proof.
  unfold round_float. destruct (0 <=? n)%Z; rewrite Qred_correct;
    [reflexivity | now rewrite inject_Z_mult].
Qed.


(** [round(_, n)] keeps the order. *)
Lemma round_float_mono (x y : Q) (n : Z) :
  x <= y -> round_float x n <= round_float y n.
Proof.
  intros L. rewrite !round_float_value.
  pose proof (pow10_Q_pos n) as P.
  destruct (0 <=? n)%Z.
  - apply Qmult_le_compat_r.
    + rewrite <- Zle_Qle. apply round_half_even_mono.
      apply Qmult_le_compat_r; [exact L | lra].
    + apply Qlt_le_weak, Qinv_lt_0_compat, P.
  - apply Qmult_le_compat_r; [|lra].
    rewrite <- Zle_Qle. apply round_half_even_mono.
    apply Qmult_le_compat_r; [exact L|].
    apply Qlt_le_weak, Qinv_lt_0_compat, P.
Qed.

(** ** Readings in closed form *)

(** The dictionary the block "Updating dict" builds. *)
Lemma updating_dict_value (cfg : Config) (t p h c : Q) (a b : Z) (ox re nh : Q)
  (w : World) :
  fst (Main.updating_dict cfg t p h c a b ox re nh w)
  = Ok (reading_of cfg t p h c a b ox re nh).
Proof.
  unfold Main.updating_dict, Main.calibrate_temperature, Main.calibrate_pressure,
    Main.calibrate_humidity, Main.calibrate_pm25, Main.calibrate_pm10, bind,
    reading_of, field_if.
  rewrite !store_if_round.
  destruct (MEASURE_TEMPERATURE cfg), (MEASURE_PRESSURE cfg),
    (MEASURE_HUMIDITY cfg), (MEASURE_PM25 cfg), (MEASURE_PM10 cfg),
    (MEASURE_CPU_TEMPERATURE cfg), (MEASURE_GASES cfg); reflexivity.
Qed.

(** A successful acquisition, in closed form: the head of the particulate
    queue was a frame, and the reading is built from it and the sample. *)
Lemma get_sensor_data_value (cfg : Config) (s : Sample) (w w1 : World)
  (out : dict) (t : string) :
  Main.get_sensor_data cfg s w = (Ok (out, t), w1) ->
  exists pm25 pm10 rest,
    pms_pending w = PmData pm25 pm10 :: rest
    /\ pms_pending w1 = rest
    /\ t = datetime_now s
    /\ out = reading_of cfg (sensed_temperature cfg s) (bme280_pressure s)
               (bme280_humidity s) (Main.get_cpu_temperature s) pm25 pm10
               (gas_oxidising s) (gas_reducing s) (gas_nh3 s).
Proof.
  destruct w as [pend img tr errs sc pt dt mt'].
  unfold Main.get_sensor_data, Main.compensate_temperature, Main.float_div,
    Main.bme280_get, pms5003_read, round_, sensed_temperature.
  remember (Main.updating_dict cfg) as U eqn:EU.
  destruct (COMPENSATE_TEMPERATURE cfg);
    [destruct (Qeq_bool (TEMP_COMPENSATION_FACTOR cfg) 0)|];
    (destruct pend as [|[a b|e] rest]; run; subst U;
     try match goal with
         | |- context [Main.updating_dict ?c ?t ?p ?h ?cc ?x ?y ?o ?rr ?n ?W] =>
             pose proof (updating_dict_value c t p h cc x y o rr n W) as V;
             destruct (updating_dict_run c t p h cc x y o rr n W)
               as (out' & evs & E & _);
             rewrite E in V |- *; cbn [fst] in V; inversion V; subst out'; cbn
         end);
    intros H; inversion H; subst; clear H;
    exists a, b, rest; repeat split.
Qed.

Lemma NoDup_map_fst_filter {A B : Type} (f : A * B -> bool) (l : list (A * B)) :
  NoDup (map fst l) -> NoDup (map fst (filter f l)).
Proof.
  induction l as [|x l IH]; simpl; intros N; [constructor|].
  inversion N as [|? ? NI N']; subst.
  destruct (f x); [|now apply IH].
  simpl. constructor; [|now apply IH].
  intros I. apply NI. apply in_map_iff in I as (y & E & I).
  apply filter_In in I as [I _]. apply in_map_iff. now exists y.
Qed.

(** The keys of a reading are the enabled measurements, in order. *)
Lemma reading_of_keys (cfg : Config) (t p h c : Q) (a b : Z) (ox re nh : Q) :
  map fst (reading_of cfg t p h c a b ox re nh) = enabled_keys cfg.
Proof.
  unfold reading_of, enabled_keys, measurement_flags, field_if.
  destruct (MEASURE_TEMPERATURE cfg), (MEASURE_PRESSURE cfg),
    (MEASURE_HUMIDITY cfg), (MEASURE_PM25 cfg), (MEASURE_PM10 cfg),
    (MEASURE_CPU_TEMPERATURE cfg), (MEASURE_GASES cfg); reflexivity.
Qed.

Lemma enabled_keys_NoDup (cfg : Config) : NoDup (enabled_keys cfg).
Proof.
  unfold enabled_keys. apply NoDup_map_fst_filter.
  unfold measurement_flags. cbn [map fst].
  repeat (constructor; [cbn; intuition discriminate|]). constructor.
Qed.

(** X1: a reading returned by [get_sensor_data] holds exactly the keys of
    the enabled measurements, in the fixed order temperature, pressure,
    humidity, P2, P1, cpu_temperature, oxidising, reducing, nh3, and each
    key once. *)
Theorem reading_keys_follow_configuration
  (cfg : Config) (s : Sample) (w w1 : World) (out : dict) (t : string)
  (H : Main.get_sensor_data cfg s w = (Ok (out, t), w1)) :
  map fst out = enabled_keys cfg
  /\ NoDup (map fst out)
  /\ (forall k, dict_get out k <> None <-> In k (enabled_keys cfg)).
Proof.
  apply get_sensor_data_value in H as (a & b & rest & _ & _ & _ & ->).
  rewrite reading_of_keys. split; [reflexivity|]. split; [apply enabled_keys_NoDup|].
  intros k. rewrite <- (reading_of_keys cfg (sensed_temperature cfg s)
                         (bme280_pressure s) (bme280_humidity s)
                         (Main.get_cpu_temperature s) a b (gas_oxidising s)
                         (gas_reducing s) (gas_nh3 s)).
  generalize (reading_of cfg (sensed_temperature cfg s) (bme280_pressure s)
                (bme280_humidity s) (Main.get_cpu_temperature s) a b
                (gas_oxidising s) (gas_reducing s) (gas_nh3 s)).
  intros d. induction d as [|[k' v] d IH]; simpl.
  - split; [intros N; now apply N | intros []].
  - destruct (String.eqb_spec k' k) as [-> | N].
    + split; [now left | discriminate].
    + rewrite IH. split; [now right | intros [E | I]; [contradiction | exact I]].
Qed.

Lemma reading_keys_follow_configuration_witness :
  map fst
    [("temperature", Float (589 # 50)); ("pressure", Float (4053 # 4));
     ("humidity", Float (81 # 2)); ("P2", Int 3); ("P1", Int 5);
     ("oxidising", Float (617 # 50)); ("reducing", Float 400);
     ("nh3", Float 100)]
  = enabled_keys default_config.
Proof.
  apply (reading_keys_follow_configuration default_config (sample_at 0 0)
           (Main.boot [PmData 3 5])
           (snd (Main.get_sensor_data default_config (sample_at 0 0)
                   (Main.boot [PmData 3 5])))
           _ "2023-03-08 12:00:00.000000").
  vm_compute. reflexivity.
Defined.




(** X3: the outcomes of [get_sensor_data].  With compensation on and a
    zero factor it raises [ZeroDivisionError] before the particulate
    sensor is touched.  Otherwise it reads the particulate sensor exactly
    once and returns a reading, or raises what that read raises.  In
    every case the BME280 was read three times and the particulate sensor
    is not reset. *)
Theorem get_sensor_data_outcomes (cfg : Config) (s : Sample) (w : World) :
  let run := Main.get_sensor_data cfg s w in
  let no_factor :=
    COMPENSATE_TEMPERATURE cfg && Qeq_bool (TEMP_COMPENSATION_FACTOR cfg) 0 in
  (no_factor = true ->
   fst run = Raise ZeroDivisionError
   /\ pms_pending (snd run) = pms_pending w
   /\ count is_pms_read (trace (snd run)) = count is_pms_read (trace w))
  /\ (no_factor = false ->
      pms_pending (snd run) = tl (pms_pending w)
      /\ count is_pms_read (trace (snd run)) = S (count is_pms_read (trace w))
      /\ match pms_pending w with
         | [] => fst run = Raise ReadTimeoutError
         | PmFail e :: _ => fst run = Raise e
         | PmData pm25 pm10 :: _ => exists out, fst run = Ok (out, datetime_now s)
         end)
  /\ count is_bme280 (trace (snd run)) = (count is_bme280 (trace w) + 3)%nat
  /\ count is_pms_reset (trace (snd run)) = count is_pms_reset (trace w).
Proof.
  destruct w as [pend img tr errs sc pt dt mt'].
  unfold Main.get_sensor_data, Main.compensate_temperature, Main.float_div,
    Main.bme280_get, pms5003_read, round_.
  remember (Main.updating_dict cfg) as U eqn:EU.
  destruct (COMPENSATE_TEMPERATURE cfg);
    [destruct (Qeq_bool (TEMP_COMPENSATION_FACTOR cfg) 0)|];
    (destruct pend as [|[a b|e] rest]; run; subst U;
     try match goal with
         | |- context [Main.updating_dict ?c ?t ?p ?h ?cc ?x ?y ?o ?rr ?n ?W] =>
             destruct (updating_dict_run c t p h cc x y o rr n W)
               as (out' & evs & E & _ & _ & IR); rewrite E;
             destruct (round_events_acquiring _ IR) as (IA & PR & PS);
             destruct (acquiring_events _ IA) as (B & _);
             cbn [fst snd]
         end);
    (split; [intros D; try discriminate D | split; [intros D; try discriminate D|]]);
    cbn [trace set_trace set_pms_pending pms_pending tl fst snd];
    unfold count in *; rewrite ?filter_app, ?length_app, ?PR, ?PS, ?B;
    cbn [filter List.length is_pms_read is_pms_reset is_bme280 app];
    repeat split; try lia; try (eexists; reflexivity).
Qed.

(** ** Strings *)

Lemma string_app_assoc (a b c : string) : (a ++ b) ++ c = a ++ (b ++ c).
Proof. induction a as [|x a IH]; simpl; [reflexivity | now rewrite IH]. Qed.

Lemma string_app_nil_r (a : string) : a ++ "" = a.
Proof. induction a as [|x a IH]; simpl; [reflexivity | now rewrite IH]. Qed.

Lemma string_length_app (a b : string) :
  String.length (a ++ b) = (String.length a + String.length b)%nat.
Proof. induction a as [|x a IH]; simpl; [reflexivity | now rewrite IH]. Qed.

Lemma substring_prefix (a b : string) (n : nat) :
  substring 0 (String.length a + n) (a ++ b) = a ++ substring 0 n b.
Proof. induction a as [|x a IH]; simpl; [reflexivity | now rewrite IH]. Qed.

Lemma substring_whole (a : string) : substring 0 (String.length a) a = a.
Proof. induction a as [|x a IH]; simpl; [reflexivity | now rewrite IH]. Qed.

(** Dropping the last character of [a ++ b] drops it from [b], when [b]
    has one. *)
Lemma drop_last_app (a b : string) :
  b <> "" -> drop_last 1 (a ++ b) = a ++ drop_last 1 b.
Proof.
  intros N. unfold drop_last. rewrite string_length_app.
  destruct b as [|c b]; [contradiction|]. simpl String.length.
  replace (String.length a + S (String.length b) - 1)%nat
    with (String.length a + (S (String.length b) - 1))%nat by lia.
  apply substring_prefix.
Qed.

Lemma drop_last_comma (a : string) : drop_last 1 (a ++ ",") = a.
Proof.
  rewrite drop_last_app by discriminate. unfold drop_last. simpl.
  apply string_app_nil_r.
Qed.

(** Each item followed by a comma, one after the other. *)
Lemma fold_left_commas (l : list string) (acc : string) :
  fold_left (fun acc c => acc ++ (c ++ ",")) l acc
  = acc ++ String.concat "" (map (fun c => c ++ ",") l).
Proof.
  revert acc. induction l as [|x l IH]; intros acc; simpl.
  - now rewrite string_app_nil_r.
  - rewrite IH, string_app_assoc. f_equal.
    destruct l as [|y l]; simpl; [now rewrite string_app_nil_r | reflexivity].
Qed.

Lemma concat_commas_cons (x : string) (l : list string) :
  String.concat "" (map (fun c => c ++ ",") (x :: l))
  = x ++ "," ++ String.concat "" (map (fun c => c ++ ",") l).
Proof.
  destruct l as [|y l]; simpl; rewrite ?string_app_assoc; reflexivity.
Qed.

(** Without its last comma, that is the items joined by commas. *)
Lemma drop_last_commas (l : list string) :
  l <> [] ->
  drop_last 1 (String.concat "" (map (fun c => c ++ ",") l)) = String.concat "," l.
Proof.
  induction l as [|x l IH]; [contradiction|]. intros _.
  rewrite concat_commas_cons.
  destruct l as [|y l].
  - simpl. rewrite <- (drop_last_comma x) at 2. reflexivity.
  - rewrite <- string_app_assoc, drop_last_app.
    + rewrite IH by discriminate. rewrite string_app_assoc. reflexivity.
    + simpl. destruct l; destruct y; discriminate.
Qed.

(** ** Local table *)

Lemma replace_char_get (a b : ascii) (s : string) (i : nat) :
  String.get i (Storage.replace_char a b s)
  = option_map (fun c => if Ascii.eqb c a then b else c) (String.get i s).
Proof.
  revert i. induction s as [|c s IH]; intros i; [reflexivity|].
  destruct i as [|i]; simpl; [reflexivity | apply IH].
Qed.

Lemma replace_char_length (a b : ascii) (s : string) :
  String.length (Storage.replace_char a b s) = String.length s.
Proof. induction s as [|c s IH]; simpl; [reflexivity | now rewrite IH]. Qed.

Lemma sanitise_char (c : ascii) :
  (let c1 := if Ascii.eqb c " " then "_" else c in
   let c2 := if Ascii.eqb c1 "-" then "_" else c1 in
   let c3 := if Ascii.eqb c2 ":" then "_" else c2 in
   if Ascii.eqb c3 "." then "_" else c3)%char
  = (if unsafe_in_name c then "_" else c)%char.
Proof.
  unfold unsafe_in_name. cbn zeta.
  destruct (Ascii.eqb_spec c " ") as [-> | N1]; [reflexivity|].
  destruct (Ascii.eqb_spec c "-") as [-> | N2]; [reflexivity|].
  destruct (Ascii.eqb_spec c ":") as [-> | N3]; [reflexivity|].
  destruct (Ascii.eqb_spec c ".") as [-> | N4]; reflexivity.
Qed.

(** X4: the table name is ["data_"] followed by the time stamp, of the
    same length, in which every space, dash, colon and dot has become an
    underscore and every other character is kept; none of the four
    characters is left in it. *)
Theorem table_name_is_sanitised (current_time : string) :
  let name := Storage.make_table_name current_time in
  String.length name = (5 + String.length current_time)%nat
  /\ (forall i,
        String.get i name
        = option_map (fun c => if unsafe_in_name c then "_"%char else c)
            (String.get i ("data_" ++ current_time)))
  /\ (forall i c, String.get i name = Some c -> unsafe_in_name c = false).
Proof.
  intros name.
  assert (G : forall i,
             String.get i name
             = option_map (fun c => if unsafe_in_name c then "_"%char else c)
                 (String.get i ("data_" ++ current_time))).
  { intros i. unfold name, Storage.make_table_name.
    rewrite !replace_char_get.
    destruct (String.get i ("data_" ++ current_time)) as [c|]; [|reflexivity].
    cbn [option_map]. f_equal. apply sanitise_char. }
  split; [|split; [exact G|]].
  - unfold name, Storage.make_table_name. now rewrite !replace_char_length.
  - intros i c E. rewrite G in E.
    destruct (String.get i ("data_" ++ current_time)) as [c0|]; [|discriminate].
    cbn [option_map] in E. inversion E; subst c. clear E.
    destruct (unsafe_in_name c0) eqn:U; [reflexivity | exact U].
Qed.

Lemma concat_commas_app (l1 l2 : list string) :
  String.concat "" (map (fun c => c ++ ",") (l1 ++ l2))
  = String.concat "" (map (fun c => c ++ ",") l1)
    ++ String.concat "" (map (fun c => c ++ ",") l2).
Proof.
  induction l1 as [|x l1 IH]; [reflexivity|].
  rewrite <- app_comm_cons, !concat_commas_cons, IH, !string_app_assoc.
  reflexivity.
Qed.

(** The loop over the blocks closes the command at the last block,
    whether that block is enabled or not. *)
Lemma create_loop_closed (blocks : list (list string * bool)) (i : nat)
  (command : string) :
  blocks <> [] ->
  Storage.create_loop blocks i (i + List.length blocks - 1) command
  = drop_last 1 (command
                 ++ String.concat "" (map (fun c => c ++ ",") (block_columns blocks)))
    ++ ")".
Proof.
  revert i command. induction blocks as [|[commands mode] rest IH];
    intros i command N; [contradiction|].
  cbn [Storage.create_loop].
  assert (C : (if mode
               then fold_left (fun acc c => acc ++ (c ++ ",")) commands command
               else command)
              = command ++ String.concat "" (map (fun c => c ++ ",")
                                               (if mode then commands else []))).
  { destruct mode; [apply fold_left_commas | now rewrite string_app_nil_r]. }
  rewrite C. clear C.
  destruct rest as [|b rest].
  - replace (i + List.length [(commands, mode)] - 1)%nat with i by (simpl; lia).
    rewrite Nat.eqb_refl. cbn [Storage.create_loop block_columns flat_map fst snd].
    now rewrite app_nil_r.
  - assert (E : Nat.eqb i (i + List.length ((commands, mode) :: b :: rest) - 1) = false).
    { apply Nat.eqb_neq. simpl. lia. }
    rewrite E.
    replace (i + List.length ((commands, mode) :: b :: rest) - 1)%nat
      with (S i + List.length (b :: rest) - 1)%nat by (simpl; lia).
    rewrite IH by discriminate.
    change (block_columns ((commands, mode) :: b :: rest))
      with ((if mode then commands else []) ++ block_columns (b :: rest))%list.
    now rewrite concat_commas_app, string_app_assoc.
Qed.

Lemma sql_code_blocks_columns (cfg : Config) (api : bool) :
  block_columns (Storage.sql_code_blocks cfg api)
  = (map (fun c => fst (fst c)) (enabled_schema cfg)
     ++ if api then weather_columns else [])%list.
Proof.
  unfold block_columns, Storage.sql_code_blocks, enabled_schema, schema,
    weather_columns.
  destruct (MEASURE_TEMPERATURE cfg), (MEASURE_PRESSURE cfg),
    (MEASURE_HUMIDITY cfg), (MEASURE_PM25 cfg), (MEASURE_PM10 cfg),
    (MEASURE_CPU_TEMPERATURE cfg), (MEASURE_GASES cfg), api; reflexivity.
Qed.

(** A command that ends in a comma-terminated list, closed the way
    [init_local_db] and [send_to_local_db] close it. *)
Lemma close_comma_list (pre : string) (l : list string) :
  l <> [] ->
  drop_last 1 (pre ++ String.concat "" (map (fun c => c ++ ",") l)) ++ ")"
  = pre ++ String.concat "," l ++ ")".
Proof.
  intros N. rewrite drop_last_app.
  - rewrite drop_last_commas by exact N. now rewrite string_app_assoc.
  - destruct l as [|x l]; [contradiction|].
    rewrite concat_commas_cons. destruct x; discriminate.
Qed.

(** The statement [send_to_local_db] executes, as a joined list. *)
Lemma insert_command_joined
  (cfg : Config) (env : Env) (str_num : num -> string) (data : dict)
  (measurement_time : string) :
  Main.insert_command cfg env str_num data measurement_time
  = "INSERT INTO " ++ table_name env ++ " VALUES ("
    ++ String.concat ","
         (("'" ++ measurement_time ++ "'")
          :: map (fun c => Main.str_opt str_num (dict_get data (snd (fst c))))
               (enabled_schema cfg))
    ++ ")".
Proof.
  transitivity
    (("INSERT INTO " ++ table_name env ++ " VALUES (")
     ++ String.concat ","
          (("'" ++ measurement_time ++ "'")
           :: map (fun c => Main.str_opt str_num (dict_get data (snd (fst c))))
                (enabled_schema cfg))
     ++ ")");
    [|now rewrite !string_app_assoc].
  rewrite <- close_comma_list by discriminate.
  unfold Main.insert_command. f_equal. f_equal.
  unfold enabled_schema, schema.
  destruct (MEASURE_TEMPERATURE cfg), (MEASURE_PRESSURE cfg),
    (MEASURE_HUMIDITY cfg), (MEASURE_PM25 cfg), (MEASURE_PM10 cfg),
    (MEASURE_CPU_TEMPERATURE cfg), (MEASURE_GASES cfg);
    cbn [filter map fst snd];
    rewrite ?concat_commas_cons; cbn [String.concat map];
    rewrite ?string_app_assoc, ?string_app_nil_r; cbn [append];
    rewrite ?string_app_nil_r; reflexivity.
Qed.

(** The statement [init_local_db] executes, as a joined list. *)
Lemma create_command_joined
  (cfg : Config) (api : bool) (current_time : string) :
  Storage.create_command cfg api current_time
  = "CREATE TABLE " ++ Storage.make_table_name current_time ++ " ("
    ++ String.concat ","
         ("time TEXT"
          :: (map (fun c => fst (fst c)) (enabled_schema cfg)
              ++ if api then weather_columns else [])%list)
    ++ ")".
Proof.
  unfold Storage.create_command.
  change (List.length (Storage.sql_code_blocks cfg api) - 1)%nat
    with (0 + List.length (Storage.sql_code_blocks cfg api) - 1)%nat.
  rewrite create_loop_closed by discriminate.
  rewrite sql_code_blocks_columns.
  set (columns := (map (fun c => fst (fst c)) (enabled_schema cfg)
                   ++ if api then weather_columns else [])%list).
  assert (E : ("CREATE TABLE " ++ Storage.make_table_name current_time
               ++ " (time TEXT,")
              ++ String.concat "" (map (fun c => c ++ ",") columns)
              = ("CREATE TABLE " ++ Storage.make_table_name current_time ++ " (")
                ++ String.concat "" (map (fun c => c ++ ",")
                                       ("time TEXT" :: columns))).
  { rewrite concat_commas_cons, !string_app_assoc. reflexivity. }
  rewrite E, close_comma_list by discriminate.
  now rewrite !string_app_assoc.
Qed.

(** X5: the table [init_local_db] creates and the rows [send_to_local_db]
    inserts are built from the same columns in the same order: after the
    time, one declaration and one value for each enabled measurement, the
    value being that of the reading's key or [None].  With
    [ENABLE_OPEN_WEATHER_API] the table has five more columns than a row
    has values. *)
Theorem local_table_and_rows_agree
  (cfg : Config) (env : Env) (str_num : num -> string) (api : bool)
  (current_time : string) (data : dict) (measurement_time : string) :
  let declarations := map (fun c => fst (fst c)) (enabled_schema cfg) in
  let values :=
    map (fun c => Main.str_opt str_num (dict_get data (snd (fst c))))
      (enabled_schema cfg) in
  Storage.create_command cfg api current_time
  = "CREATE TABLE " ++ Storage.make_table_name current_time ++ " ("
    ++ String.concat ","
         ("time TEXT" :: (declarations ++ if api then weather_columns else [])%list)
    ++ ")"
  /\ Main.insert_command cfg env str_num data measurement_time
     = "INSERT INTO " ++ table_name env ++ " VALUES ("
       ++ String.concat "," (("'" ++ measurement_time ++ "'") :: values) ++ ")"
  /\ List.length values = List.length declarations
  /\ List.length (declarations ++ if api then weather_columns else [])%list
     = (List.length values + if api then 5 else 0)%nat.
Proof.
  intros declarations values.
  split; [apply create_command_joined|].
  split; [apply insert_command_joined|].
  unfold values, declarations. rewrite length_app, !length_map.
  split; [reflexivity|]. destruct api; reflexivity.
Qed.

Ltac case_flags cfg :=
  destruct (MEASURE_TEMPERATURE cfg), (MEASURE_PRESSURE cfg),
    (MEASURE_HUMIDITY cfg), (MEASURE_PM25 cfg), (MEASURE_PM10 cfg),
    (MEASURE_CPU_TEMPERATURE cfg), (MEASURE_GASES cfg).

(** Every column that is enabled finds its key in the reading. *)
Lemma reading_of_columns (cfg : Config) (t p h c : Q) (a b : Z) (ox re nh : Q) :
  map (fun col => dict_get (reading_of cfg t p h c a b ox re nh) (snd (fst col)))
    (enabled_schema cfg)
  = map (fun col => Some (Main.dict_get_default
                            (reading_of cfg t p h c a b ox re nh) (snd (fst col))))
      (enabled_schema cfg).
Proof.
  unfold reading_of, enabled_schema, schema, field_if, Main.dict_get_default.
  case_flags cfg; reflexivity.
Qed.

(** X6: the row stored for a reading that [get_sensor_data] returned holds
    the reading's own values, one for each enabled column and none missing,
    all of them rounded, after the time of the acquisition. *)
Theorem stored_row_holds_the_reading
  (cfg : Config) (env : Env) (str_num : num -> string) (s : Sample)
  (w w1 : World) (out : dict) (t : string)
  (H : Main.get_sensor_data cfg s w = (Ok (out, t), w1)) :
  exists row : list num,
    map Some row = map (fun c => dict_get out (snd (fst c))) (enabled_schema cfg)
    /\ Forall (fun v => py_round v (ROUND_DATA_TO_DP cfg) = v) row
    /\ Main.insert_command cfg env str_num out t
       = "INSERT INTO " ++ table_name env ++ " VALUES ("
         ++ String.concat "," (("'" ++ datetime_now s ++ "'") :: map str_num row)
         ++ ")".
Proof.
  pose proof H as H'.
  apply get_sensor_data_effect in H' as (_ & _ & _ & _ & _ & _ & _ & AR & _).
  apply get_sensor_data_value in H as (a & b & rest & _ & _ & -> & E).
  exists (map (fun c => Main.dict_get_default out (snd (fst c))) (enabled_schema cfg)).
  assert (C : map (fun c => dict_get out (snd (fst c))) (enabled_schema cfg)
              = map (fun c => Some (Main.dict_get_default out (snd (fst c))))
                  (enabled_schema cfg)).
  { rewrite E. apply reading_of_columns. }
  split; [|split].
  - rewrite map_map. symmetry. exact C.
  - apply Forall_forall. intros v I. apply in_map_iff in I as (c & <- & I).
    assert (G : dict_get out (snd (fst c))
                = Some (Main.dict_get_default out (snd (fst c)))).
    { clear - C I. induction (enabled_schema cfg) as [|x l IH]; [destruct I|].
      simpl in C. inversion C as [[C1 C2]].
      destruct I as [-> | I]; [exact C1 | now apply IH]. }
    exact (all_rounded_get _ _ _ _ AR G).
  - rewrite insert_command_joined.
    assert (M : map (fun c => Main.str_opt str_num (dict_get out (snd (fst c))))
                  (enabled_schema cfg)
                = map str_num
                    (map (fun c => Main.dict_get_default out (snd (fst c)))
                       (enabled_schema cfg))).
    { rewrite <- (map_map (fun c => dict_get out (snd (fst c)))
                    (Main.str_opt str_num)), C, !map_map.
      reflexivity. }
    now rewrite M.
Qed.

Lemma stored_row_holds_the_reading_witness :
  exists row : list num,
    List.length row = 8%nat
    /\ Forall (fun v => py_round v 2 = v) row.
Proof.
  destruct (stored_row_holds_the_reading default_config healthy show_num
              (sample_at 0 0) (Main.boot [PmData 3 5])
              (snd (Main.get_sensor_data default_config (sample_at 0 0)
                      (Main.boot [PmData 3 5])))
              [("temperature", Float (589 # 50)); ("pressure", Float (4053 # 4));
               ("humidity", Float (81 # 2)); ("P2", Int 3); ("P1", Int 5);
               ("oxidising", Float (617 # 50)); ("reducing", Float 400);
               ("nh3", Float 100)]
              "2023-03-08 12:00:00.000000")
    as (row & M & R & _).
  - vm_compute. reflexivity.
  - exists row. split; [|exact R].
    apply (f_equal (@List.length (option num))) in M.
    rewrite !length_map in M. exact M.
Defined.

(** ** Calibration and compensation *)


(** X8: with a positive factor the compensation moves the temperature away
    from the CPU's: a CPU hotter than the sensor lowers the reading, a
    cooler one raises it, and equal temperatures leave the rounded sensor
    value. *)
Theorem compensation_follows_the_cpu
  (cfg : Config) (t_raw t_cpu f : Q) (w : World) (F : 0 < f) :
  exists r,
    fst (Main.compensate_temperature cfg t_raw t_cpu f w) = Ok r
    /\ (t_raw <= t_cpu -> r <= round_float t_raw (ROUND_DATA_TO_DP cfg))
    /\ (t_cpu <= t_raw -> round_float t_raw (ROUND_DATA_TO_DP cfg) <= r)
    /\ (t_cpu == t_raw -> r = round_float t_raw (ROUND_DATA_TO_DP cfg)).
Proof.
  exists (round_float (t_raw - (t_cpu - t_raw) / f) (ROUND_DATA_TO_DP cfg)).
  split.
  { rewrite compensate_temperature_run; [reflexivity|]. intros E. rewrite E in F.
    exact (Qlt_irrefl _ F). }
  assert (P : 0 < / f) by now apply Qinv_lt_0_compat.
  split; [|split].
  - intros L. apply round_float_mono.
    assert (0 <= (t_cpu - t_raw) / f).
    { apply Qmult_le_0_compat; [lra | now apply Qlt_le_weak]. }
    lra.
  - intros L. apply round_float_mono.
    assert ((t_cpu - t_raw) / f <= 0).
    { unfold Qdiv. setoid_replace 0 with (0 * / f) by ring.
      apply Qmult_le_compat_r; [lra | now apply Qlt_le_weak]. }
    lra.
  - intros E. unfold round_float.
    assert (X : t_raw - (t_cpu - t_raw) / f == t_raw).
    { rewrite E. field. intros Z0. rewrite Z0 in F. exact (Qlt_irrefl _ F). }
    destruct (0 <=? ROUND_DATA_TO_DP cfg)%Z; apply Qred_complete.
    + now rewrite (round_half_even_comp _ _
                     (Qmult_comp _ _ X _ _ (Qeq_refl _))).
    + assert (Y : (t_raw - (t_cpu - t_raw) / f)
                  / inject_Z (pow10 (ROUND_DATA_TO_DP cfg))
                  == t_raw / inject_Z (pow10 (ROUND_DATA_TO_DP cfg)))
        by now rewrite X.
      now rewrite (round_half_even_comp _ _ Y).
Qed.

Lemma compensation_follows_the_cpu_witness :
  exists r,
    fst (Main.compensate_temperature default_config 22 45 2.25 (Main.boot []))
    = Ok r
    /\ r <= round_float 22 2.
Proof.
  destruct (compensation_follows_the_cpu default_config 22 45 2.25 (Main.boot []))
    as (r & E & L & _).
  - reflexivity.
  - exists r. split; [exact E|]. apply L. discriminate.
Defined.

(** ** Remote push: the result of [send_to_luftdaten] *)

(** X9: with both particulate measurements enabled and present,
    [send_to_luftdaten] of main.py returns 0 or -1 and never raises on a
    failed request; it returns 0 exactly when the particulate submission got
    an [ok] response and the climate submission was not made, got no
    response, or got an [ok] response; at most two requests are posted. *)
Theorem send_to_luftdaten_result
  (cfg : Config) (env : Env) (data : dict) (serial : string) (w : World)
  (p1 p2 : num)
  (F : MEASURE_PM25 cfg && MEASURE_PM10 cfg = true)
  (H1 : dict_get data "P1" = Some p1) (H2 : dict_get data "P2" = Some p2) :
  let run := Main.send_to_luftdaten cfg env data serial w in
  let pm := http_server env (pm_request serial p1 p2) in
  let climate := http_server env (climate_request serial data) in
  (fst run = Ok 0%Z \/ fst run = Ok (-1)%Z)
  /\ (fst run = Ok 0%Z <->
      response_ok pm = true
      /\ (climate_items data = [] \/ no_response climate = true
          \/ response_ok climate = true))
  /\ (List.length (posts (trace (snd run)))
      <= List.length (posts (trace w)) + 2)%nat.
Proof.
  intros run pm climate.
  pose proof (send_to_luftdaten_outcome cfg env data serial w p1 p2 F H1 H2) as O.
  pose proof (send_to_luftdaten_posts cfg env data serial w p1 p2 F H1 H2) as P.
  fold run in O. cbn zeta in P. fold run in P. fold pm climate in O.
  split; [|split].
  - rewrite O. match goal with |- context [if ?b then _ else _] => destruct b end; [left | right]; reflexivity.
  - rewrite O.
    destruct (response_ok pm), (climate_items data) as [|c cs],
      (no_response climate), (response_ok climate); cbn;
      intuition congruence.
  - rewrite P, length_app. destruct (climate_items data); simpl; lia.
Qed.

Lemma send_to_luftdaten_result_witness :
  fst (Main.send_to_luftdaten default_config healthy full_reading "raspi-0001"
         (Main.boot []))
  = Ok 0%Z.
Proof.
  destruct (send_to_luftdaten_result default_config healthy full_reading
              "raspi-0001" (Main.boot []) (Int 5) (Int 3) eq_refl eq_refl eq_refl)
    as (_ & R & _).
  apply R. split; [reflexivity | right; right; reflexivity].
Defined.

(** ** The main loop over many passes *)

(** What one pass does besides what [mainloop_pass_summary] tells. *)
Lemma mainloop_pass_effects
  (cfg : Config) (env : Env) (str_num : num -> string) (s : Sample) (w : World) :
  let fires := Qle_bool (Main.update_delay cfg) (time_time s - previous_time w) in
  let pass := Main.mainloop_pass cfg env str_num s w in
  let acquired :=
    Main.get_sensor_data cfg s (set_previous_time (time_time s) w) in
  posts (trace pass) = posts (trace w)
  /\ count is_pms_reset (trace pass) = count is_pms_reset (trace w)
  /\ (exists lines rows,
        printed (trace pass) = (printed (trace w) ++ lines)%list
        /\ sql_commands (trace pass) = (sql_commands (trace w) ++ rows)%list
        /\ (List.length lines <= if fires && VERBOSE cfg then 1 else 0)%nat
        /\ (List.length rows <= if fires && SAVE_DATA_LOCALLY cfg then 1 else 0)%nat
        /\ Forall (fun r => exists out t,
                             r = Main.insert_command cfg env str_num out t) rows)
  /\ (if fires
      then match fst acquired with
           | Ok (out, t) => data pass = out /\ measurement_time pass = t
           | Raise _ =>
               data pass = data w /\ measurement_time pass = measurement_time w
               /\ printed (trace pass) = printed (trace w)
               /\ sql_commands (trace pass) = sql_commands (trace w)
           end
      else data pass = data w /\ measurement_time pass = measurement_time w
           /\ pms_pending pass = pms_pending w
           /\ count is_pms_read (trace pass) = count is_pms_read (trace w)).
Proof.
  intros fires pass acquired.
  unfold pass, acquired, Main.mainloop_pass.
  rewrite mainloop_body_cases. fold fires.
  destruct fires.
  - destruct (Main.get_sensor_data cfg s (set_previous_time (time_time s) w))
      as [r w1] eqn:G.
    apply get_sensor_data_effect in G as (evs & p & -> & ACQ & RS & _).
    destruct (acquiring_events _ ACQ) as (_ & _ & Po & Sq & Pr & _).
    destruct r as [[out t] | e].
    + rewrite data_storage_transfer_run.
      destruct (VERBOSE cfg), (console_fault env), (SAVE_DATA_LOCALLY cfg),
        (db_fault env); cbn [fst snd andb];
        try match goal with
            | |- context [(Main.user_input s ;; Main.display_updates env str_num ?q ;;
                           Main.time_sleep ?d) ?W] =>
                destruct (refresh_run env str_num s q d W) as [txt E]; rewrite E;
                destruct (Qle_bool 0 d)
            end;
        cbv [logging emit modify fst snd]; split_trace;
        rewrite ?Po, ?Sq, ?Pr, ?RS; eval_trace;
        rewrite <- ?app_assoc; cbn [app];
        (split; [now rewrite ?app_nil_r|]); (split; [lia|]);
        (split; [|split; reflexivity]);
        eexists; eexists; (split; [reflexivity|]); (split; [reflexivity|]);
        cbn [List.length]; (split; [lia|]); (split; [lia|]);
        first [ apply Forall_nil
              | apply Forall_cons;
                [eexists; eexists; reflexivity | apply Forall_nil] ].
    + cbv [logging emit modify fst snd]; split_trace;
        rewrite ?Po, ?Sq, ?Pr, ?RS; eval_trace;
        rewrite <- ?app_assoc; cbn [app].
      split; [now rewrite ?app_nil_r|]. split; [lia|].
      split; [|repeat split; now rewrite ?app_nil_r].
      exists [], []. cbn [List.length].
      repeat split; try apply Forall_nil;
        destruct (VERBOSE cfg), (SAVE_DATA_LOCALLY cfg); cbn; lia.
  - destruct (refresh_run env str_num s
                ((time_time s - previous_time w) / Main.update_delay cfg)
                (Main.update_delay cfg * 0.05) w)
      as [txt E].
    rewrite E. destruct (Qle_bool 0 (Main.update_delay cfg * 0.05));
      cbv [logging emit modify fst snd]; split_trace; eval_trace;
      (split; [now rewrite ?app_nil_r|]); (split; [lia|]);
      (split; [|repeat split; lia]);
      exists [], []; cbn [List.length]; rewrite ?app_nil_r;
      repeat split; try apply Forall_nil; lia.
Qed.

Lemma main_passes_cons
  (cfg : Config) (env : Env) (str_num : num -> string) (s : Sample)
  (ss : list Sample) (w : World) :
  Main.mainloop_passes cfg env str_num (s :: ss) w
  = Main.mainloop_passes cfg env str_num ss (Main.mainloop_pass cfg env str_num s w).
Proof. reflexivity. Qed.

(** X10: the main loop of main.py never calls [send_to_luftdaten] and never
    resets the particulate sensor: however many passes are made and whatever
    happens in them, no request is posted and no reset is issued. *)
Theorem mainloop_never_pushes_or_resets
  (cfg : Config) (env : Env) (str_num : num -> string) (samples : list Sample)
  (w : World) :
  let w' := Main.mainloop_passes cfg env str_num samples w in
  posts (trace w') = posts (trace w)
  /\ count is_pms_reset (trace w') = count is_pms_reset (trace w).
Proof.
  revert w. induction samples as [|s ss IH]; intros w; [now split|].
  cbn zeta. rewrite main_passes_cons.
  destruct (IH (Main.mainloop_pass cfg env str_num s w)) as [P R].
  destruct (mainloop_pass_effects cfg env str_num s w) as (P' & R' & _).
  split; congruence.
Qed.

(** X11: [mainloop_errors] is set by a pass that fails and is never cleared:
    once it is set it stays set, and every frame displayed from then on has
    the red status background. *)
Theorem error_flag_is_never_cleared
  (cfg : Config) (env : Env) (str_num : num -> string) (s : Sample)
  (samples : list Sample) (w : World) :
  mainloop_errors (Main.mainloop_pass cfg env str_num s w)
  = mainloop_errors w || negb (body_completes cfg env str_num s w)
  /\ (mainloop_errors w = true ->
      mainloop_errors (Main.mainloop_passes cfg env str_num samples w) = true)
  /\ (forall f,
        In f (displayed (trace (Main.mainloop_passes cfg env str_num samples w))) ->
        mainloop_errors w = true ->
        In f (displayed (trace w)) \/ bg_red f = true).
Proof.
  split; [|split].
  - destruct (mainloop_pass_summary cfg env str_num s w)
      as (_ & _ & _ & _ & E & _).
    rewrite E. destruct (body_completes cfg env str_num s w), (mainloop_errors w);
      reflexivity.
  - revert w. induction samples as [|s' ss IH]; intros w T; [exact T|].
    rewrite main_passes_cons. apply IH.
    destruct (mainloop_pass_summary cfg env str_num s' w)
      as (_ & _ & _ & _ & E & _).
    rewrite E, T. now destruct (body_completes cfg env str_num s' w).
  - revert w. induction samples as [|s' ss IH]; intros w f I T; [now left|].
    rewrite main_passes_cons in I.
    destruct (mainloop_pass_summary cfg env str_num s' w)
      as (_ & _ & _ & _ & E & D & _).
    assert (T' : mainloop_errors (Main.mainloop_pass cfg env str_num s' w) = true).
    { rewrite E, T. now destruct (body_completes cfg env str_num s' w). }
    destruct (IH _ f I T') as [I' | R]; [|now right].
    destruct (sampling_completes cfg env str_num s' w).
    + destruct D as (f' & D & _ & _ & B). rewrite D in I'.
      apply in_app_or in I' as [I' | [<- | []]]; [now left | right; congruence].
    + rewrite D in I'. now left.
Qed.

(** X12: without [VERBOSE] the loop prints nothing, and without
    [SAVE_DATA_LOCALLY] it executes no statement, over any number of
    passes. *)
Theorem disabled_sinks_stay_silent
  (cfg : Config) (env : Env) (str_num : num -> string) (samples : list Sample)
  (w : World) :
  let w' := Main.mainloop_passes cfg env str_num samples w in
  (VERBOSE cfg = false -> printed (trace w') = printed (trace w))
  /\ (SAVE_DATA_LOCALLY cfg = false ->
      sql_commands (trace w') = sql_commands (trace w)).
Proof.
  cbn zeta. split; intros F; revert w;
    induction samples as [|s ss IH]; intros w; try reflexivity;
    rewrite main_passes_cons, IH;
    destruct (mainloop_pass_effects cfg env str_num s w)
      as (_ & _ & (lines & rows & P & S & LL & LR & _) & _);
    rewrite F, andb_false_r in *.
  - rewrite P. destruct lines; [apply app_nil_r | simpl in LL; lia].
  - rewrite S. destruct rows; [apply app_nil_r | simpl in LR; lia].
Qed.

(** X13: rows and printed blocks only come from acquisitions: over any
    passes, the rows inserted and the blocks printed are each at most the
    number of acquisitions made (three BME280 reads each), and no statement
    is ever taken back. *)
Theorem rows_never_exceed_samples
  (cfg : Config) (env : Env) (str_num : num -> string) (samples : list Sample)
  (w : World) :
  let w' := Main.mainloop_passes cfg env str_num samples w in
  (3 * List.length (sql_commands (trace w')) + count is_bme280 (trace w)
   <= 3 * List.length (sql_commands (trace w)) + count is_bme280 (trace w'))%nat
  /\ (3 * List.length (printed (trace w')) + count is_bme280 (trace w)
      <= 3 * List.length (printed (trace w)) + count is_bme280 (trace w'))%nat
  /\ (List.length (sql_commands (trace w)) <= List.length (sql_commands (trace w')))%nat.
Proof.
  revert w. induction samples as [|s ss IH]; intros w; [cbn; lia|].
  cbn zeta. rewrite main_passes_cons.
  destruct (IH (Main.mainloop_pass cfg env str_num s w)) as (A & B & C).
  destruct (mainloop_pass_effects cfg env str_num s w)
    as (_ & _ & (lines & rows & P & S & LL & LR & _) & _).
  destruct (mainloop_pass_summary cfg env str_num s w) as (_ & Bm & _).
  rewrite P, S, Bm in *. rewrite !length_app in *.
  destruct (Qle_bool (Main.update_delay cfg) (time_time s - previous_time w));
    cbn [andb] in LL, LR;
    destruct (VERBOSE cfg), (SAVE_DATA_LOCALLY cfg); lia.
Qed.

(** A pass on which no sample is due: the proximity sensor, one frame,
    and the log line of the [except] clause when the sleep raises. *)
Lemma idle_pass_run
  (cfg : Config) (env : Env) (str_num : num -> string) (s : Sample) (w : World) :
  time_time s - previous_time w < Main.update_delay cfg ->
  let w' := Main.mainloop_pass cfg env str_num s w in
  exists f,
    trace w'
    = (trace w ++ [EvProximity; EvDisplay f]
       ++ if sleep_returns cfg then []
          else [EvLog "Mainloop exception occurred"])%list
    /\ bg_red f = mainloop_errors w
    /\ bar_percent f = (time_time s - previous_time w) / Main.update_delay cfg
    /\ previous_time w' = previous_time w
    /\ data w' = data w
    /\ measurement_time w' = measurement_time w
    /\ pms_pending w' = pms_pending w
    /\ mainloop_errors w' = mainloop_errors w || negb (sleep_returns cfg)
    /\ body_completes cfg env str_num s w = sleep_returns cfg.
Proof.
  intros I w'.
  assert (N : Qle_bool (Main.update_delay cfg) (time_time s - previous_time w)
              = false).
  { destruct (Qle_bool _ _) eqn:E; [|reflexivity].
    apply Qle_bool_iff in E. exfalso. exact (Qlt_not_le _ _ I E). }
  unfold w', body_completes, Main.mainloop_pass, sleep_returns.
  rewrite mainloop_body_cases, N.
  destruct (refresh_run env str_num s
              ((time_time s - previous_time w) / Main.update_delay cfg)
              (Main.update_delay cfg * 0.05) w)
    as [txt E].
  rewrite E. destruct w as [pend img tr errs sc pt dt mt'].
  destruct (Qle_bool 0 (Main.update_delay cfg * 0.05));
    cbv [logging emit modify fst snd]; split_trace;
    eexists; (split; [rewrite <- ?app_assoc; reflexivity|]);
    rewrite ?orb_false_r, ?orb_true_r; repeat split.
Qed.



(** X15: on a pass whose sample is due the reference time moves to the time
    of the pass before anything can fail.  If the acquisition returns, its
    reading and time are what the loop keeps, whether or not a sink fails
    afterwards; if it raises, the previous reading is kept, the error flag
    is set, and nothing is printed, stored or displayed on that pass. *)
Theorem reading_is_kept_whatever_the_sinks_do
  (cfg : Config) (env : Env) (str_num : num -> string) (s : Sample) (w : World)
  (D : Main.update_delay cfg <= time_time s - previous_time w) :
  let w' := Main.mainloop_pass cfg env str_num s w in
  previous_time w' = time_time s
  /\ match fst (Main.get_sensor_data cfg s (set_previous_time (time_time s) w)) with
     | Ok (out, t) => data w' = out /\ measurement_time w' = t
     | Raise _ =>
         data w' = data w /\ measurement_time w' = measurement_time w
         /\ mainloop_errors w' = true
         /\ printed (trace w') = printed (trace w)
         /\ sql_commands (trace w') = sql_commands (trace w)
         /\ displayed (trace w') = displayed (trace w)
     end.
Proof.
  intros w'. apply Qle_bool_iff in D.
  destruct (mainloop_pass_effects cfg env str_num s w) as (_ & _ & _ & K).
  destruct (mainloop_pass_summary cfg env str_num s w)
    as (P & _ & _ & _ & E & Di & _).
  rewrite D in K, P. fold w' in K, P, E, Di. split; [exact P|].
  destruct (fst (Main.get_sensor_data cfg s (set_previous_time (time_time s) w)))
    as [[out t] | e] eqn:G; [exact K|].
  destruct K as (K1 & K2 & K3 & K4).
  assert (B : sampling_completes cfg env str_num s w = false).
  { rewrite sampling_completes_cases, D.
    destruct (Main.get_sensor_data cfg s (set_previous_time (time_time s) w))
      as [r w1]. cbn [fst] in G. subst r. reflexivity. }
  rewrite body_completes_cases, B in E. rewrite B in Di.
  repeat split; assumption.
Qed.

Lemma reading_is_kept_whatever_the_sinks_do_witness :
  previous_time
    (Main.mainloop_pass default_config database_down show_num (sample_at 30 0)
       (Main.boot [PmData 3 5]))
  = 30.
Proof.
  apply (reading_is_kept_whatever_the_sinks_do default_config database_down
           show_num (sample_at 30 0) (Main.boot [PmData 3 5])).
  vm_compute. discriminate.
Defined.

Lemma py_int_nonneg (x : Q) : 0 <= x -> py_int x = Qfloor x.
Proof.
  intros P. unfold py_int. apply Qle_bool_iff in P. now rewrite P.
Qed.

(** X16: on a pass that completes, with a positive frequency, a display of
    non-negative width and a clock that has not gone back, the progress bar
    starts at 0 and its right edge is never negative; it stays within the
    display while the elapsed time is at most the interval and reaches or
    passes the display's width from the interval on. *)
Theorem progress_bar_extent
  (cfg : Config) (env : Env) (str_num : num -> string) (s : Sample) (w : World)
  (C : body_completes cfg env str_num s w = true)
  (F : 0 < MEASUREMENT_FREQUENCY cfg)
  (W : (0 <= display_width env)%Z)
  (M : previous_time w <= time_time s) :
  let interval := Main.update_delay cfg in
  let elapsed := time_time s - previous_time w in
  exists f,
    displayed (trace (Main.mainloop_pass cfg env str_num s w))
    = (displayed (trace w) ++ [f])%list
    /\ (0 <= bar_right f)%Z
    /\ (elapsed <= interval -> (bar_right f <= display_width env)%Z)
    /\ (interval <= elapsed -> (display_width env <= bar_right f)%Z).
Proof.
  intros interval elapsed.
  destruct (mainloop_pass_summary cfg env str_num s w)
    as (_ & _ & _ & _ & _ & D & _).
  rewrite (body_completes_sampling cfg env str_num s w C) in D.
  destruct D as (f & D & _ & R & _).
  exists f. split; [exact D|]. rewrite R. fold elapsed interval.
  pose proof (update_delay_pos cfg F) as I. fold interval in I.
  assert (WQ : 0 <= inject_Z (display_width env)).
  { now rewrite <- (Zle_Qle 0). }
  assert (P : 0 <= elapsed / interval).
  { apply Qle_shift_div_l; [exact I|]. unfold elapsed. lra. }
  assert (X : 0 <= inject_Z (display_width env) * (elapsed / interval)).
  { now apply Qmult_le_0_compat. }
  rewrite py_int_nonneg by exact X.
  split; [|split].
  - rewrite <- (Qfloor_Z 0). now apply Qfloor_resp_le.
  - intros L. rewrite <- (Qfloor_Z (display_width env)) at 2.
    apply Qfloor_resp_le.
    assert (elapsed / interval <= 1).
    { apply Qle_shift_div_r; [exact I|]. lra. }
    setoid_replace (inject_Z (display_width env))
      with (inject_Z (display_width env) * 1) at 2 by ring.
    nra.
  - intros G. rewrite <- (Qfloor_Z (display_width env)) at 1.
    apply Qfloor_resp_le.
    assert (1 <= elapsed / interval).
    { apply Qle_shift_div_l; [exact I|]. lra. }
    nra.
Qed.

Lemma progress_bar_extent_witness :
  exists f,
    displayed (trace (Main.mainloop_pass default_config healthy show_num
                        (sample_at 10 0) (Main.boot [PmData 3 5])))
    = [f]
    /\ (0 <= bar_right f)%Z.
Proof.
  destruct (progress_bar_extent default_config healthy show_num (sample_at 10 0)
              (Main.boot [PmData 3 5])) as (f & D & P & _).
  - vm_compute. reflexivity.
  - vm_compute. reflexivity.
  - vm_compute. discriminate.
  - vm_compute. discriminate.
  - exists f. split; [exact D | exact P].
Defined.

(** ** [mainloop] from its start *)

(** Passes that all come before the sample is due. *)
Lemma idle_passes_run
  (cfg : Config) (env : Env) (str_num : num -> string) (samples : list Sample)
  (w : World) :
  (forall s, In s samples ->
             time_time s - previous_time w < Main.update_delay cfg) ->
  let w' := Main.mainloop_passes cfg env str_num samples w in
  previous_time w' = previous_time w
  /\ data w' = data w
  /\ measurement_time w' = measurement_time w
  /\ pms_pending w' = pms_pending w
  /\ count is_bme280 (trace w') = count is_bme280 (trace w)
  /\ printed (trace w') = printed (trace w)
  /\ sql_commands (trace w') = sql_commands (trace w)
  /\ List.length (displayed (trace w'))
     = (List.length (displayed (trace w)) + List.length samples)%nat.
Proof.
  revert w. induction samples as [|s ss IH]; intros w Q.
  - cbn. repeat split. lia.
  - cbn zeta. rewrite main_passes_cons.
    destruct (idle_pass_run cfg env str_num s w (Q s (or_introl eq_refl)))
      as (f & T & _ & _ & P & D & M & Pm & _).
    destruct (IH (Main.mainloop_pass cfg env str_num s w))
      as (P' & D' & M' & Pm' & B' & Pr' & S' & Di').
    { intros s' I. rewrite P. apply Q. now right. }
    rewrite P', D', M', Pm', B', Pr', S', Di', T.
    rewrite !count_app, !printed_app, !sql_commands_app, !displayed_app,
      !length_app.
    destruct (sleep_returns cfg); cbn; rewrite ?app_nil_r;
      repeat split; try assumption; lia.
Qed.

(** The statements a run of passes executes are [INSERT]s of
    [send_to_local_db], at most one for each pass. *)
Lemma main_passes_rows
  (cfg : Config) (env : Env) (str_num : num -> string) (samples : list Sample)
  (w : World) :
  exists rows,
    sql_commands (trace (Main.mainloop_passes cfg env str_num samples w))
    = (sql_commands (trace w) ++ rows)%list
    /\ (List.length rows <= List.length samples)%nat
    /\ Forall (fun r => exists out t,
                         r = Main.insert_command cfg env str_num out t) rows.
Proof.
  revert w. induction samples as [|s ss IH]; intros w.
  - exists []. cbn. rewrite app_nil_r. repeat split; [lia | apply Forall_nil].
  - rewrite main_passes_cons.
    destruct (IH (Main.mainloop_pass cfg env str_num s w)) as (rows' & S' & L' & F').
    destruct (mainloop_pass_effects cfg env str_num s w)
      as (_ & _ & (lines & rows & _ & S & _ & L & F) & _).
    exists (rows ++ rows')%list. rewrite S', S, <- app_assoc, length_app.
    split; [reflexivity|]. split.
    + cbn [List.length].
      destruct (Qle_bool _ _ && SAVE_DATA_LOCALLY cfg) in L; lia.
    + apply Forall_app. split; assumption.
Qed.

(** [mainloop] with a frequency that is not zero. *)
Lemma mainloop_run
  (cfg : Config) (env : Env) (str_num : num -> string) (api : bool) (start : Q)
  (now : string) (samples : list Sample) (w : World) :
  ~ MEASUREMENT_FREQUENCY cfg == 0 ->
  let w0 := set_measurement_time "-" (set_data [] (set_previous_time start w)) in
  Storage.mainloop cfg env str_num api start now samples w
  = if SAVE_DATA_LOCALLY cfg then
      match db_fault env with
      | Some e => (Raise e, w0)
      | None =>
          (Ok tt,
           Main.mainloop_passes cfg
             (Storage.set_table_name (Storage.make_table_name now) env) str_num
             samples
             (set_trace (trace w0 ++ [EvSql (Storage.create_command cfg api now)])
                w0))
      end
    else (Ok tt, Main.mainloop_passes cfg env str_num samples w0).
Proof.
  intros F w0. unfold Storage.mainloop.
  destruct (Qeq_bool (MEASUREMENT_FREQUENCY cfg) 0) eqn:Z0.
  { apply Qeq_bool_iff in Z0. contradiction. }
  unfold Storage.init_local_db, Main.db_execute.
  destruct (SAVE_DATA_LOCALLY cfg); [destruct (db_fault env)|]; reflexivity.
Qed.

(** X17: [mainloop] takes no sample at its start.  While the passes come
    before one interval after the clock read at entry, the sensors are not
    read, nothing is printed, the only statement executed is the creation of
    the table when rows are to be saved, the reading is the empty dictionary
    and its time is "-", and each pass draws one frame. *)
Theorem no_sample_before_the_first_interval
  (cfg : Config) (env : Env) (str_num : num -> string) (api : bool) (start : Q)
  (now : string) (samples : list Sample) (w : World)
  (F : ~ MEASUREMENT_FREQUENCY cfg == 0)
  (Q : forall s, In s samples -> time_time s - start < Main.update_delay cfg)
  (D : SAVE_DATA_LOCALLY cfg = true -> db_fault env = None) :
  exists w',
    Storage.mainloop cfg env str_num api start now samples w = (Ok tt, w')
    /\ count is_bme280 (trace w') = count is_bme280 (trace w)
    /\ data w' = []
    /\ measurement_time w' = "-"
    /\ previous_time w' = start
    /\ printed (trace w') = printed (trace w)
    /\ sql_commands (trace w')
       = (sql_commands (trace w)
          ++ if SAVE_DATA_LOCALLY cfg
             then [Storage.create_command cfg api now] else [])%list
    /\ List.length (displayed (trace w'))
       = (List.length (displayed (trace w)) + List.length samples)%nat.
Proof.
  rewrite (mainloop_run cfg env str_num api start now samples w F).
  destruct (SAVE_DATA_LOCALLY cfg).
  - rewrite (D eq_refl). eexists. split; [reflexivity|].
    match goal with
    | |- context [Main.mainloop_passes cfg ?e str_num samples ?W] =>
        destruct (idle_passes_run cfg e str_num samples W)
          as (P & Da & M & _ & B & Pr & S & Di); [exact Q|]
    end.
    rewrite P, Da, M, B, Pr, S, Di.
    destruct w as [pend img tr errs sc pt dt mt'].
    cbn [trace set_trace set_measurement_time set_data set_previous_time
         data measurement_time previous_time].
    rewrite count_app, printed_app, sql_commands_app, displayed_app.
    cbn. rewrite ?app_nil_r. repeat split; lia.
  - eexists. split; [reflexivity|].
    destruct (idle_passes_run cfg env str_num samples
                (set_measurement_time "-" (set_data [] (set_previous_time start w))))
      as (P & Da & M & _ & B & Pr & S & Di); [exact Q|].
    rewrite P, Da, M, B, Pr, S, Di, app_nil_r. repeat split.
Qed.

Lemma no_sample_before_the_first_interval_witness :
  exists w',
    Storage.mainloop default_config healthy show_num false 100
      "2023-03-08 12:00:00.000000"
      [sample_at 101 0; sample_at 129 1501] (Main.boot [PmData 3 5])
    = (Ok tt, w')
    /\ data w' = [] /\ printed (trace w') = [].
Proof.
  destruct (no_sample_before_the_first_interval default_config healthy show_num
              false 100 "2023-03-08 12:00:00.000000"
              [sample_at 101 0; sample_at 129 1501] (Main.boot [PmData 3 5]))
    as (w' & E & _ & D & _ & _ & P & _).
  - intros E. discriminate E.
  - intros s [<- | [<- | []]]; vm_compute; reflexivity.
  - reflexivity.
  - exists w'. split; [exact E | split; [exact D | exact P]].
Defined.

(** X18: when rows are saved and the database works, [mainloop] first
    creates the table and then only inserts: every later statement is an
    [INSERT] into the table just created, with the time and one value for
    each enabled column, and there is at most one of them for each pass. *)
Theorem rows_go_to_the_created_table
  (cfg : Config) (env : Env) (str_num : num -> string) (api : bool) (start : Q)
  (now : string) (samples : list Sample) (w : World)
  (F : ~ MEASUREMENT_FREQUENCY cfg == 0)
  (L : SAVE_DATA_LOCALLY cfg = true)
  (D : db_fault env = None) :
  exists w' rows,
    Storage.mainloop cfg env str_num api start now samples w = (Ok tt, w')
    /\ sql_commands (trace w')
       = (sql_commands (trace w) ++ Storage.create_command cfg api now :: rows)%list
    /\ (List.length rows <= List.length samples)%nat
    /\ Forall
         (fun r =>
            exists values,
              r = "INSERT INTO " ++ Storage.make_table_name now ++ " VALUES ("
                  ++ String.concat "," values ++ ")"
              /\ List.length values = S (List.length (enabled_schema cfg)))
         rows.
Proof.
  rewrite (mainloop_run cfg env str_num api start now samples w F), L, D.
  match goal with
  | |- context [Main.mainloop_passes cfg ?e str_num samples ?W] =>
      destruct (main_passes_rows cfg e str_num samples W) as (rows & E & B & R)
  end.
  eexists. exists rows. split; [reflexivity|]. rewrite E.
  destruct w as [pend img tr errs sc pt dt mt'].
  cbn [trace set_trace set_measurement_time set_data set_previous_time].
  rewrite sql_commands_app. cbn [sql_commands]. 
  split; [now rewrite <- app_assoc|]. split; [exact B|].
  eapply Forall_impl; [|exact R]. intros r (out & t & ->).
  rewrite insert_command_joined. eexists. split; [reflexivity|].
  cbn [List.length]. now rewrite length_map.
Qed.

Lemma rows_go_to_the_created_table_witness :
  exists w' rows,
    Storage.mainloop default_config healthy show_num false 0
      "2023-03-08 12:00:00.000000" [sample_at 30 0] (Main.boot [PmData 3 5])
    = (Ok tt, w')
    /\ sql_commands (trace w')
       = Storage.create_command default_config false "2023-03-08 12:00:00.000000"
         :: rows
    /\ (List.length rows <= 1)%nat.
Proof.
  destruct (rows_go_to_the_created_table default_config healthy show_num false 0
              "2023-03-08 12:00:00.000000" [sample_at 30 0]
              (Main.boot [PmData 3 5]))
    as (w' & rows & E & C & B & _).
  - intros E. discriminate E.
  - reflexivity.
  - reflexivity.
  - exists w', rows. split; [exact E | split; [exact C | exact B]].
Defined.

(** X19: the two ways [mainloop] ends before its first pass.  A zero
    [MEASUREMENT_FREQUENCY] raises [ZeroDivisionError] with nothing done;
    with rows to be saved, what the creation of the table raises leaves
    [mainloop], and no sensor is read and no frame drawn. *)
Theorem mainloop_stops_before_the_first_pass
  (cfg : Config) (env : Env) (str_num : num -> string) (api : bool) (start : Q)
  (now : string) (samples : list Sample) (w : World) :
  let run := Storage.mainloop cfg env str_num api start now samples w in
  (MEASUREMENT_FREQUENCY cfg == 0 -> run = (Raise ZeroDivisionError, w))
  /\ (~ MEASUREMENT_FREQUENCY cfg == 0 ->
      SAVE_DATA_LOCALLY cfg = true ->
      forall e, db_fault env = Some e ->
                fst run = Raise e /\ trace (snd run) = trace w).
Proof.
  intros run. split.
  - intros Z0. unfold run, Storage.mainloop.
    apply Qeq_bool_iff in Z0. now rewrite Z0.
  - intros F L e D. unfold run.
    rewrite (mainloop_run cfg env str_num api start now samples w F), L, D.
    destruct w; split; reflexivity.
Qed.

(** ** The wait for a start minute *)

Lemma start_gate_found (m : Z) (minutes : list Z) (polls : nat) :
  m <> 0%Z ->
  forall r,
    Startup.start_gate m minutes polls = Ok (Some r)
    <-> exists n minute,
          r = S (polls + n)
          /\ nth_error minutes n = Some minute
          /\ (minute mod m = 0)%Z
          /\ forall i x, (i < n)%nat -> nth_error minutes i = Some x ->
               (x mod m <> 0)%Z.
Proof.
  intros NZ. revert polls.
  induction minutes as [|a l IH]; intros polls r; cbn [Startup.start_gate].
  - split; [discriminate|]. intros (n & x & _ & N & _). destruct n; discriminate.
  - destruct (Z.eqb_spec m 0) as [|_]; [contradiction|].
    destruct (Z.eqb_spec (a mod m) 0) as [E|E].
    + split.
      * intros [= <-]. exists 0%nat, a.
        split; [f_equal; lia|]. split; [reflexivity|]. split; [exact E|].
        intros i x L; lia.
      * intros (n & x & -> & N & Mx & B). destruct n as [|n].
        { do 2 f_equal. lia. }
        exfalso. apply (B 0%nat a); [lia|reflexivity|exact E].
    + rewrite IH. split.
      * intros (n & x & -> & N & Mx & B). exists (S n), x.
        split; [lia|]. split; [exact N|]. split; [exact Mx|].
        intros [|i] y L Y; cbn in Y.
        { now injection Y as <-. }
        apply (B i y); [lia|exact Y].
      * intros (n & x & -> & N & Mx & B). destruct n as [|n].
        { cbn in N. injection N as <-. contradiction. }
        exists n, x.
        split; [lia|]. split; [exact N|]. split; [exact Mx|].
        intros i y L Y. apply (B (S i) y); [lia|exact Y].
Qed.

Lemma start_gate_pending (m : Z) (minutes : list Z) (polls : nat) :
  m <> 0%Z ->
  Startup.start_gate m minutes polls = Ok None
  <-> forall x, In x minutes -> (x mod m <> 0)%Z.
Proof.
  intros NZ. revert polls.
  induction minutes as [|a l IH]; intros polls; cbn [Startup.start_gate].
  - split; [intros _ x []|reflexivity].
  - destruct (Z.eqb_spec m 0) as [|_]; [contradiction|].
    destruct (Z.eqb_spec (a mod m) 0) as [E|E].
    + split; [discriminate|]. intros B. exfalso. apply (B a); [now left|exact E].
    + rewrite IH. split.
      * intros B x [<-|I]; auto.
      * intros B x I. apply B. now right.
Qed.

(** X20: with a modulus that is not zero, the wait before the main loop
    ends at the first read of the clock whose minute is a multiple of
    [START_AT_MULTIPLE_OF] and at no other; it goes on while no such minute
    is read, and it never raises. *)
Theorem acquisition_starts_at_the_first_multiple
  (START_AT_MULTIPLE_OF : Z) (minutes : list Z)
  (NZ : START_AT_MULTIPLE_OF <> 0%Z) :
  (forall reads,
     Startup.wait_for_start false START_AT_MULTIPLE_OF minutes
     = Ok (Some reads)
     <-> exists n minute,
           reads = S n
           /\ nth_error minutes n = Some minute
           /\ (minute mod START_AT_MULTIPLE_OF = 0)%Z
           /\ forall i x, (i < n)%nat -> nth_error minutes i = Some x ->
                (x mod START_AT_MULTIPLE_OF <> 0)%Z)
  /\ (Startup.wait_for_start false START_AT_MULTIPLE_OF minutes = Ok None
      <-> forall x, In x minutes -> (x mod START_AT_MULTIPLE_OF <> 0)%Z)
  /\ (forall e,
        Startup.wait_for_start false START_AT_MULTIPLE_OF minutes <> Raise e).
Proof.
  unfold Startup.wait_for_start. split; [|split].
  - intros reads. rewrite (start_gate_found _ _ _ NZ). reflexivity.
  - apply start_gate_pending, NZ.
  - intros e.
    destruct (Startup.start_gate START_AT_MULTIPLE_OF minutes 0) as [[r|]|e']
      eqn:G; try discriminate.
    exfalso. clear e. revert G. generalize 0%nat.
    induction minutes as [|a l IH]; intros k; cbn [Startup.start_gate].
    + discriminate.
    + destruct (Z.eqb_spec START_AT_MULTIPLE_OF 0) as [|_]; [contradiction|].
      destruct (a mod START_AT_MULTIPLE_OF =? 0)%Z; [discriminate|apply IH].
Qed.

Lemma acquisition_starts_at_the_first_multiple_witness :
  Startup.wait_for_start false 5 [13; 14; 15; 16]%Z = Ok (Some 3%nat).
Proof.
  apply (proj1 (acquisition_starts_at_the_first_multiple 5 [13; 14; 15; 16]%Z
                  ltac:(discriminate))).
  exists 2%nat, 15%Z. repeat split.
  intros [|[|i]] x L E; try lia; cbn in E; injection E as <-; discriminate.
Defined.

(** X21: the settings at the edges of the wait.  With
    [INSTANT_ACQUISITION_START] the clock is not read at all; a modulus of
    zero raises [ZeroDivisionError] at the first read; a modulus above 59
    lets the acquisition start only when the minute read is 0. *)
Theorem start_settings_at_the_edges
  (START_AT_MULTIPLE_OF : Z) (minutes : list Z) :
  Startup.wait_for_start true START_AT_MULTIPLE_OF minutes = Ok (Some 0%nat)
  /\ (minutes <> [] ->
      Startup.wait_for_start false 0 minutes = Raise ZeroDivisionError)
  /\ ((59 < START_AT_MULTIPLE_OF)%Z ->
      (forall x, In x minutes -> (0 <= x <= 59)%Z) ->
      forall reads,
        Startup.wait_for_start false START_AT_MULTIPLE_OF minutes
        = Ok (Some reads) ->
        nth_error minutes (pred reads) = Some 0%Z).
Proof.
  split; [reflexivity|split].
  - destruct minutes; [contradiction|reflexivity].
  - intros L R reads G.
    assert (NZ : START_AT_MULTIPLE_OF <> 0%Z) by lia.
    unfold Startup.wait_for_start in G.
    apply (proj1 (start_gate_found _ _ _ NZ _))
      in G as (n & x & -> & N & Mx & _).
    cbn [Nat.add Nat.pred]. rewrite N. f_equal.
    assert (I : In x minutes) by (eapply nth_error_In; eauto).
    specialize (R x I). rewrite Z.mod_small in Mx; lia.
Qed.

(** ** emi_test.py: the local store and the loop *)

(** What [read_values] leaves behind and what it returns. *)
Lemma read_values_effect
  (str_num : num -> string) (format_2f : Q -> string) (s : Sample) (w : World)
  (r : result (list (string * string) * string)) (w1 : World) :
  EmiTest.read_values str_num format_2f s w = (r, w1) ->
  exists evs p,
    w1 = set_pms_pending p
           (set_trace (trace w ++ [EvBme280; EvBme280; EvBme280] ++ evs) w)
    /\ forallb is_acquiring evs = true
    /\ match r with
       | Ok (values, t) =>
           t = datetime_now s
           /\ exists pm25 pm10,
                values = (climate_values format_2f s
                          ++ [("P2", str_num (Int pm25));
                              ("P1", str_num (Int pm10))])%list
       | Raise _ => True
       end.
Proof.
  destruct w as [pend img tr errs sc pt dt mt'].
  unfold EmiTest.read_values, EmiTest.bme280_get, pms5003_read, climate_values.
  run.
  destruct pend as [|[a b | e] rest]; cbn;
    [ | | destruct e; cbn; try (destruct rest as [|[a b | e2] rest]; cbn) ];
    intros H; inversion H; subst; clear H;
    eexists; eexists; (split; [cbn; rewrite <- ?app_assoc; cbn; reflexivity|]);
    (split; [reflexivity|]);
    first [ exact I | split; [reflexivity | eexists; eexists; reflexivity] ].
Qed.

Lemma add_data_to_db_on_read_values
  (env : Env) (format_2f : Q -> string) (s : Sample) (time p2 p1 : string)
  (w : World) :
  EmiLoop.add_data_to_db env time
    (climate_values format_2f s ++ [("P2", p2); ("P1", p1)]) w
  = (Raise (KeyError "pm10"), w).
Proof. reflexivity. Qed.

(** X22: [add_data_to_db] cannot store what [read_values] returns.  A
    reading has the keys temperature, pressure, humidity, P2 and P1;
    [add_data_to_db] asks for "pm10" and "pm25" and raises [KeyError] before
    any statement is executed. *)
Theorem add_data_to_db_rejects_every_reading
  (env : Env) (str_num : num -> string) (format_2f : Q -> string) (s : Sample)
  (w w1 w2 : World) (values : list (string * string)) (t time : string)
  (H : EmiTest.read_values str_num format_2f s w = (Ok (values, t), w1)) :
  map fst values = ["temperature"; "pressure"; "humidity"; "P2"; "P1"]
  /\ EmiLoop.add_data_to_db env time values w2 = (Raise (KeyError "pm10"), w2).
Proof.
  apply read_values_effect in H as (evs & p & _ & _ & _ & (a & b & ->)).
  split; [reflexivity | apply add_data_to_db_on_read_values].
Qed.

Lemma add_data_to_db_rejects_every_reading_witness :
  EmiLoop.add_data_to_db healthy "2023-03-08 12:00:00.000000"
    [("temperature", "11.*"); ("pressure", "1013.*"); ("humidity", "40.*");
     ("P2", "3"); ("P1", "5")] (Main.boot [])
  = (Raise (KeyError "pm10"), Main.boot []).
Proof.
  apply (add_data_to_db_rejects_every_reading healthy show_num
           (fun q => show_num (Float q)) (sample_at 0 0)
           (Main.boot [PmData 3 5])
           (snd (EmiTest.read_values show_num (fun q => show_num (Float q))
                   (sample_at 0 0) (Main.boot [PmData 3 5])))
           (Main.boot []) _ "2023-03-08 12:00:00.000000").
  vm_compute. reflexivity.
Defined.

(** One pass of the loop of emi_test.py, stage by stage. *)
Lemma emi_mainloop_body_cases
  (env : Env) (str_num : num -> string) (format_2f : Q -> string)
  (str_values : list (string * string) -> string) (local : bool) (id : string)
  (s : Sample) (reset_time : Q) (w : World) :
  EmiLoop.mainloop_body env str_num format_2f str_values local id s reset_time w
  = match EmiTest.read_values str_num format_2f s w with
    | (Raise e, w1) => (Raise e, w1)
    | (Ok (values, t), w1) =>
        match console_fault env with
        | Some e => (Raise e, w1)
        | None =>
            let w2 :=
              set_trace (trace w1 ++ [EvPrint (t ++ " " ++ str_values values);
                                      EvPrint ""]) w1 in
            if negb (Qle_bool (time_time s - previous_time w1) 30) then
              let w3 :=
                set_previous_time reset_time
                  (set_trace (trace w1 ++ [EvPrint (t ++ " " ++ str_values values);
                                           EvPrint "";
                                           EvLog (str_values values)]) w1) in
              if local then EmiLoop.add_data_to_db env t values w3
              else
                (sent <- EmiTest.send_to_luftdaten env values id ;;
                 if sent then logging "Luftdaten Response: OK"
                 else logging "Luftdaten Response: Failed") w3
            else (Ok tt, w2)
        end
    end.
Proof.
  unfold EmiLoop.mainloop_body, Main.print.
  cbv [bind].
  destruct (EmiTest.read_values str_num format_2f s w) as [[[values t] | e] w1];
    [|reflexivity].
  cbn [fst snd].
  destruct (console_fault env); [reflexivity|].
  destruct w1 as [pend img tr errs sc pt dt mt'].
  cbv [emit modify gets logging set_trace set_previous_time]. cbv zeta.
  cbn [previous_time trace pms_pending image mainloop_errors current_scene_id
       data measurement_time].
  destruct (negb (Qle_bool (time_time s - pt) 30)); cbv beta;
    cbn [previous_time trace pms_pending image mainloop_errors current_scene_id
         data measurement_time];
    rewrite <- ?app_assoc; cbn [app]; try reflexivity.
  destruct local; reflexivity.
Qed.

(** What [send_to_luftdaten] of emi_test.py leaves behind: two posts and
    log lines, nothing else. *)
Lemma emi_send_to_luftdaten_effect
  (env : Env) (values : list (string * string)) (id : string) (w : World) :
  exists evs sent,
    EmiTest.send_to_luftdaten env values id w
    = (Ok sent, set_trace (trace w ++ evs) w)
    /\ count is_bme280 evs = 0%nat
    /\ sql_commands evs = []
    /\ List.length (posts evs) = 2%nat.
Proof.
  destruct w as [pend img tr errs sc pt dt mt'].
  unfold EmiTest.send_to_luftdaten, EmiTest.try_post, EmiTest.requests_post,
    EmiTest.post_handlers, logging.
  run. case_server env; eexists; eexists;
    (split; [rewrite <- ?app_assoc; cbn [app]; reflexivity|]);
    repeat split.
Qed.

(** What one pass of the loop of emi_test.py leaves behind. *)
Lemma emi_mainloop_pass_summary
  (env : Env) (str_num : num -> string) (format_2f : Q -> string)
  (str_values : list (string * string) -> string) (local : bool) (id : string)
  (s : Sample) (reset_time : Q) (w : World) :
  let pass :=
    EmiLoop.mainloop_pass env str_num format_2f str_values local id s
      reset_time w in
  let due := negb (Qle_bool (time_time s - previous_time w) 30) in
  count is_bme280 (trace pass) = (count is_bme280 (trace w) + 3)%nat
  /\ mainloop_errors pass = mainloop_errors w
  /\ (local = true -> sql_commands (trace pass) = sql_commands (trace w))
  /\ (local = true -> posts (trace pass) = posts (trace w))
  /\ (due = false ->
      previous_time pass = previous_time w
      /\ sql_commands (trace pass) = sql_commands (trace w)
      /\ posts (trace pass) = posts (trace w))
  /\ (due = true ->
      match fst (EmiTest.read_values str_num format_2f s w), console_fault env with
      | Ok _, None => previous_time pass = reset_time
      | _, _ => previous_time pass = previous_time w
      end).
Proof.
  intros pass due. unfold pass, EmiLoop.mainloop_pass.
  rewrite emi_mainloop_body_cases.
  destruct (EmiTest.read_values str_num format_2f s w) as [r w1] eqn:R.
  apply read_values_effect in R as (evs & p & -> & ACQ & V).
  destruct (acquiring_events _ ACQ) as (B & _ & Po & Sq & _ & _).
  cbn [fst].
  destruct r as [[values t] | e].
  - destruct V as (-> & a & b & ->).
    destruct (console_fault env).
    + cbv [logging emit modify fst snd]; split_trace; rewrite ?B, ?Po, ?Sq;
        eval_trace; rewrite ?app_nil_r.
      repeat split; try lia; intros _; reflexivity.
    + cbn [previous_time set_pms_pending set_trace]. fold due.
      destruct due; cbv zeta.
      * destruct local.
        -- rewrite add_data_to_db_on_read_values.
           cbv [logging emit modify fst snd]; split_trace; rewrite ?B, ?Po, ?Sq;
             eval_trace; rewrite ?app_nil_r.
           repeat split; try lia; try discriminate; intros _; reflexivity.
        -- cbv [bind].
           match goal with
           | |- context [EmiTest.send_to_luftdaten env ?v id ?W] =>
               destruct (emi_send_to_luftdaten_effect env v id W)
                 as (pevs & sent & E & PB & PS & _); rewrite E
           end.
           destruct sent; cbv [logging emit modify fst snd]; split_trace;
             rewrite ?B, ?Po, ?Sq, ?PB, ?PS; eval_trace; rewrite ?app_nil_r;
             repeat split; try lia; try discriminate; intros _; reflexivity.
      * cbv [fst snd]; split_trace; rewrite ?B, ?Po, ?Sq; eval_trace;
          rewrite ?app_nil_r.
        repeat split; try lia; try discriminate; intros _; reflexivity.
  - cbv [logging emit modify fst snd]; split_trace; rewrite ?B, ?Po, ?Sq;
      eval_trace; rewrite ?app_nil_r.
    repeat split; try lia; intros _; reflexivity.
Qed.

Lemma emi_passes_cons
  (env : Env) (str_num : num -> string) (format_2f : Q -> string)
  (str_values : list (string * string) -> string) (local : bool) (id : string)
  (sr : Sample * Q) (rest : list (Sample * Q)) (w : World) :
  EmiLoop.mainloop_passes env str_num format_2f str_values local id
    (sr :: rest) w
  = EmiLoop.mainloop_passes env str_num format_2f str_values local id rest
      (EmiLoop.mainloop_pass env str_num format_2f str_values local id
         (fst sr) (snd sr) w).
Proof. reflexivity. Qed.

(** X23: the script runs [mainloop(local=True)], and in that mode the loop
    never stores or sends anything: whatever the sensors answer and however
    many passes are made, no statement is executed and no request posted,
    while the climate sensor is read three times on every pass. *)
Theorem emi_local_store_is_never_written
  (env : Env) (str_num : num -> string) (format_2f : Q -> string)
  (str_values : list (string * string) -> string) (id : string)
  (samples : list (Sample * Q)) (w : World) :
  let final :=
    EmiLoop.mainloop_passes env str_num format_2f str_values true id samples w in
  sql_commands (trace final) = sql_commands (trace w)
  /\ posts (trace final) = posts (trace w)
  /\ count is_bme280 (trace final)
     = (count is_bme280 (trace w) + 3 * List.length samples)%nat.
Proof.
  revert w. induction samples as [|sr rest IH]; intros w.
  - cbn. repeat split. lia.
  - cbv zeta. rewrite emi_passes_cons.
    destruct (IH (EmiLoop.mainloop_pass env str_num format_2f str_values true
                    id (fst sr) (snd sr) w)) as (S1 & P1 & B1).
    destruct (emi_mainloop_pass_summary env str_num format_2f str_values true
                id (fst sr) (snd sr) w) as (B & _ & S0 & P0 & _).
    rewrite S1, P1, B1, B, S0, P0 by reflexivity.
    cbn [List.length]. repeat split. lia.
Qed.

(** X24: the cadence of emi_test.py.  The sensors are read on every pass,
    due or not.  Up to and including 30 seconds after the reference time
    nothing is dispatched and the reference time stays; after strictly more
    than 30 seconds, when the reading and the printing succeed, the
    reference time becomes the second reading of the clock, and with
    [local=False] exactly two requests are posted. *)
Theorem emi_dispatch_after_thirty_seconds
  (env : Env) (str_num : num -> string) (format_2f : Q -> string)
  (str_values : list (string * string) -> string) (local : bool) (id : string)
  (s : Sample) (reset_time : Q) (w : World) :
  let pass :=
    EmiLoop.mainloop_pass env str_num format_2f str_values local id s
      reset_time w in
  let elapsed := time_time s - previous_time w in
  count is_bme280 (trace pass) = (count is_bme280 (trace w) + 3)%nat
  /\ (elapsed <= 30 ->
      previous_time pass = previous_time w
      /\ sql_commands (trace pass) = sql_commands (trace w)
      /\ posts (trace pass) = posts (trace w))
  /\ (30 < elapsed ->
      console_fault env = None ->
      (exists reading, fst (EmiTest.read_values str_num format_2f s w)
                       = Ok reading) ->
      previous_time pass = reset_time
      /\ (local = false ->
          List.length (posts (trace pass))
          = (List.length (posts (trace w)) + 2)%nat)).
Proof.
  intros pass elapsed.
  destruct (emi_mainloop_pass_summary env str_num format_2f str_values local
              id s reset_time w) as (B & _ & _ & _ & Q & D).
  fold pass in B, Q, D. fold elapsed in Q, D.
  split; [exact B|split].
  - intros L. apply Q. apply negb_false_iff, Qle_bool_iff, L.
  - intros L C (reading & R).
    assert (DUE : negb (Qle_bool elapsed 30) = true).
    { apply negb_true_iff. destruct (Qle_bool elapsed 30) eqn:E; [|reflexivity].
      apply Qle_bool_iff in E. lra. }
    specialize (D DUE). rewrite R, C in D. split; [exact D|].
    intros ->. unfold pass, EmiLoop.mainloop_pass.
    rewrite emi_mainloop_body_cases.
    destruct (EmiTest.read_values str_num format_2f s w) as [r w1] eqn:RV.
    cbn [fst] in R. subst r. destruct reading as [values t].
    apply read_values_effect in RV as (evs & p & -> & ACQ & _).
    destruct (acquiring_events _ ACQ) as (_ & _ & Po & _).
    rewrite C. cbn [previous_time set_pms_pending set_trace].
    fold elapsed. rewrite DUE. cbv zeta. cbv [bind].
    match goal with
    | |- context [EmiTest.send_to_luftdaten env ?v id ?W] =>
        destruct (emi_send_to_luftdaten_effect env v id W)
          as (pevs & sent & E & _ & _ & PL); rewrite E
    end.
    destruct sent; cbv [logging emit modify fst snd]; split_trace;
      rewrite ?Po; eval_trace; rewrite ?app_nil_r, ?length_app, PL; reflexivity.
Qed.

Lemma read_values_retries_witness :
  count is_pms_reset
    (trace (snd (EmiTest.read_values show_num (fun q => show_num (Float q))
                   (sample_at 0 0)
                   (Main.boot [PmFail ReadTimeoutError; PmData 3 5]))))
  = 1%nat.
Proof.
  destruct (read_values_retries show_num (fun q => show_num (Float q))
              (sample_at 0 0) (Main.boot [PmFail ReadTimeoutError; PmData 3 5])
              ReadTimeoutError (PmData 3 5) [] eq_refl (or_introl eq_refl))
    as (R & _).
  exact R.
Defined.

Lemma read_values_other_error_witness :
  fst (EmiTest.read_values show_num (fun q => show_num (Float q))
         (sample_at 0 0) (Main.boot [PmFail OSError; PmData 3 5]))
  = Raise OSError.
Proof.
  destruct (read_values_other_error show_num (fun q => show_num (Float q))
              (sample_at 0 0) (Main.boot [PmFail OSError; PmData 3 5])
              OSError [PmData 3 5] eq_refl) as (R & _).
  - discriminate.
  - discriminate.
  - exact R.
Defined.
